(** * moz-mcp: the Moz JSON-RPC client and its competitor analysis

    A shallow embedding of [src/moz-client.ts] (class [MozApiClient]):
    credential resolution in the constructor, the JSON-RPC envelope and
    its unwrapping in [sendRequest], the endpoint wrappers with their
    defaults, the compound [getCompetitorAnalysis] and the derived
    findings of [generateCompetitorInsights].

    Conventions of the embedding.
    - Remote payloads are untyped in the source ([any]); they are values
      of [JsVal], with objects as association lists in insertion order
      that list each key once.
    - Numbers are the integers [Z] (scores, counts, ranks, error codes):
      on the safe-integer range comparison and decimal printing agree
      with JavaScript's doubles.
    - Text is a [string] of 8-bit characters; on ASCII text length,
      lower-casing, ordering and substring search agree with
      JavaScript's UTF-16 strings.
    - ToString, ToPrimitive and [toLocaleString] are those of
      primitive values and of arrays and objects that keep the
      inherited methods.  An object of a payload with an own property
      named [toString] or [toLocaleString] makes JavaScript raise a
      TypeError where the value is printed or compared; the properties
      that depend on a printed or compared value of a payload state
      the values they cover ([primitive], [printable],
      [scoreOrAbsent], [asciiText] below).
    - A JavaScript exception is a [Throw] completion; [console.error]
      diagnostics are not part of the observable result and are left
      out, except for the line the constructor prints. *)

From Stdlib Require Import ZArith List String Ascii Bool Lia DecimalString.
Import ListNotations.
Open Scope string_scope.

#[local] Set Warnings "-register-all".

(** ** JavaScript values *)

Inductive JsVal : Type :=
| JUndefined
| JNull
| JBool (b : bool)
| JNum (n : Z)
| JStr (s : string)
| JArr (items : list JsVal)
| JObj (fields : list (string * JsVal)).

(** A thrown [Error] object: its constructor name and its message. *)
Record Thrown : Type := mkThrown { name : string; message : string }.

Definition Error (msg : string) : Thrown := mkThrown "Error" msg.
Definition TypeError (msg : string) : Thrown := mkThrown "TypeError" msg.

(** [String(error)] for an [Error] object. *)
Definition Thrown_toString (e : Thrown) : string :=
  name e ++ ": " ++ message e.

Inductive Completion (A : Type) : Type :=
| Return (a : A)
| Throw (e : Thrown).
Arguments Return {A} a.
Arguments Throw {A} e.

Definition cbind {A B} (c : Completion A) (k : A -> Completion B) : Completion B :=
  match c with
  | Return a => k a
  | Throw e => Throw e
  end.

Declare Scope completion_scope.
Delimit Scope completion_scope with completion.
Notation "x <- c ;; k" := (cbind c (fun x => k))
  (at level 61, c at next level, right associativity) : completion_scope.

Module Js.

(** ToBoolean. *)
Definition truthy (v : JsVal) : bool :=
  match v with
  | JUndefined | JNull => false
  | JBool b => b
  | JNum n => negb (n =? 0)%Z
  | JStr s => negb (s =? "")
  | JArr _ | JObj _ => true
  end.

Fixpoint lookup (k : string) (fields : list (string * JsVal)) : option JsVal :=
  match fields with
  | [] => None
  | (k', v) :: rest => if k' =? k then Some v else lookup k rest
  end.

(** [o.k] on a value that is neither [null] nor [undefined]: own
    properties of an object, [length] of an array or a string; every
    other name read in the source is absent from the prototypes. *)
Definition member (v : JsVal) (k : string) : JsVal :=
  match v with
  | JObj fields =>
      match lookup k fields with Some x => x | None => JUndefined end
  | JArr items =>
      if k =? "length" then JNum (Z.of_nat (List.length items)) else JUndefined
  | JStr s =>
      if k =? "length" then JNum (Z.of_nat (String.length s)) else JUndefined
  | _ => JUndefined
  end.

Definition nullish (v : JsVal) : bool :=
  match v with JUndefined | JNull => true | _ => false end.

Definition nullish_name (v : JsVal) : string :=
  match v with JNull => "null" | _ => "undefined" end.

(** [v.k]: a TypeError on [null] and [undefined]. *)
Definition get (v : JsVal) (k : string) : Completion JsVal :=
  if nullish v
  then Throw (TypeError ("Cannot read properties of " ++ nullish_name v
                         ++ " (reading '" ++ k ++ "')"))
  else Return (member v k).

(** [v?.k]. *)
Definition optGet (v : JsVal) (k : string) : JsVal :=
  if nullish v then JUndefined else member v k.

(** [v?.k1?.k2 ...]. *)
Definition chain (v : JsVal) (path : list string) : JsVal :=
  fold_left optGet path v.

(** [o.k = x] on an object: an existing key keeps its position, a new
    key is appended. *)
Fixpoint assign (fields : list (string * JsVal)) (k : string) (x : JsVal)
  : list (string * JsVal) :=
  match fields with
  | [] => [(k, x)]
  | (k', v) :: rest =>
      if k' =? k then (k', x) :: rest else (k', v) :: assign rest k x
  end.

Definition set (o : JsVal) (k : string) (x : JsVal) : JsVal :=
  match o with
  | JObj fields => JObj (assign fields k x)
  | _ => o
  end.

Definition hasOwn (o : JsVal) (k : string) : bool :=
  match o with
  | JObj fields => match lookup k fields with Some _ => true | None => false end
  | _ => false
  end.

(** The decimal digits of an integer, which is what JavaScript prints
    for a safe integer (from 10^21 on it prints an exponent). *)
Definition Z_toString (n : Z) : string :=
  NilZero.string_of_int (Z.to_int n).

Fixpoint join (sep : string) (parts : list string) : string :=
  match parts with
  | [] => ""
  | [p] => p
  | p :: rest => p ++ sep ++ join sep rest
  end.

(** ToString, as a template literal applies it, on primitive values
    and on arrays and objects that keep the inherited [toString]. *)
Fixpoint toString (v : JsVal) : string :=
  match v with
  | JUndefined => "undefined"
  | JNull => "null"
  | JBool true => "true"
  | JBool false => "false"
  | JNum n => Z_toString n
  | JStr s => s
  | JArr items =>
      join "," (map (fun x => if nullish x then "" else toString x) items)
  | JObj _ => "[object Object]"
  end.

(** ToPrimitive with hint number: arrays and plain objects fall back
    on their inherited [toString]. *)
Definition toPrimitive (v : JsVal) : JsVal :=
  match v with
  | JArr _ | JObj _ => JStr (toString v)
  | _ => v
  end.

Definition is_digit (c : ascii) : bool :=
  let n := nat_of_ascii c in (48 <=? n)%nat && (n <=? 57)%nat.

Definition is_space (c : ascii) : bool :=
  let n := nat_of_ascii c in
  (n =? 32)%nat || ((9 <=? n)%nat && (n <=? 13)%nat).

Fixpoint dropSpaces (s : string) : string :=
  match s with
  | String c rest => if is_space c then dropSpaces rest else s
  | EmptyString => EmptyString
  end.

(** Digits, then only white space: the value read so far. *)
Fixpoint digitsValue (acc : Z) (s : string) : option Z :=
  match s with
  | EmptyString => Some acc
  | String c rest =>
      if is_digit c
      then digitsValue (10 * acc + Z.of_nat (nat_of_ascii c - 48)) rest
      else match dropSpaces s with EmptyString => Some acc | _ => None end
  end.

Definition starts_with_digit (s : string) : bool :=
  match s with String c _ => is_digit c | EmptyString => false end.

(** StringToNumber on the integer fragment: optional white space, an
    optional sign, decimal digits, optional white space; the empty
    string is 0.  [None] is NaN.  Fractions, exponents, radix prefixes
    and [Infinity] have no integer value and read as NaN here. *)
Definition stringToNumber (s : string) : option Z :=
  match dropSpaces s with
  | EmptyString => Some 0%Z
  | String "-" rest =>
      if starts_with_digit rest
      then option_map Z.opp (digitsValue 0 rest) else None
  | String "+" rest =>
      if starts_with_digit rest then digitsValue 0 rest else None
  | t => if starts_with_digit t then digitsValue 0 t else None
  end.

(** ToNumber; [None] is NaN. *)
Definition toNumber (v : JsVal) : option Z :=
  match toPrimitive v with
  | JUndefined => None
  | JNull => Some 0%Z
  | JBool b => Some (if b then 1 else 0)%Z
  | JNum n => Some n
  | JStr s => stringToNumber s
  | _ => None
  end.

(** The abstract relational comparison [a < b]; [None] is its
    undefined outcome (a NaN operand). *)
Definition lessThan (a b : JsVal) : option bool :=
  match toPrimitive a, toPrimitive b with
  | JStr x, JStr y => Some (String.ltb x y)
  | _, _ =>
      match toNumber a, toNumber b with
      | Some x, Some y => Some (x <? y)%Z
      | _, _ => None
      end
  end.

(** [a < b], [a > b], [a >= b]. *)
Definition lt (a b : JsVal) : bool :=
  match lessThan a b with Some true => true | _ => false end.
Definition gt (a b : JsVal) : bool := lt b a.
Definition ge (a b : JsVal) : bool :=
  match lessThan a b with Some false => true | _ => false end.

End Js.

(** ** The host's string library *)

Module Host.

(** [String.prototype.toLowerCase] on ASCII text: the letters A to Z
    are folded, every other character is kept. *)
Definition lower (c : ascii) : ascii :=
  let n := nat_of_ascii c in
  if (65 <=? n)%nat && (n <=? 90)%nat then ascii_of_nat (n + 32) else c.

Fixpoint toLowerCase (s : string) : string :=
  match s with
  | EmptyString => EmptyString
  | String c rest => String (lower c) (toLowerCase rest)
  end.

(** [hay.includes(needle)]. *)
Fixpoint includes (hay needle : string) : bool :=
  String.prefix needle hay ||
  match hay with
  | EmptyString => false
  | String _ rest => includes rest needle
  end.

(** [s.split(sep)] for a one-character separator. *)
Fixpoint split (sep : ascii) (s : string) : list string :=
  match s with
  | EmptyString => [EmptyString]
  | String c rest =>
      if Ascii.eqb c sep then EmptyString :: split sep rest
      else match split sep rest with
           | [] => [String c EmptyString]
           | part :: parts => String c part :: parts
           end
  end.

(** Decimal digits in groups of three, from the right. *)
Fixpoint groupDigits (digits : list ascii) (len : nat) : string :=
  match digits with
  | [] => EmptyString
  | d :: rest =>
      let tail := groupDigits rest (Nat.pred len) in
      if (1 <? len)%nat && (Nat.modulo (Nat.pred len) 3 =? 0)%nat
      then String d (String "," tail)
      else String d tail
  end.

(** [Number.prototype.toLocaleString()] of an integer under the
    en-US default locale: [1234567] prints as [1,234,567]. *)
Definition Z_toLocaleString (n : Z) : string :=
  let digits := list_ascii_of_string (Js.Z_toString (Z.abs n)) in
  (if (n <? 0)%Z then "-" else "") ++ groupDigits digits (List.length digits).

(** [v.toLocaleString()] on a value that has the method and keeps the
    inherited one. *)
Fixpoint toLocaleString (v : JsVal) : string :=
  match v with
  | JNum n => Z_toLocaleString n
  | JArr items =>
      Js.join "," (map (fun x => if Js.nullish x then "" else toLocaleString x) items)
  | _ => Js.toString v
  end.

Definition hexDigit (n : nat) : ascii :=
  ascii_of_nat (if (n <? 10)%nat then 48 + n else 87 + n).

Definition backslash : ascii := ascii_of_nat 92.
Definition doubleQuote : ascii := ascii_of_nat 34.

Definition escape (c : ascii) : string :=
  String backslash (String c EmptyString).

(** The JSON escape of one character. *)
Definition quoteChar (c : ascii) : string :=
  let n := nat_of_ascii c in
  if (n =? 34)%nat || (n =? 92)%nat then escape c
  else if (n =? 8)%nat then escape "b"
  else if (n =? 9)%nat then escape "t"
  else if (n =? 10)%nat then escape "n"
  else if (n =? 12)%nat then escape "f"
  else if (n =? 13)%nat then escape "r"
  else if (n <? 32)%nat
       then escape "u" ++ "00"
            ++ String (hexDigit (n / 16)) (String (hexDigit (n mod 16)) EmptyString)
  else String c EmptyString.

Fixpoint quoteBody (s : string) : string :=
  match s with
  | EmptyString => EmptyString
  | String c rest => quoteChar c ++ quoteBody rest
  end.

Definition quote (s : string) : string :=
  String doubleQuote (quoteBody s ++ String doubleQuote EmptyString).

(** [JSON.stringify(v)] without indentation: [undefined] inside an
    array prints as [null], an [undefined] property is skipped. *)
Fixpoint JSON_stringify (v : JsVal) : string :=
  match v with
  | JUndefined => "undefined"
  | JNull => "null"
  | JBool true => "true"
  | JBool false => "false"
  | JNum n => Js.Z_toString n
  | JStr s => quote s
  | JArr items =>
      "[" ++ Js.join ","
               (map (fun x => match x with
                              | JUndefined => "null"
                              | _ => JSON_stringify x
                              end) items) ++ "]"
  | JObj fields =>
      "{" ++ Js.join ","
               ((fix props (fs : list (string * JsVal)) : list string :=
                   match fs with
                   | [] => []
                   | (k, JUndefined) :: rest => props rest
                   | (k, x) :: rest =>
                       (quote k ++ ":" ++ JSON_stringify x) :: props rest
                   end) fields) ++ "}"
  end.

End Host.

(** ** Base64, as [Buffer.from(text, 'base64')] reads it *)

Module Base64.

(** The value of one character of the standard or of the URL-safe
    alphabet. *)
Definition sextet (c : ascii) : option N :=
  let n := N_of_ascii c in
  if (65 <=? n)%N && (n <=? 90)%N then Some (n - 65)%N
  else if (97 <=? n)%N && (n <=? 122)%N then Some (n - 71)%N
  else if (48 <=? n)%N && (n <=? 57)%N then Some (n + 4)%N
  else if (n =? 43)%N || (n =? 45)%N then Some 62%N
  else if (n =? 47)%N || (n =? 95)%N then Some 63%N
  else None.

(** Characters outside the alphabet are skipped; the first [=] ends
    the input. *)
Fixpoint sextets (s : string) : list N :=
  match s with
  | EmptyString => []
  | String c rest =>
      if Ascii.eqb c "=" then []
      else match sextet c with
           | Some v => v :: sextets rest
           | None => sextets rest
           end
  end.

Definition byte1 (a b : N) : N :=
  N.lor (N.shiftl (N.land a 63) 2) (N.shiftr (N.land b 48) 4).
Definition byte2 (b c : N) : N :=
  N.lor (N.shiftl (N.land b 15) 4) (N.shiftr (N.land c 60) 2).
Definition byte3 (c d : N) : N :=
  N.lor (N.shiftl (N.land c 3) 6) (N.land d 63).

Fixpoint bytes (l : list N) : list N :=
  match l with
  | a :: b :: c :: d :: rest => byte1 a b :: byte2 b c :: byte3 c d :: bytes rest
  | [a; b; c] => [byte1 a b; byte2 b c]
  | [a; b] => [byte1 a b]
  | _ => []
  end.

(** The decoded bytes as text.  [toString('utf-8')] turns a byte
    below 128 into the same character wherever it stands, so the
    colons of the decoded text are exactly the bytes 58.  Bytes from
    128 on, which the UTF-8 decoding merges or replaces, are kept as
    they are: the text is exact for credentials that decode to
    ASCII. *)
Definition decode (s : string) : string :=
  string_of_list_ascii (map ascii_of_N (bytes (sextets s))).

End Base64.

(** ** The client *)

Record MozApiToken : Type := mkToken { token_apiToken : string }.

Record MozApiClient : Type := mkClient {
  apiToken : string;
  accessId : option string;
  secretKey : option string;
  baseUrl : string
}.

Record JsonRpcRequest : Type := mkRequest {
  jsonrpc : string;
  id : string;
  method : string;
  params : JsVal
}.

(** What [axiosInstance.post] settles to: a response with its parsed
    body, a rejection with an [AxiosError] (its message and the body of
    the response, when there was one), or any other thrown error. *)
Inductive AxiosOutcome : Type :=
| Response (data : JsVal)
| AxiosError (msg : string) (response_data : option JsVal)
| OtherError (e : Thrown).

(** The option bags of the wrappers; an absent field is [undefined]. *)
Record Options : Type := mkOptions {
  locale : option string;
  engine : option string;
  limit : option Z;
  scope : option string;
  sort : option string;
  filter : option string;
  sourceScope : option string;
  metrics : option (list string);
  start : option string;
  end_ : option string;
  include_keyword_analysis : option bool
}.

Definition noFields : Options :=
  mkOptions None None None None None None None None None None None.

(** [options?.f]. *)
Definition opt {A} (options : option Options) (f : Options -> option A) : option A :=
  match options with
  | Some o => f o
  | None => None
  end.

(** [v || d] on an optional string and on an optional number. *)
Definition strOr (v : option string) (d : string) : string :=
  match v with
  | Some s => if s =? "" then d else s
  | None => d
  end.

Definition numOr (v : option Z) (d : Z) : Z :=
  match v with
  | Some n => if (n =? 0)%Z then d else n
  | None => d
  end.

(** [...(v && { k: v })] inside an object literal. *)
Definition spreadStr (k : string) (v : option string) : list (string * JsVal) :=
  match v with
  | Some s => if s =? "" then [] else [(k, JStr s)]
  | None => []
  end.

Definition spreadList (k : string) (v : option (list string)) : list (string * JsVal) :=
  match v with
  | Some l => [(k, JArr (map JStr l))]
  | None => []
  end.

Definition falsy (v : option string) : bool :=
  match v with
  | Some s => s =? ""
  | None => true
  end.

Inductive AuthMode : Type := AccessIdSecretKey | RawToken.

(** The mode a client was built in: both halves of the pair retained,
    or the raw token alone. *)
Definition authMode (c : MozApiClient) : AuthMode :=
  match accessId c, secretKey c with
  | Some _, Some _ => AccessIdSecretKey
  | _, _ => RawToken
  end.

Section AuthResolver.

(** [Buffer.from(text, 'base64').toString('utf-8')]. *)
Variable decodeBase64 : string -> Completion string.

(** [crypto.createHmac('sha1', key).update(text).digest('base64')]. *)
Variable hmacSha1Base64 : string -> string -> string.

(** The constructor, with the line it prints. *)
Definition constructor (token : MozApiToken) : MozApiClient * string :=
  let apiToken := token_apiToken token in
  let url := "https://api.moz.com/jsonrpc" in
  match decodeBase64 apiToken with
  | Return decoded =>
      if Host.includes decoded ":"
      then
        let parts := Host.split ":" decoded in
        (mkClient apiToken (nth_error parts 0) (nth_error parts 1) url,
         "Using Access ID/Secret Key authentication (V2)")
      else
        (mkClient apiToken None None url,
         "Using API token authentication (V3)")
  | Throw _ =>
      (mkClient apiToken None None url,
       "Using API token authentication (V3)")
  end.

Definition createAuthSignature (c : MozApiClient) (timestamp : Z) : Completion string :=
  if falsy (accessId c) || falsy (secretKey c)
  then Throw (Error "Access ID and Secret Key required for signature authentication")
  else
    let newline := String (ascii_of_nat 10) EmptyString in
    let stringToSign :=
      strOr (accessId c) "" ++ newline ++ Js.Z_toString timestamp in
    Return (hmacSha1Base64 (strOr (secretKey c) "") stringToSign).

Definition getAuthHeaders (c : MozApiClient) : list (string * string) :=
  if falsy (accessId c) || falsy (secretKey c)
  then [("x-moz-token", apiToken c)]
  else [("x-moz-token", apiToken c)].

End AuthResolver.

(** A computation that issues remote calls: it is given the number of
    requests the client has issued so far and returns the new count.
    The calls of one [Promise.all] batch are issued in the order of the
    array, and each outcome is put at its position of the array, so the
    order in which they settle is not observable. *)
Definition Remote (A : Type) : Type := nat -> A * nat.

Section RemoteCallClient.

(** [uuidv4()] at the n-th request. *)
Variable uuidv4 : nat -> string.

(** What the transport answers to the n-th request. *)
Variable post : nat -> list (string * string) -> JsonRpcRequest -> AxiosOutcome.

Variable this : MozApiClient.

Definition createRequest (n : nat) (method : string) (params : JsVal) : JsonRpcRequest :=
  mkRequest "2.0" (uuidv4 n) method params.

Definition sendRequest (n : nat) (request : JsonRpcRequest) : Completion JsVal :=
  let authHeaders := getAuthHeaders this in
  match post n authHeaders request with
  | Response data =>
      (err <- Js.get data "error" ;;
       if Js.truthy err
       then
         msg <- Js.get err "message" ;;
         code <- Js.get err "code" ;;
         Throw (Error ("Moz API Error: " ++ Js.toString msg
                       ++ " (Code: " ++ Js.toString code ++ ")"))
       else Js.get data "result")%completion
  | AxiosError msg response_data =>
      let body :=
        match response_data with
        | Some d => if Js.truthy d then Host.JSON_stringify d else "No response data"
        | None => "No response data"
        end in
      Throw (Error ("Network Error: " ++ msg ++ " - " ++ body))
  | OtherError e => Throw e
  end.

(** [this.sendRequest(this.createRequest(method, params))]. *)
Definition call (method : string) (params : JsVal) : Remote (Completion JsVal) :=
  fun n => (sendRequest n (createRequest n method params), S n).

Definition serp_query (keyword locale engine : string) : JsVal :=
  JObj [("data", JObj [("serp_query",
    JObj [("keyword", JStr keyword); ("locale", JStr locale);
          ("device", JStr "desktop"); ("engine", JStr engine)])])].

Definition site_query (site : string) : JsVal :=
  JObj [("data", JObj [("site_query",
    JObj [("query", JStr site); ("scope", JStr "domain")])])].

Definition getQuota_params : JsVal :=
  JObj [("data", JObj [("path", JStr "api.limits.data.rows")])].

Definition getQuota : Remote (Completion JsVal) :=
  call "quota.lookup" getQuota_params.

(** *** Keyword methods *)

Definition keyword_params (keyword : string) (options : option Options) : JsVal :=
  serp_query keyword (strOr (opt options locale) "en-US")
                     (strOr (opt options engine) "google").

Definition getKeywordSearchIntent (keyword : string) (options : option Options) :=
  call "data.keyword.search.intent.fetch" (keyword_params keyword options).

Definition getKeywordSuggestions_params (keyword : string) (options : option Options) : JsVal :=
  serp_query keyword (strOr (opt options locale) "en-US") "google".

Definition getKeywordSuggestions (keyword : string) (options : option Options) :=
  call "data.keyword.suggestions.list" (getKeywordSuggestions_params keyword options).

Definition getKeywordDifficulty (keyword : string) (options : option Options) :=
  call "data.keyword.metrics.difficulty.fetch" (keyword_params keyword options).

Definition getKeywordVolume (keyword : string) (options : option Options) :=
  call "data.keyword.metrics.volume.fetch" (keyword_params keyword options).

Definition getKeywordMetrics (keyword : string) (options : option Options) :=
  call "data.keyword.metrics.fetch" (keyword_params keyword options).

Definition getKeywordOpportunity (keyword : string) (options : option Options) :=
  call "data.keyword.metrics.opportunity.fetch" (keyword_params keyword options).

Definition getKeywordPriority (keyword : string) (options : option Options) :=
  call "data.keyword.metrics.priority.fetch" (keyword_params keyword options).

(** *** Site metrics methods *)

Definition getSiteBrandAuthority (site : string) :=
  call "data.site.metrics.brand.authority.fetch" (site_query site).

Definition getSiteMetrics (site : string) :=
  call "data.site.metrics.fetch" (site_query site).

Definition getSiteRankingKeywords_params (site : string) (options : option Options) : JsVal :=
  JObj [("data", JObj [
    ("target_query",
      JObj [("query", JStr site); ("scope", JStr "domain");
            ("locale", JStr (strOr (opt options locale) "en-US"))]);
    ("serp_query",
      JObj [("engine", JStr (strOr (opt options engine) "google"));
            ("locale", JStr (strOr (opt options locale) "en-US"))]);
    ("limit", JNum (numOr (opt options limit) 100))])].

Definition getSiteRankingKeywords (site : string) (options : option Options) :=
  call "data.site.ranking.keywords.list" (getSiteRankingKeywords_params site options).

Definition getUrlMetrics_params (targets : list string) (options : option Options) : JsVal :=
  JObj [("data", JObj (
    [("targets", JArr (map JStr targets))]
    ++ spreadStr "scope" (opt options scope)
    ++ spreadList "metrics" (opt options metrics)))].

Definition getUrlMetrics (targets : list string) (options : option Options) :=
  call "data.url_metrics" (getUrlMetrics_params targets options).

Definition getLinks_params (target : string) (options : option Options) : JsVal :=
  JObj [("data", JObj (
    [("target", JStr target);
     ("scope", JStr (strOr (opt options scope) "page"));
     ("limit", JNum (numOr (opt options limit) 50))]
    ++ spreadStr "sort" (opt options sort)
    ++ spreadStr "filter" (opt options filter)
    ++ spreadStr "source_scope" (opt options sourceScope)))].

Definition getLinks (target : string) (options : option Options) :=
  call "data.links" (getLinks_params target options).

Definition getAnchorText_params (target : string) (options : option Options) : JsVal :=
  JObj [("data", JObj (
    [("target", JStr target);
     ("scope", JStr (strOr (opt options scope) "page"));
     ("limit", JNum (numOr (opt options limit) 50))]
    ++ spreadStr "sort" (opt options sort)))].

Definition getAnchorText (target : string) (options : option Options) :=
  call "data.anchor_text" (getAnchorText_params target options).

Definition getTopPages_params (target : string) (options : option Options) : JsVal :=
  JObj [("data", JObj (
    [("target", JStr target);
     ("scope", JStr (strOr (opt options scope) "root_domain"));
     ("limit", JNum (numOr (opt options limit) 50))]
    ++ spreadStr "sort" (opt options sort)))].

Definition getTopPages (target : string) (options : option Options) :=
  call "data.top_pages" (getTopPages_params target options).

Definition getLinkingDomains_params (target : string) (options : option Options) : JsVal :=
  JObj [("data", JObj (
    [("target", JStr target);
     ("scope", JStr (strOr (opt options scope) "page"));
     ("limit", JNum (numOr (opt options limit) 50))]
    ++ spreadStr "sort" (opt options sort)
    ++ spreadStr "filter" (opt options filter)))].

Definition getLinkingDomains (target : string) (options : option Options) :=
  call "data.linking_domains" (getLinkingDomains_params target options).

Definition global_params (options : option Options) : JsVal :=
  JObj [("data", JObj [("limit", JNum (numOr (opt options limit) 100))])].

Definition getGlobalTopPages (options : option Options) :=
  call "data.global.top.pages.list" (global_params options).

Definition getGlobalTopDomains (options : option Options) :=
  call "data.global.top.domains.list" (global_params options).

Definition getUsageData_params (options : option Options) : JsVal :=
  JObj [("data", JObj (
    spreadStr "start" (opt options start) ++ spreadStr "end" (opt options end_)))].

Definition getUsageData (options : option Options) :=
  call "data.usage" (getUsageData_params options).

Definition getSiteMetricsMultiple_params (sites : list string) : JsVal :=
  JObj [("data", JObj [("site_queries",
    JArr (map (fun site => JObj [("query", JStr site); ("scope", JStr "domain")]) sites))])].

Definition getSiteMetricsMultiple (sites : list string) :=
  call "data.site.metrics.fetch.multiple" (getSiteMetricsMultiple_params sites).

Definition getSiteRankingKeywordsCount_params (site : string) (options : option Options) : JsVal :=
  JObj [("data", JObj [
    ("site", JStr site);
    ("engine", JStr (strOr (opt options engine) "google"));
    ("locale", JStr (strOr (opt options locale) "en-US"))])].

Definition getSiteRankingKeywordsCount (site : string) (options : option Options) :=
  call "site.ranking_keywords.count" (getSiteRankingKeywordsCount_params site options).

End RemoteCallClient.

(** ** Insight generation *)

(** The body of [generateCompetitorInsights] pushes lines onto the local
    array [insights] and may be cut short by an exception: a computation
    yields the lines it pushed together with its completion.  Reading a
    property has no effect: where the source reads [analysis.k] in a
    guard and again under it, the value is read once. *)
Definition Gen (A : Type) : Type := (list string * Completion A)%type.

Definition gret {A} (a : A) : Gen A := ([], Return a).

Definition gbind {A B} (m : Gen A) (k : A -> Gen B) : Gen B :=
  match m with
  | (out, Return a) => let (out', r) := k a in ((out ++ out')%list, r)
  | (out, Throw e) => (out, Throw e)
  end.

Definition push (line : string) : Gen unit := ([line], Return tt).

Definition lift {A} (c : Completion A) : Gen A := ([], c).

Declare Scope gen_scope.
Delimit Scope gen_scope with gen.
Notation "x <- c ;; k" := (gbind c (fun x => k))
  (at level 61, c at next level, right associativity) : gen_scope.
Notation "c ;; k" := (gbind c (fun _ => k))
  (at level 61, right associativity) : gen_scope.

Module Insights.

Definition dq : string := String Host.doubleQuote EmptyString.

Definition band (v : JsVal) (top high middle low : string) : string :=
  if Js.ge v (JNum 70) then top
  else if Js.ge v (JNum 50) then high
  else if Js.ge v (JNum 30) then middle
  else low.

Definition brandAuthorityLine (ba : JsVal) : string :=
  "Primary site brand authority: " ++ Js.toString ba ++ " ("
  ++ band ba "Excellent" "Good" "Fair" "Needs improvement" ++ ")".

Definition difficultyLine (target difficulty : JsVal) : string :=
  "Target keyword " ++ dq ++ Js.toString target ++ dq ++ " difficulty: "
  ++ Js.toString difficulty ++ "% ("
  ++ band difficulty "Very Hard" "Hard" "Medium" "Easy" ++ ")".

Definition volumeLine (volume : JsVal) : string :=
  "Target keyword monthly search volume: " ++ Host.toLocaleString volume.

Definition landscapeLine (stronger weaker : nat) : string :=
  "Competitive landscape: " ++ Js.Z_toString (Z.of_nat stronger)
  ++ " competitors have higher brand authority, "
  ++ Js.Z_toString (Z.of_nat weaker) ++ " have lower".

Definition rankCountLine (len : JsVal) : string :=
  "Primary site ranks for " ++ Js.toString len ++ " keywords (showing up to 100)".

Definition rankedLine (target rank : JsVal) : string :=
  "Primary site ranks for target keyword " ++ dq ++ Js.toString target ++ dq
  ++ " at position " ++ Js.toString (if Js.truthy rank then rank else JStr "unknown").

Definition notRankedLine (target : JsVal) : string :=
  "Primary site does not appear to rank in top 100 for target keyword "
  ++ dq ++ Js.toString target ++ dq.

Definition fallbackLine : string :=
  "Note: Some insights could not be generated due to data analysis issues".

(** Primary site insights. *)
Definition brandAuthorityInsight (analysis : JsVal) : Gen unit :=
  (psd <- lift (Js.get analysis "primary_site_data") ;;
   if Js.truthy (Js.chain psd ["brand_authority"; "result"])
   then
     b <- lift (Js.get psd "brand_authority") ;;
     r <- lift (Js.get b "result") ;;
     ba <- lift (Js.get r "brand_authority") ;;
     if Js.truthy ba then push (brandAuthorityLine ba) else gret tt
   else gret tt)%gen.

(** Keyword insights: difficulty. *)
Definition difficultyInsight (analysis : JsVal) : Gen unit :=
  (ka <- lift (Js.get analysis "keyword_analysis") ;;
   if Js.truthy (Js.chain ka ["difficulty"; "result"])
   then
     d <- lift (Js.get ka "difficulty") ;;
     r <- lift (Js.get d "result") ;;
     difficulty <- lift (Js.get r "difficulty") ;;
     if Js.truthy difficulty
     then
       target <- lift (Js.get analysis "target_keyword") ;;
       push (difficultyLine target difficulty)
     else gret tt
   else gret tt)%gen.

(** Keyword insights: volume. *)
Definition volumeInsight (analysis : JsVal) : Gen unit :=
  (ka <- lift (Js.get analysis "keyword_analysis") ;;
   if Js.truthy (Js.chain ka ["volume"; "result"])
   then
     v <- lift (Js.get ka "volume") ;;
     r <- lift (Js.get v "result") ;;
     volume <- lift (Js.get r "volume") ;;
     if Js.truthy volume then push (volumeLine volume) else gret tt
   else gret tt)%gen.

(** The callback of [competitor_data.forEach]; the two counters are
    its captured variables. *)
Definition compareCompetitor (primaryBA : JsVal) (counts : nat * nat) (comp : JsVal)
  : Completion (nat * nat) :=
  let (strongerCompetitors, weakerCompetitors) := counts in
  (b <- Js.get comp "brand_authority" ;;
   let compBA := Js.chain b ["result"; "brand_authority"] in
   Return
     (if Js.truthy primaryBA && Js.truthy compBA
      then
        if Js.gt compBA primaryBA then (S strongerCompetitors, weakerCompetitors)
        else if Js.lt compBA primaryBA then (strongerCompetitors, S weakerCompetitors)
        else counts
      else counts))%completion.

Fixpoint forEachItem {S : Type} (f : S -> JsVal -> Completion S)
         (items : list JsVal) (s : S) : Completion S :=
  match items with
  | [] => Return s
  | x :: rest => (s' <- f s x ;; forEachItem f rest s')%completion
  end.

(** [arr.forEach(f)]: a TypeError when [arr] is not an array. *)
Definition forEach {S : Type} (arr : JsVal) (f : S -> JsVal -> Completion S) (s : S)
  : Completion S :=
  match arr with
  | JArr items => forEachItem f items s
  | _ => Throw (TypeError "analysis.competitor_data.forEach is not a function")
  end.

(** Competitor comparison insights. *)
Definition comparisonInsight (analysis : JsVal) : Gen unit :=
  (cd <- lift (Js.get analysis "competitor_data") ;;
   len <- lift (Js.get cd "length") ;;
   if Js.gt len (JNum 0)
   then
     psd <- lift (Js.get analysis "primary_site_data") ;;
     let primaryBA := Js.chain psd ["brand_authority"; "result"; "brand_authority"] in
     counts <- lift (forEach cd (compareCompetitor primaryBA) (0, 0)%nat) ;;
     let (strongerCompetitors, weakerCompetitors) := counts : nat * nat in
     if (0 <? strongerCompetitors)%nat || (0 <? weakerCompetitors)%nat
     then push (landscapeLine strongerCompetitors weakerCompetitors)
     else gret tt
   else gret tt)%gen.

(** [v.toLowerCase()]: only strings have the method. *)
Definition toLowerCase (v : JsVal) : Completion string :=
  match v with
  | JStr s => Return (Host.toLowerCase s)
  | JUndefined | JNull =>
      Throw (TypeError ("Cannot read properties of " ++ Js.nullish_name v
                        ++ " (reading 'toLowerCase')"))
  | _ => Throw (TypeError "toLowerCase is not a function")
  end.

(** The callback of [keywords.find], up to the truthiness of its
    result. *)
Definition matchesTarget (analysis : JsVal) (kw : JsVal) : Completion bool :=
  (k <- Js.get kw "keyword" ;;
   if Js.truthy k
   then
     lowered <- toLowerCase k ;;
     target <- Js.get analysis "target_keyword" ;;
     needle <- toLowerCase target ;;
     Return (Host.includes lowered needle)
   else Return false)%completion.

Fixpoint findItem (pred : JsVal -> Completion bool) (items : list JsVal)
  : Completion JsVal :=
  match items with
  | [] => Return JUndefined
  | x :: rest =>
      (hit <- pred x ;; if hit : bool then Return x else findItem pred rest)%completion
  end.

(** [arr.find(pred)]: a TypeError when [arr] is not an array. *)
Definition find (arr : JsVal) (pred : JsVal -> Completion bool) : Completion JsVal :=
  match arr with
  | JArr items => findItem pred items
  | _ => Throw (TypeError "keywords.find is not a function")
  end.

(** Ranking keywords insights. *)
Definition rankingInsight (analysis : JsVal) : Gen unit :=
  (psd <- lift (Js.get analysis "primary_site_data") ;;
   if Js.truthy (Js.chain psd ["ranking_keywords"; "result"])
   then
     rk <- lift (Js.get psd "ranking_keywords") ;;
     keywords <- lift (Js.get rk "result") ;;
     nonEmpty <- lift (if Js.truthy keywords then Js.get keywords "length"
                       else Return keywords) ;;
     if Js.truthy nonEmpty
     then
       len <- lift (Js.get keywords "length") ;;
       push (rankCountLine len) ;;
       targetFound <- lift (find keywords (matchesTarget analysis)) ;;
       if Js.truthy targetFound
       then
         target <- lift (Js.get analysis "target_keyword") ;;
         rank <- lift (Js.get targetFound "rank") ;;
         push (rankedLine target rank)
       else
         target <- lift (Js.get analysis "target_keyword") ;;
         push (notRankedLine target)
     else gret tt
   else gret tt)%gen.

Definition body (analysis : JsVal) : Gen unit :=
  (brandAuthorityInsight analysis ;;
   difficultyInsight analysis ;;
   volumeInsight analysis ;;
   comparisonInsight analysis ;;
   rankingInsight analysis)%gen.

(** The whole method: the [catch] keeps what was pushed and adds the
    fallback line. *)
Definition generateCompetitorInsights (analysis : JsVal) : list string :=
  match body analysis with
  | (insights, Return _) => insights
  | (insights, Throw _) => (insights ++ [fallbackLine])%list
  end.

End Insights.

(** ** The competitor analysis *)

(** [promise.catch(e => ({ error: e.message }))]. *)
Definition catch_error (p : Completion JsVal) : Completion JsVal :=
  match p with
  | Return v => Return v
  | Throw e => Return (JObj [("error", JStr (message e))])
  end.

(** [await Promise.all(promises)]: the values in the order of the array,
    or a rejection (the first of the array stands for whichever comes
    first in time). *)
Fixpoint Promise_all (promises : list (Completion JsVal)) : Completion (list JsVal) :=
  match promises with
  | [] => Return []
  | p :: rest =>
      (v <- p ;; vs <- Promise_all rest ;; Return (v :: vs))%completion
  end.

(** [arr[i]] in a destructuring pattern. *)
Definition item (vs : list JsVal) (i : nat) : JsVal := nth i vs JUndefined.

(** [o.k.push(x)]. *)
Definition pushInto (o : JsVal) (k : string) (x : JsVal) : Completion JsVal :=
  (arr <- Js.get o k ;;
   match arr with
   | JArr items => Return (Js.set o k (JArr (items ++ [x])))
   | JUndefined | JNull =>
       Throw (TypeError ("Cannot read properties of " ++ Js.nullish_name arr
                         ++ " (reading 'push')"))
   | _ => Throw (TypeError "push is not a function")
   end)%completion.

Definition competitor_identification_guidance : JsVal :=
  JObj [
    ("message",
      JStr "No competitors were specified. To find potential competitors, you can:");
    ("suggestions", JArr [
      JStr "1. Look at the ranking keywords data above and see which sites rank for similar keywords";
      JStr "2. Search for your target keyword in Google and see which sites appear in top results";
      JStr "3. Use industry knowledge to identify known competitors";
      JStr "4. Once you identify potential competitors, run this analysis again with competitor_sites parameter"]);
    ("note",
      JStr "Moz API does not automatically identify competitors - you need to specify them manually")].

(** [{ locale, limit: 100 }] and [{ locale }]. *)
Definition localeLimit100 (locale : string) : Options :=
  mkOptions (Some locale) None (Some 100%Z) None None None None None None None None.

Definition localeOnly (locale : string) : Options :=
  mkOptions (Some locale) None None None None None None None None None None.

Section CompetitorAnalysisEngine.

Variable uuidv4 : nat -> string.
Variable post : nat -> list (string * string) -> JsonRpcRequest -> AxiosOutcome.
Variable this : MozApiClient.

(** [new Date().toISOString()] at the invocation. *)
Variable now : string.

(** The three guarded calls for one site. *)
Definition sitePromises (site locale : string) : Remote (list (Completion JsVal)) :=
  fun n =>
    let (metrics, n1) := getSiteMetrics uuidv4 post this site n in
    let (brandAuth, n2) := getSiteBrandAuthority uuidv4 post this site n1 in
    let (keywords, n3) :=
      getSiteRankingKeywords uuidv4 post this site (Some (localeLimit100 locale)) n2 in
    ([catch_error metrics; catch_error brandAuth; catch_error keywords], n3).

(** The four guarded calls for the target keyword. *)
Definition keywordPromises (targetKeyword locale : string)
  : Remote (list (Completion JsVal)) :=
  fun n =>
    let o := Some (localeOnly locale) in
    let (metrics, n1) := getKeywordMetrics uuidv4 post this targetKeyword o n in
    let (difficulty, n2) := getKeywordDifficulty uuidv4 post this targetKeyword o n1 in
    let (volume, n3) := getKeywordVolume uuidv4 post this targetKeyword o n2 in
    let (intent, n4) := getKeywordSearchIntent uuidv4 post this targetKeyword o n3 in
    ([catch_error metrics; catch_error difficulty; catch_error volume;
      catch_error intent], n4).

(** One turn of [for (const competitor of competitorSites)], with its
    own [try]/[catch]. *)
Definition analyzeCompetitor (competitor locale : string) (analysis : JsVal)
  : Remote (Completion JsVal) :=
  fun n =>
    let (competitorPromises, n') := sitePromises competitor locale n in
    let attempt :=
      (vs <- Promise_all competitorPromises ;;
       pushInto analysis "competitor_data"
         (JObj [("site", JStr competitor);
                ("site_metrics", item vs 0);
                ("brand_authority", item vs 1);
                ("ranking_keywords", item vs 2)]))%completion in
    match attempt with
    | Return analysis' => (Return analysis', n')
    | Throw error =>
        (pushInto analysis "competitor_data"
           (JObj [("site", JStr competitor);
                  ("error", JStr ("Failed to analyze: " ++ Thrown_toString error))]),
         n')
    end.

Fixpoint analyzeCompetitors (competitorSites : list string) (locale : string)
         (analysis : JsVal) : Remote (Completion JsVal) :=
  fun n =>
    match competitorSites with
    | [] => (Return analysis, n)
    | competitor :: rest =>
        match analyzeCompetitor competitor locale analysis n with
        | (Return analysis', n') => analyzeCompetitors rest locale analysis' n'
        | (Throw e, n') => (Throw e, n')
        end
    end.

(** The statements inside the outer [try]. *)
Definition assemble (primarySite : string) (competitorSites : list string)
           (targetKeyword locale : string) (includeKeywordAnalysis : bool)
  : Remote (Completion JsVal) :=
  fun n =>
    let analysis :=
      JObj [("primary_site", JStr primarySite);
            ("target_keyword", JStr targetKeyword);
            ("locale", JStr locale);
            ("analysis_timestamp", JStr now);
            ("primary_site_data", JObj []);
            ("competitor_data", JArr []);
            ("keyword_analysis", JObj []);
            ("insights", JArr [])] in
    (* 1. primary site data *)
    let (primarySitePromises, n1) := sitePromises primarySite locale n in
    match Promise_all primarySitePromises with
    | Throw e => (Throw e, n1)
    | Return vs =>
        let analysis :=
          Js.set analysis "primary_site_data"
            (JObj [("site_metrics", item vs 0);
                   ("brand_authority", item vs 1);
                   ("ranking_keywords", item vs 2)]) in
        (* 2. competitor data, if provided *)
        match
          (if (0 <? List.length competitorSites)%nat
           then analyzeCompetitors competitorSites locale analysis n1
           else (Return analysis, n1))
        with
        | (Throw e, n2) => (Throw e, n2)
        | (Return analysis, n2) =>
            (* 3. keyword analysis, if requested *)
            match
              (if includeKeywordAnalysis
               then
                 let (promises, n3) := keywordPromises targetKeyword locale n2 in
                 ((ks <- Promise_all promises ;;
                   Return (Js.set analysis "keyword_analysis"
                             (JObj [("keyword", JStr targetKeyword);
                                    ("metrics", item ks 0);
                                    ("difficulty", item ks 1);
                                    ("volume", item ks 2);
                                    ("search_intent", item ks 3)])))%completion,
                  n3)
               else (Return analysis, n2))
            with
            | (Throw e, n3) => (Throw e, n3)
            | (Return analysis, n3) =>
                (* 4. insights *)
                let analysis :=
                  Js.set analysis "insights"
                    (JArr (map JStr (Insights.generateCompetitorInsights analysis))) in
                (* 5. guidance when no competitors were provided *)
                let analysis :=
                  if (List.length competitorSites =? 0)%nat
                  then Js.set analysis "competitor_identification_guidance"
                         competitor_identification_guidance
                  else analysis in
                (Return analysis, n3)
            end
        end
    end.

(** The method: an omitted [competitorSites] is the empty list, and
    whatever the body throws is wrapped. *)
Definition getCompetitorAnalysis (primarySite : string)
           (competitorSites : option (list string)) (targetKeyword : string)
           (options : option Options) : Remote (Completion JsVal) :=
  fun n =>
    let competitorSites :=
      match competitorSites with Some l => l | None => [] end in
    let locale := strOr (opt options locale) "en-US" in
    let includeKeywordAnalysis :=
      match opt options include_keyword_analysis with
      | Some false => false
      | _ => true
      end in
    match assemble primarySite competitorSites targetKeyword locale
                   includeKeywordAnalysis n with
    | (Return analysis, n') => (Return analysis, n')
    | (Throw error, n') =>
        (Throw (Error ("Competitor analysis failed: " ++ message error)), n')
    end.

End CompetitorAnalysisEngine.

(** ** The tool dispatcher ([src/index.ts]) *)

(** [JSON.stringify(v, null, 2)] below the top level: [indent] is the
    indentation of the enclosing line. *)
Fixpoint stringifyIndented (indent : string) (v : JsVal) : string :=
  let inner := indent ++ "  " in
  let newline := String (ascii_of_nat 10) EmptyString in
  match v with
  | JArr items =>
      match items with
      | [] => "[]"
      | _ =>
          "[" ++ newline ++ inner
          ++ Js.join ("," ++ newline ++ inner)
               (map (fun x => match x with
                              | JUndefined => "null"
                              | _ => stringifyIndented inner x
                              end) items)
          ++ newline ++ indent ++ "]"
      end
  | JObj fields =>
      match
        (fix props (fs : list (string * JsVal)) : list string :=
           match fs with
           | [] => []
           | (k, JUndefined) :: rest => props rest
           | (k, x) :: rest =>
               (Host.quote k ++ ": " ++ stringifyIndented inner x) :: props rest
           end) fields
      with
      | [] => "{}"
      | parts =>
          "{" ++ newline ++ inner
          ++ Js.join ("," ++ newline ++ inner) parts
          ++ newline ++ indent ++ "}"
      end
  | _ => Host.JSON_stringify v
  end.

(** [JSON.stringify(v, null, 2)]: [undefined] for [undefined]. *)
Definition JSON_stringify_2 (v : JsVal) : JsVal :=
  match v with
  | JUndefined => JUndefined
  | _ => JStr (stringifyIndented "" v)
  end.

(** The error codes of the protocol that the handler uses. *)
Inductive ErrorCode : Type := InvalidParams | MethodNotFound | InternalError.

(** [new McpError(code, text)]. *)
Record McpError : Type := mkMcpError { code : ErrorCode; text : string }.

(** The arguments of a tool call, at the types the handler asserts
    with [as]; an absent property is [undefined].  Arguments of other
    types are outside this model. *)
Record ToolArgs : Type := mkToolArgs {
  arg_keyword : option string;
  arg_site : option string;
  arg_sites : option (list string);
  arg_primary_site : option string;
  arg_competitor_sites : option (list string);
  arg_target_keyword : option string;
  arg_locale : option string;
  arg_engine : option string;
  arg_limit : option Z;
  arg_include_keyword_analysis : option bool
}.

(** One entry of the array [tools]: its name, the names of its
    properties with their declared defaults, and its required
    properties (the descriptions are left out). *)
Record Tool : Type := mkTool {
  tool_name : string;
  tool_properties : list (string * option JsVal);
  tool_required : list string
}.

Definition keywordTool (name : string) : Tool :=
  mkTool name
    [("keyword", None); ("locale", Some (JStr "en-US")); ("engine", Some (JStr "google"))]
    ["keyword"].

Definition tools : list Tool :=
  [mkTool "moz_quota" [] [];
   keywordTool "moz_keyword_search_intent";
   mkTool "moz_keyword_suggestions"
     [("keyword", None); ("locale", Some (JStr "en-US")); ("limit", Some (JNum 1000))]
     ["keyword"];
   keywordTool "moz_keyword_difficulty";
   keywordTool "moz_keyword_volume";
   keywordTool "moz_keyword_metrics";
   keywordTool "moz_keyword_opportunity";
   keywordTool "moz_keyword_priority";
   mkTool "moz_site_brand_authority" [("site", None)] ["site"];
   mkTool "moz_site_metrics" [("site", None)] ["site"];
   mkTool "moz_site_metrics_multiple" [("sites", None)] ["sites"];
   mkTool "moz_site_ranking_keywords"
     [("site", None); ("engine", Some (JStr "google"));
      ("locale", Some (JStr "en-US")); ("limit", Some (JNum 100))]
     ["site"];
   mkTool "moz_competitor_analysis"
     [("primary_site", None); ("competitor_sites", Some (JArr []));
      ("target_keyword", None); ("locale", Some (JStr "en-US"));
      ("include_keyword_analysis", Some (JBool true))]
     ["primary_site"; "target_keyword"]].

(** [{ locale: args.locale, engine: args.engine }] and the other option
    objects the handler builds. *)
Definition localeEngine (args : ToolArgs) : Options :=
  mkOptions (arg_locale args) (arg_engine args) None None None None None None None None None.

Definition localeLimit (args : ToolArgs) : Options :=
  mkOptions (arg_locale args) None (arg_limit args) None None None None None None None None.

Definition engineLocaleLimit (args : ToolArgs) : Options :=
  mkOptions (arg_locale args) (arg_engine args) (arg_limit args)
            None None None None None None None None.

Definition localeInclude (args : ToolArgs) : Options :=
  mkOptions (arg_locale args) None None None None None None None None None
            (arg_include_keyword_analysis args).

(** [{ content: [{ type: 'text', text: JSON.stringify(result, null, 2) }] }]. *)
Definition textContent (result : JsVal) : JsVal :=
  JObj [("content",
         JArr [JObj [("type", JStr "text"); ("text", JSON_stringify_2 result)]])].

Section ToolDispatcher.

Variable uuidv4 : nat -> string.
Variable post : nat -> list (string * string) -> JsonRpcRequest -> AxiosOutcome.
Variable mozClient : MozApiClient.
Variable now : string.

(** The message the SDK's [McpError] constructor gives the error object
    it builds from a code and a text. *)
Variable McpError_message : ErrorCode -> string -> string.

(** [throw new McpError(code, text)] inside the [try]. *)
Definition throwMcp {A : Type} (code : ErrorCode) (text : string) : Completion A :=
  Throw (mkThrown "McpError" (McpError_message code text)).

(** [!args || !args.k] for a string property. *)
Definition missing (args : option ToolArgs) (k : ToolArgs -> option string) : bool :=
  match args with
  | Some a => falsy (k a)
  | None => true
  end.

(** [args.k as string], once the check has passed. *)
Definition given (args : option ToolArgs) (k : ToolArgs -> option string) : string :=
  match args with
  | Some a => strOr (k a) ""
  | None => ""
  end.

(** A case of the [switch] that requires one string property. *)
Definition withRequired (args : option ToolArgs) (k : ToolArgs -> option string)
           (label : string) (run : string -> ToolArgs -> Remote (Completion JsVal))
  : Remote (Completion JsVal) :=
  fun n =>
    match args with
    | Some a =>
        if falsy (k a)
        then (throwMcp InvalidParams ("Missing required parameter: " ++ label), n)
        else run (strOr (k a) "") a n
    | None => (throwMcp InvalidParams ("Missing required parameter: " ++ label), n)
    end.

(** The [switch] inside the [try]: the result of the client's method. *)
Definition dispatch (name : string) (args : option ToolArgs) : Remote (Completion JsVal) :=
  if name =? "moz_quota" then getQuota uuidv4 post mozClient
  else if name =? "moz_keyword_search_intent" then
    withRequired args arg_keyword "keyword" (fun keyword a =>
      getKeywordSearchIntent uuidv4 post mozClient keyword (Some (localeEngine a)))
  else if name =? "moz_keyword_suggestions" then
    withRequired args arg_keyword "keyword" (fun keyword a =>
      getKeywordSuggestions uuidv4 post mozClient keyword (Some (localeLimit a)))
  else if name =? "moz_keyword_difficulty" then
    withRequired args arg_keyword "keyword" (fun keyword a =>
      getKeywordDifficulty uuidv4 post mozClient keyword (Some (localeEngine a)))
  else if name =? "moz_keyword_volume" then
    withRequired args arg_keyword "keyword" (fun keyword a =>
      getKeywordVolume uuidv4 post mozClient keyword (Some (localeEngine a)))
  else if name =? "moz_keyword_metrics" then
    withRequired args arg_keyword "keyword" (fun keyword a =>
      getKeywordMetrics uuidv4 post mozClient keyword (Some (localeEngine a)))
  else if name =? "moz_keyword_opportunity" then
    withRequired args arg_keyword "keyword" (fun keyword a =>
      getKeywordOpportunity uuidv4 post mozClient keyword (Some (localeEngine a)))
  else if name =? "moz_keyword_priority" then
    withRequired args arg_keyword "keyword" (fun keyword a =>
      getKeywordPriority uuidv4 post mozClient keyword (Some (localeEngine a)))
  else if name =? "moz_site_brand_authority" then
    withRequired args arg_site "site" (fun site _ =>
      getSiteBrandAuthority uuidv4 post mozClient site)
  else if name =? "moz_site_metrics" then
    withRequired args arg_site "site" (fun site _ =>
      getSiteMetrics uuidv4 post mozClient site)
  else if name =? "moz_site_metrics_multiple" then
    fun n =>
      match args with
      | Some a =>
          match arg_sites a with
          | Some sites => getSiteMetricsMultiple uuidv4 post mozClient sites n
          | None => (throwMcp InvalidParams "Missing required parameter: sites", n)
          end
      | None => (throwMcp InvalidParams "Missing required parameter: sites", n)
      end
  else if name =? "moz_site_ranking_keywords" then
    withRequired args arg_site "site" (fun site a =>
      getSiteRankingKeywords uuidv4 post mozClient site (Some (engineLocaleLimit a)))
  else if name =? "moz_competitor_analysis" then
    fun n =>
      if missing args arg_primary_site || missing args arg_target_keyword
      then (throwMcp InvalidParams
              "Missing required parameters: primary_site, target_keyword", n)
      else
        getCompetitorAnalysis uuidv4 post mozClient now
          (given args arg_primary_site)
          (match args with Some a => arg_competitor_sites a | None => None end)
          (given args arg_target_keyword)
          (match args with Some a => Some (localeInclude a) | None => None end) n
  else fun n => (throwMcp MethodNotFound ("Unknown tool: " ++ name), n).

(** The handler of [CallToolRequestSchema]: the content on success, and
    whatever the [try] throws wrapped into an internal error. *)
Definition callTool (name : string) (args : option ToolArgs)
  : Remote (McpError + JsVal) :=
  fun n =>
    match dispatch name args n with
    | (Return result, n') => (inr (textContent result), n')
    | (Throw error, n') =>
        (inl (mkMcpError InternalError
                ("Error executing " ++ name ++ ": " ++ message error)), n')
    end.

(** The handler of [ListToolsRequestSchema]. *)
Definition listTools : list Tool := tools.

End ToolDispatcher.

(** * Vocabulary of the properties

    Definitions the statements below are written with; none of them is
    part of the program. *)

Section Vocabulary.

Import Insights.

(** ** Credentials and requests *)

(** The decoder of the host, which never throws. *)
Definition nodeDecode (text : string) : Completion string :=
  Return (Base64.decode text).

(** The number of colons of a text. *)
Fixpoint countColons (s : string) : nat :=
  match s with
  | EmptyString => 0
  | String c rest => (if Ascii.eqb c ":" then 1 else 0) + countColons rest
  end.

(** A transport that answers every request with the same body. *)
Definition answering (data : JsVal)
  : nat -> list (string * string) -> JsonRpcRequest -> AxiosOutcome :=
  fun _ _ _ => Response data.

(** Some object inside [v] has a property named [k]. *)
Fixpoint hasKey (k : string) (v : JsVal) : bool :=
  match v with
  | JArr items => existsb (hasKey k) items
  | JObj fields =>
      (fix inFields (fs : list (string * JsVal)) : bool :=
         match fs with
         | [] => false
         | (k', x) :: rest => (k' =? k) || hasKey k x || inFields rest
         end) fields
  | _ => false
  end.

(** ** Lines of the insights *)

(** The rules of [generateCompetitorInsights], and the fallback of its
    [catch]. *)
Inductive Rule : Type :=
| BrandAuthorityRule
| DifficultyRule
| VolumeRule
| ComparisonRule
| RankingRule
| FallbackRule.

Scheme Equality for Rule.

(** [p] is a prefix of [s]. *)
Fixpoint startsWith (p s : string) : bool :=
  match p with
  | EmptyString => true
  | String a p' =>
      match s with
      | EmptyString => false
      | String b s' => Ascii.eqb a b && startsWith p' s'
      end
  end.

(** The rule a line of the report belongs to, read off its fixed
    opening words. *)
Definition ruleOf (line : string) : option Rule :=
  if startsWith "Primary site brand authority: " line then Some BrandAuthorityRule
  else if startsWith ("Target keyword " ++ Insights.dq) line then Some DifficultyRule
  else if startsWith "Target keyword monthly search volume: " line then Some VolumeRule
  else if startsWith "Competitive landscape: " line then Some ComparisonRule
  else if startsWith "Primary site ranks for " line then Some RankingRule
  else if startsWith "Primary site does not appear to rank " line then Some RankingRule
  else if startsWith "Note: " line then Some FallbackRule
  else None.

(** The lines of rule [r] among [lines], in their order. *)
Definition linesOf (r : Rule) (lines : list string) : list string :=
  List.filter (fun l => match ruleOf l with
                   | Some r' => Rule_beq r r'
                   | None => false
                   end) lines.

(** Every line a computation pushes satisfies [P]. *)
Definition pushes (P : string -> Prop) {T : Type} (g : Gen T) : Prop :=
  Forall P (fst g).

(** The lines a rule pushes on a report. *)
Definition blockOf (r : Rule) (analysis : JsVal) : list string :=
  match r with
  | BrandAuthorityRule => fst (brandAuthorityInsight analysis)
  | DifficultyRule => fst (difficultyInsight analysis)
  | VolumeRule => fst (volumeInsight analysis)
  | ComparisonRule => fst (comparisonInsight analysis)
  | RankingRule => fst (rankingInsight analysis)
  | FallbackRule => [fallbackLine]
  end.

(** ** Values the rules read *)

(** [analysis.primary_site_data?.brand_authority?.result?.brand_authority]
    and the two keyword values read in the same way. *)
Definition primaryBA (analysis : JsVal) : JsVal :=
  Js.chain analysis ["primary_site_data"; "brand_authority"; "result"; "brand_authority"].

Definition keywordDifficulty (analysis : JsVal) : JsVal :=
  Js.chain analysis ["keyword_analysis"; "difficulty"; "result"; "difficulty"].

Definition keywordVolume (analysis : JsVal) : JsVal :=
  Js.chain analysis ["keyword_analysis"; "volume"; "result"; "volume"].

(** The brand authority read from a competitor entry. *)
Definition knownBA (comp : JsVal) : JsVal :=
  Js.chain comp ["brand_authority"; "result"; "brand_authority"].

(** Both values are known (truthy): the comparison is made. *)
Definition comparable (primary comp : JsVal) : bool :=
  Js.truthy primary && Js.truthy (knownBA comp).

(** A competitor counted as stronger, and one counted as weaker. *)
Definition isStronger (primary comp : JsVal) : bool :=
  comparable primary comp && Js.gt (knownBA comp) primary.

Definition isWeaker (primary comp : JsVal) : bool :=
  comparable primary comp && negb (Js.gt (knownBA comp) primary)
  && Js.lt (knownBA comp) primary.

(** The two counters after the loop over the competitors. *)
Definition stronger (primary : JsVal) (comps : list JsVal) : nat :=
  List.length (List.filter (isStronger primary) comps).

Definition weaker (primary : JsVal) (comps : list JsVal) : nat :=
  List.length (List.filter (isWeaker primary) comps).

(** What the comparison rule pushes. *)
Definition comparisonLines (primary : JsVal) (comps : list JsVal) : list string :=
  if (0 <? stronger primary comps)%nat || (0 <? weaker primary comps)%nat
  then [landscapeLine (stronger primary comps) (weaker primary comps)]
  else [].

(** The list the ranking rule reads. *)
Definition rankingList (analysis : JsVal) : JsVal :=
  Js.chain analysis ["primary_site_data"; "ranking_keywords"; "result"].

(** An entry the callback of [find] reads without a fault: it is not
    [null], and its [keyword] is a string or is falsy. *)
Definition readable (kw : JsVal) : bool :=
  negb (Js.nullish kw) &&
  match Js.member kw "keyword" with
  | JStr _ => true
  | k => negb (Js.truthy k)
  end.

(** The entry's keyword contains the target, both in lower case. *)
Definition entryMatches (target : string) (kw : JsVal) : bool :=
  match Js.member kw "keyword" with
  | JStr k =>
      negb (k =? "")
      && Host.includes (Host.toLowerCase k) (Host.toLowerCase target)
  | _ => false
  end.

(** What the ranking rule pushes on a non-empty list of readable
    entries. *)
Definition rankingLines (target : string) (items : list JsVal) : list string :=
  [rankCountLine (JNum (Z.of_nat (List.length items)));
   match List.find (entryMatches target) items with
   | Some kw => rankedLine (JStr target) (Js.member kw "rank")
   | None => notRankedLine (JStr target)
   end].

(** What the last rule leaves, with the fallback line when it is cut
    short. *)
Definition rankingTail (analysis : JsVal) : list string :=
  match rankingInsight analysis with
  | (lines, Return _) => lines
  | (lines, Throw _) => (lines ++ [fallbackLine])%list
  end.

(** Example reports, in the shape [getCompetitorAnalysis] assembles. *)
Definition baSlot (ba : JsVal) : JsVal :=
  JObj [("result", JObj [("brand_authority", ba)])].

Definition exampleCompetitor (site : string) (ba : JsVal) : JsVal :=
  JObj [("site", JStr site); ("site_metrics", JObj []);
        ("brand_authority", baSlot ba); ("ranking_keywords", JObj [])].

Definition exampleFields (target : string) (ba ranking : JsVal)
           (comps : list JsVal) (keyword_analysis : JsVal) : list (string * JsVal) :=
  [("primary_site", JStr "example.com");
   ("target_keyword", JStr target);
   ("locale", JStr "en-US");
   ("analysis_timestamp", JStr "2024-01-01T00:00:00.000Z");
   ("primary_site_data",
     JObj [("site_metrics", JObj []);
           ("brand_authority", baSlot ba);
           ("ranking_keywords", ranking)]);
   ("competitor_data", JArr comps);
   ("keyword_analysis", keyword_analysis);
   ("insights", JArr [])].

Definition exampleReport (target : string) (ba ranking : JsVal)
           (comps : list JsVal) (keyword_analysis : JsVal) : JsVal :=
  JObj (exampleFields target ba ranking comps keyword_analysis).

(** What a guarded call leaves in its slot: the result of the call, or
    the marker [{ error: message }] of its failure. *)
Definition settled (p : Completion JsVal) : JsVal :=
  match p with
  | Return v => v
  | Throw e => JObj [("error", JStr (message e))]
  end.

(** The fields of the report, in the order the object literal lists
    them. *)
Definition reportFields (primarySite targetKeyword locale timestamp : string)
           (primary_site_data competitor_data keyword_analysis insights : JsVal)
  : list (string * JsVal) :=
  [("primary_site", JStr primarySite);
   ("target_keyword", JStr targetKeyword);
   ("locale", JStr locale);
   ("analysis_timestamp", JStr timestamp);
   ("primary_site_data", primary_site_data);
   ("competitor_data", competitor_data);
   ("keyword_analysis", keyword_analysis);
   ("insights", insights)].

(** A transport for the examples: the requests numbered [from] to
    [to - 1] time out, every other request is answered with a result
    that holds the number of the request. *)
Definition failingBetween (from to : nat)
  : nat -> list (string * string) -> JsonRpcRequest -> AxiosOutcome :=
  fun n _ _ =>
    if (from <=? n)%nat && (n <? to)%nat
    then AxiosError "timeout of 1000ms exceeded" None
    else Response (JObj [("result", JObj [("request", JNum (Z.of_nat n))])]).

Definition exampleClient : MozApiClient :=
  fst (constructor nodeDecode (mkToken "token")).

Definition withoutKeywordAnalysis : Options :=
  mkOptions None None None None None None None None None None (Some false).

(** ** Plain values

    The rules print and compare what they read: template literals
    apply ToString, the comparisons ToPrimitive and ToNumber, and the
    volume line calls [toLocaleString].  On primitive values none of
    these raises, and on safe integers and ASCII text [Js.toString],
    [Js.lt] and [Host.toLowerCase] give what JavaScript gives.  The
    properties that depend on a printed or compared value say so with
    the predicates below. *)

(** A safe integer: a double holds it exactly. *)
Definition safeInteger (n : Z) : bool := (Z.abs n <=? 9007199254740991)%Z.

(** A primitive value: neither an array nor an object. *)
Definition primitive (v : JsVal) : bool :=
  match v with
  | JArr _ | JObj _ => false
  | _ => true
  end.

(** A primitive value whose number, if it is one, is a safe integer: a
    template literal prints it as [Js.toString] does. *)
Definition printable (v : JsVal) : bool :=
  match v with
  | JNum n => safeInteger n
  | _ => primitive v
  end.

(** A score as the provider sends it, or no score: a safe integer,
    [undefined] or [null]. *)
Definition scoreOrAbsent (v : JsVal) : bool :=
  match v with
  | JNum n => safeInteger n
  | JUndefined | JNull => true
  | _ => false
  end.

(** ASCII text: every character is below 128. *)
Definition asciiText (s : string) : bool :=
  forallb (fun c => (nat_of_ascii c <? 128)%nat) (list_ascii_of_string s).

(** The brand authority of the primary site, the difficulty and the
    volume of the keyword are primitive values: the first three rules
    run to their end. *)
Definition quietScores (analysis : JsVal) : bool :=
  primitive (primaryBA analysis)
  && primitive (keywordDifficulty analysis)
  && primitive (keywordVolume analysis).

(** The brand authority of every competitor is a primitive value. *)
Definition quietCompetitors (comps : list JsVal) : bool :=
  forallb (fun c => primitive (knownBA c)) comps.

(** A readable entry of the ranking list whose keyword is ASCII text
    and whose rank is printable. *)
Definition plainEntry (kw : JsVal) : bool :=
  readable kw
  && match Js.member kw "keyword" with
     | JStr k => asciiText k
     | _ => true
     end
  && printable (Js.member kw "rank").

(** A value the ranking rule reads to its end: nothing (a falsy
    value), or an array of readable entries with primitive ranks. *)
Definition quietList (v : JsVal) : bool :=
  negb (Js.truthy v) ||
  match v with
  | JArr items =>
      forallb (fun kw => readable kw && primitive (Js.member kw "rank")) items
  | _ => false
  end.

End Vocabulary.

Section EngineVocabulary.

Variable uuidv4 : nat -> string.
Variable post : nat -> list (string * string) -> JsonRpcRequest -> AxiosOutcome.
Variable this : MozApiClient.
Variable now : string.

(** The three slots of a site whose batch starts at request [n]. *)
Definition siteSlots (site locale : string) (n : nat) : list (string * JsVal) :=
  [("site_metrics", settled (fst (getSiteMetrics uuidv4 post this site n)));
   ("brand_authority",
     settled (fst (getSiteBrandAuthority uuidv4 post this site (1 + n))));
   ("ranking_keywords",
     settled (fst (getSiteRankingKeywords uuidv4 post this site
                     (Some (localeLimit100 locale)) (2 + n))))].

Definition competitorEntry (site locale : string) (n : nat) : JsVal :=
  JObj (("site", JStr site) :: siteSlots site locale n).

(** The entries of the competitors, the first batch starting at
    request [n], each batch taking three requests. *)
Fixpoint competitorEntries (sites : list string) (locale : string) (n : nat)
  : list JsVal :=
  match sites with
  | [] => []
  | site :: rest => competitorEntry site locale n :: competitorEntries rest locale (3 + n)
  end.

(** The four slots of the keyword batch that starts at request [n]. *)
Definition keywordFields (targetKeyword locale : string) (n : nat)
  : list (string * JsVal) :=
  let o := Some (localeOnly locale) in
  [("metrics", settled (fst (getKeywordMetrics uuidv4 post this targetKeyword o n)));
   ("difficulty",
     settled (fst (getKeywordDifficulty uuidv4 post this targetKeyword o (1 + n))));
   ("volume",
     settled (fst (getKeywordVolume uuidv4 post this targetKeyword o (2 + n))));
   ("search_intent",
     settled (fst (getKeywordSearchIntent uuidv4 post this targetKeyword o (3 + n))))].

Definition keywordSlots (targetKeyword locale : string) (n : nat) : JsVal :=
  JObj (("keyword", JStr targetKeyword) :: keywordFields targetKeyword locale n).

(** The report before the insights are derived. *)
Definition baseReport (primarySite : string) (sites : list string)
           (targetKeyword locale : string) (includeKeywordAnalysis : bool) (n : nat)
  : JsVal :=
  JObj (reportFields primarySite targetKeyword locale now
          (JObj (siteSlots primarySite locale n))
          (JArr (competitorEntries sites locale (3 + n)))
          (if includeKeywordAnalysis
           then keywordSlots targetKeyword locale (3 * List.length sites + (3 + n))
           else JObj [])
          (JArr [])).

(** The report that is returned. *)
Definition finalReport (primarySite : string) (sites : list string)
           (targetKeyword locale : string) (includeKeywordAnalysis : bool) (n : nat)
  : JsVal :=
  let base :=
    baseReport primarySite sites targetKeyword locale includeKeywordAnalysis n in
  JObj (reportFields primarySite targetKeyword locale now
          (JObj (siteSlots primarySite locale n))
          (JArr (competitorEntries sites locale (3 + n)))
          (if includeKeywordAnalysis
           then keywordSlots targetKeyword locale (3 * List.length sites + (3 + n))
           else JObj [])
          (JArr (map JStr (Insights.generateCompetitorInsights base)))
        ++ (if (List.length sites =? 0)%nat
            then [("competitor_identification_guidance",
                   competitor_identification_guidance)]
            else [])).

End EngineVocabulary.

(** ** Vocabulary of the further properties *)

Section FurtherVocabulary.

Import Insights.

(** A computation pushes at most [r] lines when it returns and at most
    [t] lines when it throws. *)
Definition atMost {A : Type} (r t : nat) (g : Gen A) : Prop :=
  (List.length (fst g) <= match snd g with Return _ => r | Throw _ => t end)%nat.

(** The band of an integer score. *)
Definition bandOf (score : Z) (top high middle low : string) : string :=
  if (70 <=? score)%Z then top
  else if (50 <=? score)%Z then high
  else if (30 <=? score)%Z then middle
  else low.

(** A value the ranking rule reads as a list without a fault: nothing
    (a falsy value), or an array of readable entries. *)
Definition readableList (v : JsVal) : bool :=
  negb (Js.truthy v) ||
  match v with
  | JArr items => forallb readable items
  | _ => false
  end.

(** The marker of a failed call, [{ error: message }]. *)
Definition errorMarker (msg : string) : JsVal := JObj [("error", JStr msg)].

Definition isErrorMarker (v : JsVal) : bool :=
  match v with
  | JObj [(k, JStr _)] => k =? "error"
  | _ => false
  end.

(** The keys of an object. *)
Definition keysOf (v : JsVal) : list string :=
  match v with
  | JObj fields => map fst fields
  | _ => []
  end.

(** [args?.[prop]] is truthy. *)
Definition truthyArg (args : option ToolArgs) (prop : string) : bool :=
  match args with
  | None => false
  | Some a =>
      if prop =? "keyword" then negb (falsy (arg_keyword a))
      else if prop =? "site" then negb (falsy (arg_site a))
      else if prop =? "sites" then
        match arg_sites a with Some _ => true | None => false end
      else if prop =? "primary_site" then negb (falsy (arg_primary_site a))
      else if prop =? "competitor_sites" then
        match arg_competitor_sites a with Some _ => true | None => false end
      else if prop =? "target_keyword" then negb (falsy (arg_target_keyword a))
      else if prop =? "locale" then negb (falsy (arg_locale a))
      else if prop =? "engine" then negb (falsy (arg_engine a))
      else if prop =? "limit" then
        match arg_limit a with Some l => negb (l =? 0)%Z | None => false end
      else if prop =? "include_keyword_analysis" then
        match arg_include_keyword_analysis a with Some b => b | None => false end
      else false
  end.

(** The text of the rejection of a call that lacks required
    properties. *)
Definition missingText (required : list string) : string :=
  "Missing required parameter"
  ++ (if (1 <? List.length required)%nat then "s" else "")
  ++ ": " ++ Js.join ", " required.

(** The strings of an array of strings. *)
Fixpoint stringsOf (items : list JsVal) : list string :=
  match items with
  | JStr s :: rest => s :: stringsOf rest
  | _ :: rest => stringsOf rest
  | [] => []
  end.

(** The arguments [a] with the property [prop] removed, and with the
    property [prop] set to the value [v] of a schema. *)
Definition clearArg (prop : string) (a : ToolArgs) : ToolArgs :=
  mkToolArgs
    (if prop =? "keyword" then None else arg_keyword a)
    (if prop =? "site" then None else arg_site a)
    (if prop =? "sites" then None else arg_sites a)
    (if prop =? "primary_site" then None else arg_primary_site a)
    (if prop =? "competitor_sites" then None else arg_competitor_sites a)
    (if prop =? "target_keyword" then None else arg_target_keyword a)
    (if prop =? "locale" then None else arg_locale a)
    (if prop =? "engine" then None else arg_engine a)
    (if prop =? "limit" then None else arg_limit a)
    (if prop =? "include_keyword_analysis" then None
     else arg_include_keyword_analysis a).

Definition setArg (prop : string) (v : JsVal) (a : ToolArgs) : ToolArgs :=
  let str (old : option string) (k : string) :=
    if prop =? k then match v with JStr s => Some s | _ => old end else old in
  let strs (old : option (list string)) (k : string) :=
    if prop =? k then match v with JArr l => Some (stringsOf l) | _ => old end
    else old in
  mkToolArgs
    (str (arg_keyword a) "keyword")
    (str (arg_site a) "site")
    (strs (arg_sites a) "sites")
    (str (arg_primary_site a) "primary_site")
    (strs (arg_competitor_sites a) "competitor_sites")
    (str (arg_target_keyword a) "target_keyword")
    (str (arg_locale a) "locale")
    (str (arg_engine a) "engine")
    (if prop =? "limit"
     then match v with JNum l => Some l | _ => arg_limit a end
     else arg_limit a)
    (if prop =? "include_keyword_analysis"
     then match v with JBool b => Some b | _ => arg_include_keyword_analysis a end
     else arg_include_keyword_analysis a).

(** Example arguments. *)
Definition noArgs : ToolArgs :=
  mkToolArgs None None None None None None None None None None.

Definition keywordArgs (keyword : string) : ToolArgs :=
  mkToolArgs (Some keyword) None None None None None None None None None.

(** A transport that fails every request. *)
Definition outage
  : nat -> list (string * string) -> JsonRpcRequest -> AxiosOutcome :=
  fun _ _ _ => AxiosError "connect ECONNREFUSED" None.

(** The message of the SDK's error class, for the examples. *)
Definition exampleMcpMessage (c : ErrorCode) (t : string) : string :=
  "MCP error "
  ++ match c with
     | InvalidParams => "-32602"
     | MethodNotFound => "-32601"
     | InternalError => "-32603"
     end ++ ": " ++ t.

End FurtherVocabulary.

(** * Properties *)

(** ** Credential resolution *)

Lemma includes_colon_cons (c : ascii) (s : string) :
  Host.includes (String c s) ":" = Ascii.eqb c ":" || Host.includes s ":".
Proof.
  cbn [Host.includes String.prefix].
  destruct (ascii_dec ":" c) as [<- | Hne].
  - destruct s; reflexivity.
  - destruct (Ascii.eqb_spec c ":") as [-> | _]; [contradiction | reflexivity].
Qed.

Lemma includes_colon_count (s : string) :
  Host.includes s ":" = (0 <? countColons s)%nat.
Proof.
  induction s as [| c s IH].
  - reflexivity.
  - rewrite includes_colon_cons, IH. cbn [countColons].
    destruct (Ascii.eqb c ":"); reflexivity.
Qed.

Lemma split_nonempty (sep : ascii) (s : string) : Host.split sep s <> [].
Proof.
  destruct s as [| c s]; cbn; [discriminate |].
  destruct (Ascii.eqb c sep); [discriminate |].
  destruct (Host.split sep s); discriminate.
Qed.

Lemma split_without_colon (s : string) :
  Host.includes s ":" = false -> Host.split ":" s = [s].
Proof.
  induction s as [| c s IH]; intros H.
  - reflexivity.
  - rewrite includes_colon_cons in H. apply orb_false_iff in H as [Hc Hs].
    cbn [Host.split]. rewrite Hc, (IH Hs). reflexivity.
Qed.

Lemma split_at_first_colon (a k : string) :
  Host.includes a ":" = false ->
  Host.split ":" (a ++ ":" ++ k) = a :: Host.split ":" k.
Proof.
  induction a as [| c a IH]; intros H.
  - reflexivity.
  - rewrite includes_colon_cons in H. apply orb_false_iff in H as [Hc Ha].
    cbn [append Host.split]. rewrite Hc.
    change (a ++ String ":" k) with (a ++ ":" ++ k).
    rewrite (IH Ha). reflexivity.
Qed.

Lemma split_with_colon (s : string) :
  Host.includes s ":" = true ->
  exists a k rest, Host.split ":" s = a :: k :: rest.
Proof.
  induction s as [| c s IH]; intros H.
  - discriminate.
  - rewrite includes_colon_cons in H. cbn [Host.split].
    destruct (Ascii.eqb c ":") eqn:Hc.
    + destruct (Host.split ":" s) as [| k rest] eqn:Hs.
      * now apply split_nonempty in Hs.
      * now exists EmptyString, k, rest.
    + destruct (IH H) as (a & k & rest & ->).
      now exists (String c a), k, rest.
Qed.

(** C2, as the claim states it, at the credential [YTpiOmM=]: its
    decoding [a:b:c] holds two colons, and the constructor resolves the
    accessId/secretKey mode, keeping [a] and [b]. *)
Lemma constructor_two_colons_counterexample :
  let c := fst (constructor nodeDecode (mkToken "YTpiOmM=")) in
  nodeDecode "YTpiOmM=" = Return "a:b:c" /\
  countColons "a:b:c" = 2 /\
  authMode c = AccessIdSecretKey /\
  accessId c = Some "a" /\ secretKey c = Some "b" /\
  ~ (authMode c = AccessIdSecretKey <-> countColons "a:b:c" = 1).
Proof.
  cbv zeta. repeat split; try reflexivity.
  intros [H _]. specialize (H eq_refl). discriminate H.
Qed.

(** C2, amended: for every credential and every behaviour of the
    decoder the constructor returns a client that keeps the raw token,
    and it resolves the accessId/secretKey mode exactly when the
    decoding succeeds and the decoded text contains at least one colon;
    when the text has exactly one colon, accessId and secretKey are the
    two sides of it.  The printed line names the resolved mode.  The
    client is an immutable record: nothing re-resolves the mode. *)
Theorem constructor_resolves_mode
  (decodeBase64 : string -> Completion string) (token : MozApiToken) :
  let c := fst (constructor decodeBase64 token) in
  apiToken c = token_apiToken token /\
  (authMode c = AccessIdSecretKey <->
   exists decoded, decodeBase64 (token_apiToken token) = Return decoded /\
                   Host.includes decoded ":" = true) /\
  (forall a k,
      decodeBase64 (token_apiToken token) = Return (a ++ ":" ++ k) ->
      Host.includes a ":" = false -> Host.includes k ":" = false ->
      accessId c = Some a /\ secretKey c = Some k) /\
  snd (constructor decodeBase64 token) =
    match authMode c with
    | AccessIdSecretKey => "Using Access ID/Secret Key authentication (V2)"
    | RawToken => "Using API token authentication (V3)"
    end.
Proof.
  assert (forall a k, Host.includes (a ++ ":" ++ k) ":" = true) as Hcolon.
  { intros a k. rewrite includes_colon_count.
    induction a as [| c a IH]; [reflexivity |].
    cbn [append countColons]. destruct (Ascii.eqb c ":"); [reflexivity | exact IH]. }
  unfold constructor.
  destruct (decodeBase64 (token_apiToken token)) as [decoded | e] eqn:Hd.
  - destruct (Host.includes decoded ":") eqn:Hi.
    + destruct (split_with_colon decoded Hi) as (a0 & k0 & rest & Hs).
      rewrite Hs. cbn [fst snd apiToken accessId secretKey authMode nth_error].
      split; [reflexivity |]. split; [| split; [| reflexivity]].
      * split; [intros _; now exists decoded | reflexivity].
      * intros a k Heq Ha Hk.
        assert (decoded = a ++ ":" ++ k) as -> by congruence.
        rewrite (split_at_first_colon a k Ha), (split_without_colon k Hk) in Hs.
        now inversion Hs.
    + cbn [fst snd apiToken accessId secretKey authMode].
      split; [reflexivity |]. split; [| split; [| reflexivity]].
      * split; [discriminate |].
        intros (d & Hd' & Hi'). inversion Hd'. subst d. congruence.
      * intros a k Heq _ _.
        assert (decoded = a ++ ":" ++ k) as -> by congruence.
        rewrite Hcolon in Hi. discriminate.
  - cbn [fst snd apiToken accessId secretKey authMode].
    split; [reflexivity |]. split; [| split; [| reflexivity]].
    + split; [discriminate |]. intros (d & Hd' & _). discriminate.
    + intros a k Heq. discriminate.
Qed.

(** The credential [YWJjOnNlY3JldA==] decodes to [abc:secret]. *)
Lemma constructor_resolves_mode_witness :
  let c := fst (constructor nodeDecode (mkToken "YWJjOnNlY3JldA==")) in
  accessId c = Some "abc" /\ secretKey c = Some "secret".
Proof.
  apply (proj1 (proj2 (proj2
           (constructor_resolves_mode nodeDecode (mkToken "YWJjOnNlY3JldA=="))))
           "abc" "secret");
    reflexivity.
Defined.

(** ** Unwrapping the response *)

Lemma get_member (v : JsVal) (k : string) :
  Js.nullish v = false -> Js.get v k = Return (Js.member v k).
Proof. unfold Js.get. now intros ->. Qed.

Lemma truthy_not_nullish (v : JsVal) : Js.truthy v = true -> Js.nullish v = false.
Proof. destruct v; cbn; congruence. Qed.

(** C3: whatever the method and the params, when the transport answers
    the request with a parsed body, the call fails with the API error
    built from the envelope's message and code if the body carries a
    (truthy) [error], and otherwise returns the body's [result] as it
    is, whatever its shape.  The message and the code of the envelope
    are primitive values, a string and an integer in the envelopes of
    the provider: the text of the error is
    [Moz API Error: <message> (Code: <code>)] with both printed as they
    are. *)
Theorem sendRequest_unwraps
  (uuidv4 : nat -> string)
  (post : nat -> list (string * string) -> JsonRpcRequest -> AxiosOutcome)
  (this : MozApiClient) (method : string) (params : JsVal) (n : nat)
  (data : JsVal) :
  post n (getAuthHeaders this) (createRequest uuidv4 n method params) = Response data ->
  Js.nullish data = false ->
  printable (Js.member (Js.member data "error") "message") = true ->
  printable (Js.member (Js.member data "error") "code") = true ->
  fst (call uuidv4 post this method params n) =
    if Js.truthy (Js.member data "error")
    then Throw (Error ("Moz API Error: "
                       ++ Js.toString (Js.member (Js.member data "error") "message")
                       ++ " (Code: "
                       ++ Js.toString (Js.member (Js.member data "error") "code")
                       ++ ")"))
    else Return (Js.member data "result").
Proof.
  intros Hpost Hdata _ _. unfold call, sendRequest. cbn [fst].
  rewrite Hpost, (get_member data "error" Hdata). cbn [cbind].
  destruct (Js.truthy (Js.member data "error")) eqn:Herr.
  - rewrite !(get_member _ _ (truthy_not_nullish _ Herr)). reflexivity.
  - apply get_member, Hdata.
Qed.

(** A wrapper over a transport that answers with the error 7, "bad",
    and over one that answers with the result [{ a: 1 }]. *)
Lemma sendRequest_unwraps_witness :
  let this := fst (constructor nodeDecode (mkToken "token")) in
  let failed := JObj [("error", JObj [("code", JNum 7); ("message", JStr "bad")])] in
  let ok := JObj [("result", JObj [("a", JNum 1)])] in
  fst (getSiteMetrics (fun _ => "id") (answering failed) this "example.com" 0)
    = Throw (Error "Moz API Error: bad (Code: 7)") /\
  fst (getSiteMetrics (fun _ => "id") (answering ok) this "example.com" 0)
    = Return (JObj [("a", JNum 1)]).
Proof.
  intros this failed ok. split.
  - exact (sendRequest_unwraps (fun _ => "id") (answering failed) this
             "data.site.metrics.fetch" (site_query "example.com") 0 failed
             eq_refl eq_refl eq_refl eq_refl).
  - exact (sendRequest_unwraps (fun _ => "id") (answering ok) this
             "data.site.metrics.fetch" (site_query "example.com") 0 ok
             eq_refl eq_refl eq_refl eq_refl).
Defined.

(** ** Defaults of the wrappers *)

(** The defaults of the wrappers called without options, apart from the
    limit of the keyword suggestions. *)
Lemma wrapper_defaults (keyword site target : string) :
  keyword_params keyword None = serp_query keyword "en-US" "google" /\
  getKeywordSuggestions_params keyword None = serp_query keyword "en-US" "google" /\
  Js.chain (site_query site) ["data"; "site_query"; "scope"] = JStr "domain" /\
  getSiteRankingKeywords_params site None =
    JObj [("data", JObj [
      ("target_query", JObj [("query", JStr site); ("scope", JStr "domain");
                             ("locale", JStr "en-US")]);
      ("serp_query", JObj [("engine", JStr "google"); ("locale", JStr "en-US")]);
      ("limit", JNum 100)])] /\
  getLinks_params target None =
    JObj [("data", JObj [("target", JStr target); ("scope", JStr "page");
                         ("limit", JNum 50)])] /\
  getAnchorText_params target None =
    JObj [("data", JObj [("target", JStr target); ("scope", JStr "page");
                         ("limit", JNum 50)])] /\
  getLinkingDomains_params target None =
    JObj [("data", JObj [("target", JStr target); ("scope", JStr "page");
                         ("limit", JNum 50)])] /\
  getTopPages_params target None =
    JObj [("data", JObj [("target", JStr target); ("scope", JStr "root_domain");
                         ("limit", JNum 50)])] /\
  global_params None = JObj [("data", JObj [("limit", JNum 100)])] /\
  getSiteRankingKeywordsCount_params site None =
    JObj [("data", JObj [("site", JStr site); ("engine", JStr "google");
                         ("locale", JStr "en-US")])].
Proof. repeat split. Qed.

(** C4, at the call [getKeywordSuggestions(keyword)] without options:
    the request that is sent carries the keyword, locale en-US, device
    desktop and engine google, and no limit at all, where the claim has
    the limit 1000. *)
Theorem getKeywordSuggestions_default_has_no_limit
  (uuidv4 : nat -> string) (keyword : string) (n : nat) :
  let request :=
    createRequest uuidv4 n "data.keyword.suggestions.list"
      (getKeywordSuggestions_params keyword None) in
  params request =
    JObj [("data", JObj [("serp_query",
      JObj [("keyword", JStr keyword); ("locale", JStr "en-US");
            ("device", JStr "desktop"); ("engine", JStr "google")])])] /\
  hasKey "limit" (params request) = false /\
  Js.chain (params request) ["data"; "limit"] <> JNum 1000 /\
  Js.chain (params request) ["data"; "serp_query"; "limit"] <> JNum 1000.
Proof. cbn. repeat split; discriminate. Qed.



(** ** Insight generation: the bands *)

(** The bands are exact at their boundaries. *)
Example band_boundaries :
  map (fun ba => Insights.band (JNum ba) "Excellent" "Good" "Fair" "Needs improvement")
      [70; 69; 50; 49; 30; 29]%Z
  = ["Excellent"; "Good"; "Good"; "Fair"; "Fair"; "Needs improvement"].
Proof. reflexivity. Qed.

(** ** Insight generation: which rule pushed which line *)

Section GenLemmas.

Context {A B : Type}.

Lemma pushes_gret (P : string -> Prop) (a : A) : pushes P (gret a).
Proof. constructor. Qed.

Lemma pushes_lift (P : string -> Prop) (c : Completion A) : pushes P (lift c).
Proof. constructor. Qed.

Lemma pushes_push (P : string -> Prop) (line : string) : P line -> pushes P (push line).
Proof. intros H. repeat constructor. exact H. Qed.

Lemma pushes_gbind (P : string -> Prop) (m : Gen A) (k : A -> Gen B) :
  pushes P m -> (forall a, pushes P (k a)) -> pushes P (gbind m k).
Proof.
  unfold pushes, gbind. intros Hm Hk. destruct m as [out [a | e]]; cbn in *.
  - specialize (Hk a). destruct (k a) as [out' r]. cbn in *.
    apply Forall_app. now split.
  - exact Hm.
Qed.

Lemma fst_gbind (m : Gen A) (k : A -> Gen B) :
  fst (gbind m k) =
    (fst m ++ match snd m with
              | Return a => fst (k a)
              | Throw _ => []
              end)%list.
Proof.
  unfold gbind. destruct m as [out [a | e]]; cbn.
  - now destruct (k a).
  - now rewrite app_nil_r.
Qed.

Lemma gbind_lift_return (a : A) (k : A -> Gen B) : gbind (lift (Return a)) k = k a.
Proof. unfold gbind, lift. now destruct (k a). Qed.

Lemma gbind_push (line : string) (k : unit -> Gen B) :
  gbind (push line) k = (line :: fst (k tt), snd (k tt)).
Proof. unfold gbind, push. now destruct (k tt). Qed.

End GenLemmas.

Section RuleOfLines.

Import Insights.

Lemma ruleOf_brandAuthorityLine ba :
  ruleOf (brandAuthorityLine ba) = Some BrandAuthorityRule.
Proof. reflexivity. Qed.

Lemma ruleOf_difficultyLine target difficulty :
  ruleOf (difficultyLine target difficulty) = Some DifficultyRule.
Proof. reflexivity. Qed.

Lemma ruleOf_volumeLine volume : ruleOf (volumeLine volume) = Some VolumeRule.
Proof. reflexivity. Qed.

Lemma ruleOf_landscapeLine s w : ruleOf (landscapeLine s w) = Some ComparisonRule.
Proof. reflexivity. Qed.

Lemma ruleOf_rankCountLine len : ruleOf (rankCountLine len) = Some RankingRule.
Proof. reflexivity. Qed.

Lemma ruleOf_rankedLine target rank : ruleOf (rankedLine target rank) = Some RankingRule.
Proof. reflexivity. Qed.

Lemma ruleOf_notRankedLine target : ruleOf (notRankedLine target) = Some RankingRule.
Proof. reflexivity. Qed.

Lemma ruleOf_fallbackLine : ruleOf fallbackLine = Some FallbackRule.
Proof. reflexivity. Qed.

End RuleOfLines.

Section InsightOrigin.

Import Insights.

Ltac pushes_tac :=
  repeat (cbv beta;
          match goal with
          | |- pushes _ (gbind _ _) => apply pushes_gbind; [| intros ?]
          | |- pushes _ (lift _) => apply pushes_lift
          | |- pushes _ (gret _) => apply pushes_gret
          | |- pushes _ (push _) => apply pushes_push; reflexivity
          | |- pushes _ (if ?b then _ else _) => destruct b
          | |- pushes _ (let (_, _) := ?c in _) => destruct c
          end).

Lemma brandAuthorityInsight_pushes analysis :
  pushes (fun l => ruleOf l = Some BrandAuthorityRule) (brandAuthorityInsight analysis).
Proof. unfold brandAuthorityInsight. pushes_tac. Qed.

Lemma difficultyInsight_pushes analysis :
  pushes (fun l => ruleOf l = Some DifficultyRule) (difficultyInsight analysis).
Proof. unfold difficultyInsight. pushes_tac. Qed.

Lemma volumeInsight_pushes analysis :
  pushes (fun l => ruleOf l = Some VolumeRule) (volumeInsight analysis).
Proof. unfold volumeInsight. pushes_tac. Qed.

Lemma comparisonInsight_pushes analysis :
  pushes (fun l => ruleOf l = Some ComparisonRule) (comparisonInsight analysis).
Proof. unfold comparisonInsight. pushes_tac. Qed.

Lemma rankingInsight_pushes analysis :
  pushes (fun l => ruleOf l = Some RankingRule) (rankingInsight analysis).
Proof. unfold rankingInsight. pushes_tac. Qed.

Lemma in_fst_gbind {A B} (m : Gen A) (k : A -> Gen B) (l : string) :
  In l (fst (gbind m k)) -> In l (fst m) \/ exists a, In l (fst (k a)).
Proof.
  rewrite fst_gbind, in_app_iff. intros [H | H]; [now left |].
  destruct (snd m) as [a | e]; [right; now exists a | contradiction].
Qed.

(** Every line of the result was pushed by the rule it belongs to. *)
Lemma insight_origin (analysis : JsVal) (l : string) :
  In l (generateCompetitorInsights analysis) ->
  exists r, ruleOf l = Some r /\ In l (blockOf r analysis).
Proof.
  assert (forall r P g, @pushes P unit g -> (forall x, P x -> ruleOf x = Some r) ->
                        In l (fst g) -> ruleOf l = Some r) as Hrule.
  { intros r P g Hg HP Hin. apply HP. unfold pushes in Hg.
    rewrite Forall_forall in Hg. now apply Hg. }
  assert (In l (fst (body analysis)) ->
          exists r, ruleOf l = Some r /\ In l (blockOf r analysis)) as Hbody.
  { unfold body. intros H.
    apply in_fst_gbind in H as [H | [_ H]].
    { exists BrandAuthorityRule. split; [| exact H].
      exact (Hrule _ _ _ (brandAuthorityInsight_pushes analysis) (fun _ h => h) H). }
    apply in_fst_gbind in H as [H | [_ H]].
    { exists DifficultyRule. split; [| exact H].
      exact (Hrule _ _ _ (difficultyInsight_pushes analysis) (fun _ h => h) H). }
    apply in_fst_gbind in H as [H | [_ H]].
    { exists VolumeRule. split; [| exact H].
      exact (Hrule _ _ _ (volumeInsight_pushes analysis) (fun _ h => h) H). }
    apply in_fst_gbind in H as [H | [_ H]].
    { exists ComparisonRule. split; [| exact H].
      exact (Hrule _ _ _ (comparisonInsight_pushes analysis) (fun _ h => h) H). }
    exists RankingRule. split; [| exact H].
    exact (Hrule _ _ _ (rankingInsight_pushes analysis) (fun _ h => h) H). }
  unfold generateCompetitorInsights.
  destruct (body analysis) as [insights [u | e]]; cbn [fst] in Hbody.
  - exact Hbody.
  - rewrite in_app_iff. intros [H | [<- | []]]; [now apply Hbody |].
    exists FallbackRule. split; [reflexivity | now left].
Qed.

(** A rule that pushes nothing leaves no line of its kind. *)
Lemma silent_rule (r : Rule) (analysis : JsVal) (l : string) :
  blockOf r analysis = [] ->
  In l (generateCompetitorInsights analysis) -> ruleOf l <> Some r.
Proof.
  intros Hsilent Hin Hr.
  destruct (insight_origin analysis l Hin) as (r' & Hr' & Hblock).
  assert (r' = r) as -> by congruence.
  rewrite Hsilent in Hblock. contradiction.
Qed.

End InsightOrigin.

(** ** Insight generation: what each rule pushes *)

Section InsightRules.

Import Insights.

Lemma falsy_member (v : JsVal) (k : string) :
  Js.truthy v = false -> Js.truthy (Js.optGet v k) = false.
Proof.
  destruct v as [| | b | n | s | items | fields]; cbn; try congruence; try reflexivity.
  intros H. apply negb_false_iff, String.eqb_eq in H. subst s.
  unfold Js.optGet. cbn. now destruct (k =? "length").
Qed.

Lemma optGet_member (v : JsVal) (k : string) :
  Js.nullish v = false -> Js.optGet v k = Js.member v k.
Proof. unfold Js.optGet. now intros ->. Qed.

Lemma optGet_truthy_source (v : JsVal) (k : string) :
  Js.truthy (Js.optGet v k) = true -> Js.nullish v = false.
Proof. unfold Js.optGet. destruct (Js.nullish v); [discriminate | reflexivity]. Qed.

(** The shape shared by the first three rules: a guard on
    [root?.k2?.k3], then the plain reads [root.k2.k3.k4]. *)
Lemma guarded_read (root : JsVal) (k2 k3 k4 : string) (line : JsVal -> Gen unit) :
  (if Js.truthy (Js.chain root [k2; k3])
   then
     (b <- lift (Js.get root k2) ;;
      r <- lift (Js.get b k3) ;;
      v <- lift (Js.get r k4) ;;
      if Js.truthy v then line v else gret tt)%gen
   else gret tt)
  = if Js.truthy (Js.chain root [k2; k3; k4])
    then line (Js.chain root [k2; k3; k4])
    else gret tt.
Proof.
  cbn [Js.chain fold_left].
  destruct (Js.truthy (Js.optGet (Js.optGet root k2) k3)) eqn:Hr.
  - pose proof (optGet_truthy_source _ _ Hr) as Hb.
    assert (Js.nullish root = false) as Hroot.
    { unfold Js.optGet in Hb. destruct (Js.nullish root); [discriminate | reflexivity]. }
    rewrite (get_member root k2 Hroot), gbind_lift_return.
    rewrite <- (optGet_member root k2 Hroot).
    rewrite (get_member _ k3 Hb), gbind_lift_return.
    rewrite <- (optGet_member _ k3 Hb).
    rewrite (get_member _ k4 (truthy_not_nullish _ Hr)), gbind_lift_return.
    rewrite <- (optGet_member _ k4 (truthy_not_nullish _ Hr)).
    reflexivity.
  - now rewrite (falsy_member _ k4 Hr).
Qed.

Lemma chain_step (v : JsVal) (k : string) (path : list string) :
  Js.nullish v = false -> Js.chain v (k :: path) = Js.chain (Js.member v k) path.
Proof. intros H. cbn [Js.chain fold_left]. now rewrite (optGet_member v k H). Qed.

Lemma brandAuthorityInsight_spec (analysis : JsVal) :
  Js.nullish analysis = false ->
  brandAuthorityInsight analysis =
    (if Js.truthy (primaryBA analysis)
     then [brandAuthorityLine (primaryBA analysis)] else [], Return tt).
Proof.
  intros H. unfold brandAuthorityInsight, primaryBA.
  rewrite (get_member analysis _ H), (chain_step analysis _ _ H).
  rewrite gbind_lift_return, guarded_read.
  now destruct (Js.truthy _).
Qed.

Lemma difficultyInsight_spec (analysis : JsVal) :
  Js.nullish analysis = false ->
  difficultyInsight analysis =
    (if Js.truthy (keywordDifficulty analysis)
     then [difficultyLine (Js.member analysis "target_keyword")
                          (keywordDifficulty analysis)]
     else [], Return tt).
Proof.
  intros H. unfold difficultyInsight, keywordDifficulty.
  rewrite (chain_step analysis _ _ H).
  rewrite (get_member analysis "keyword_analysis" H), gbind_lift_return.
  rewrite (guarded_read _ _ _ _
             (fun difficulty =>
                (target <- lift (Js.get analysis "target_keyword") ;;
                 push (difficultyLine target difficulty))%gen)).
  rewrite (get_member analysis "target_keyword" H), gbind_lift_return.
  now destruct (Js.truthy _).
Qed.

Lemma volumeInsight_spec (analysis : JsVal) :
  Js.nullish analysis = false ->
  volumeInsight analysis =
    (if Js.truthy (keywordVolume analysis)
     then [volumeLine (keywordVolume analysis)] else [], Return tt).
Proof.
  intros H. unfold volumeInsight, keywordVolume.
  rewrite (get_member analysis _ H), (chain_step analysis _ _ H).
  rewrite gbind_lift_return, guarded_read.
  now destruct (Js.truthy _).
Qed.

End InsightRules.

Section ComparisonRule.

Import Insights.

Lemma compareCompetitor_spec (primary comp : JsVal) (s w : nat) :
  Js.nullish comp = false ->
  compareCompetitor primary (s, w) comp =
    Return (s + (if isStronger primary comp then 1 else 0),
            w + (if isWeaker primary comp then 1 else 0)).
Proof.
  intros H. unfold compareCompetitor, isStronger, isWeaker, comparable, knownBA.
  rewrite (get_member comp _ H), (chain_step comp _ _ H). cbn [cbind].
  destruct (Js.truthy primary); cbn [andb]; [| now rewrite !Nat.add_0_r].
  destruct (Js.truthy (Js.chain _ _)); cbn [andb]; [| now rewrite !Nat.add_0_r].
  destruct (Js.gt _ primary); cbn [andb negb].
  - now rewrite Nat.add_0_r, Nat.add_1_r.
  - destruct (Js.lt _ primary).
    + now rewrite Nat.add_0_r, Nat.add_1_r.
    + now rewrite !Nat.add_0_r.
Qed.

Lemma forEachItem_spec (primary : JsVal) (comps : list JsVal) :
  Forall (fun c => Js.nullish c = false) comps ->
  forall s w,
    forEachItem (compareCompetitor primary) comps (s, w) =
      Return (s + stronger primary comps, w + weaker primary comps).
Proof.
  unfold stronger, weaker.
  induction 1 as [| comp comps Hc _ IH]; intros s w.
  - cbn. now rewrite !Nat.add_0_r.
  - cbn [forEachItem List.filter]. rewrite (compareCompetitor_spec _ _ _ _ Hc).
    cbn [cbind]. rewrite IH.
    destruct (isStronger primary comp), (isWeaker primary comp);
      cbn [List.length]; f_equal; f_equal; lia.
Qed.

Lemma gt_length_zero (n : nat) :
  Js.gt (JNum (Z.of_nat n)) (JNum 0) = (0 <? n)%nat.
Proof. destruct n; reflexivity. Qed.

Lemma comparisonInsight_spec (analysis : JsVal) (comps : list JsVal) :
  Js.nullish analysis = false ->
  Js.member analysis "competitor_data" = JArr comps ->
  Forall (fun c => Js.nullish c = false) comps ->
  comparisonInsight analysis = (comparisonLines (primaryBA analysis) comps, Return tt).
Proof.
  intros H Hcd Hcomps. unfold comparisonInsight, comparisonLines.
  rewrite (get_member analysis "competitor_data" H), gbind_lift_return, Hcd.
  rewrite (get_member (JArr comps) "length" eq_refl), gbind_lift_return.
  cbn [Js.member String.eqb Ascii.eqb Bool.eqb]. rewrite gt_length_zero.
  destruct (0 <? List.length comps)%nat eqn:Hlen.
  2: { destruct comps; [reflexivity | discriminate]. }
  rewrite (get_member analysis "primary_site_data" H), gbind_lift_return.
  rewrite <- (chain_step analysis "primary_site_data"
                ["brand_authority"; "result"; "brand_authority"] H).
  fold (primaryBA analysis). unfold forEach.
  rewrite (forEachItem_spec _ _ Hcomps 0 0), gbind_lift_return.
  cbn [Nat.add].
  now destruct ((0 <? stronger _ _)%nat || (0 <? weaker _ _)%nat).
Qed.

End ComparisonRule.

Section RankingRule.

Import Insights.

Lemma guarded_pair (root : JsVal) (k2 k3 : string) :
  Js.truthy (Js.chain root [k2; k3]) = true ->
  Js.get root k2 = Return (Js.optGet root k2) /\
  Js.get (Js.optGet root k2) k3 = Return (Js.chain root [k2; k3]).
Proof.
  cbn [Js.chain fold_left]. intros Hr.
  pose proof (optGet_truthy_source _ _ Hr) as Hb.
  assert (Js.nullish root = false) as Hroot.
  { unfold Js.optGet in Hb. destruct (Js.nullish root); [discriminate | reflexivity]. }
  rewrite (optGet_member root k2 Hroot) in *.
  rewrite (optGet_member _ k3 Hb).
  split; now apply get_member.
Qed.

Lemma matchesTarget_spec (analysis : JsVal) (target : string) (kw : JsVal) :
  Js.nullish analysis = false ->
  Js.member analysis "target_keyword" = JStr target ->
  readable kw = true ->
  matchesTarget analysis kw = Return (entryMatches target kw).
Proof.
  intros H Ht Hkw. unfold readable in Hkw. apply andb_true_iff in Hkw as [Hnn Hk].
  apply negb_true_iff in Hnn.
  unfold matchesTarget, entryMatches.
  rewrite (get_member kw _ Hnn). cbn [cbind].
  destruct (Js.member kw "keyword") as [| | b | n | k | l | f];
    try (apply negb_true_iff in Hk; rewrite Hk; reflexivity);
    try reflexivity.
  cbn [Js.truthy]. destruct (negb (k =? "")); [| reflexivity].
  cbn [toLowerCase cbind]. rewrite (get_member analysis _ H), Ht.
  reflexivity.
Qed.

Lemma findItem_spec (analysis : JsVal) (target : string) (items : list JsVal) :
  Js.nullish analysis = false ->
  Js.member analysis "target_keyword" = JStr target ->
  Forall (fun kw => readable kw = true) items ->
  findItem (matchesTarget analysis) items =
    Return (match List.find (entryMatches target) items with
            | Some kw => kw
            | None => JUndefined
            end).
Proof.
  intros H Ht. induction 1 as [| kw items Hkw _ IH].
  - reflexivity.
  - cbn [findItem List.find]. rewrite (matchesTarget_spec _ _ _ H Ht Hkw).
    cbn [cbind]. now destruct (entryMatches target kw).
Qed.

Lemma entryMatches_truthy (target : string) (kw : JsVal) :
  entryMatches target kw = true -> Js.truthy kw = true.
Proof. destruct kw; cbn; congruence. Qed.

Lemma rankingInsight_spec (analysis : JsVal) (target : string) (items : list JsVal) :
  Js.nullish analysis = false ->
  Js.member analysis "target_keyword" = JStr target ->
  rankingList analysis = JArr items ->
  items <> [] ->
  Forall (fun kw => readable kw = true) items ->
  rankingInsight analysis = (rankingLines target items, Return tt).
Proof.
  intros H Ht Hlist Hne Hitems. unfold rankingInsight, rankingLines.
  unfold rankingList in Hlist. rewrite (chain_step analysis _ _ H) in Hlist.
  rewrite (get_member analysis "primary_site_data" H), gbind_lift_return.
  assert (Js.truthy (Js.chain (Js.member analysis "primary_site_data")
                       ["ranking_keywords"; "result"]) = true) as Htruthy
      by now rewrite Hlist.
  destruct (guarded_pair _ _ _ Htruthy) as [Hrk Hres].
  rewrite Htruthy, Hrk, gbind_lift_return, Hres, gbind_lift_return, Hlist.
  cbn [Js.truthy]. rewrite (get_member (JArr items) "length" eq_refl).
  rewrite !gbind_lift_return.
  cbn [Js.member String.eqb Ascii.eqb Bool.eqb Js.truthy].
  replace (negb (Z.of_nat (List.length items) =? 0)%Z) with true
    by (destruct items; [contradiction | reflexivity]).
  rewrite gbind_push. unfold find.
  rewrite (findItem_spec _ _ _ H Ht Hitems), gbind_lift_return.
  rewrite (get_member analysis "target_keyword" H), Ht.
  destruct (List.find (entryMatches target) items) as [kw |] eqn:Hfind.
  - apply find_some in Hfind as [_ Hm].
    rewrite (entryMatches_truthy _ _ Hm), gbind_lift_return.
    rewrite (get_member kw _ (truthy_not_nullish _ (entryMatches_truthy _ _ Hm))).
    now rewrite gbind_lift_return.
  - cbn [Js.truthy]. now rewrite gbind_lift_return.
Qed.

(** No list (an error marker in the slot, a missing or falsy
    [result]) or an empty list: the rule pushes nothing. *)
Lemma rankingInsight_silent (analysis : JsVal) :
  Js.nullish analysis = false ->
  Js.truthy (rankingList analysis) = false \/ rankingList analysis = JArr [] ->
  rankingInsight analysis = ([], Return tt).
Proof.
  intros H Hlist. unfold rankingInsight. unfold rankingList in Hlist.
  rewrite (chain_step analysis _ _ H) in Hlist.
  rewrite (get_member analysis "primary_site_data" H), gbind_lift_return.
  destruct Hlist as [Hfalsy | Hempty].
  - now rewrite Hfalsy.
  - assert (Js.truthy (Js.chain (Js.member analysis "primary_site_data")
                         ["ranking_keywords"; "result"]) = true) as Htruthy
        by now rewrite Hempty.
    destruct (guarded_pair _ _ _ Htruthy) as [Hrk Hres].
    rewrite Htruthy, Hrk, gbind_lift_return, Hres, gbind_lift_return, Hempty.
    reflexivity.
Qed.

End RankingRule.

(** ** Insight generation: the whole method *)

Section InsightTheorems.

Import Insights.

Lemma generate_decompose (analysis : JsVal) (comps : list JsVal) :
  Js.nullish analysis = false ->
  Js.member analysis "competitor_data" = JArr comps ->
  Forall (fun c => Js.nullish c = false) comps ->
  generateCompetitorInsights analysis =
    (blockOf BrandAuthorityRule analysis ++ blockOf DifficultyRule analysis
     ++ blockOf VolumeRule analysis ++ blockOf ComparisonRule analysis
     ++ rankingTail analysis)%list.
Proof.
  intros H Hcd Hcomps.
  unfold generateCompetitorInsights, body, blockOf, rankingTail.
  rewrite (brandAuthorityInsight_spec analysis H).
  rewrite (difficultyInsight_spec analysis H).
  rewrite (volumeInsight_spec analysis H).
  rewrite (comparisonInsight_spec analysis comps H Hcd Hcomps).
  cbn [gbind fst].
  destruct (rankingInsight analysis) as [lines [[] | e]];
    now rewrite <- ?app_assoc.
Qed.

Lemma linesOf_app (r : Rule) (xs ys : list string) :
  linesOf r (xs ++ ys) = (linesOf r xs ++ linesOf r ys)%list.
Proof. apply filter_app. Qed.

Lemma linesOf_uniform (r r' : Rule) (lines : list string) :
  Forall (fun l => ruleOf l = Some r') lines ->
  linesOf r lines = if Rule_beq r r' then lines else [].
Proof.
  induction 1 as [| l lines Hl _ IH].
  - now destruct (Rule_beq r r').
  - cbn [linesOf List.filter]. rewrite Hl. fold (linesOf r lines). rewrite IH.
    now destruct (Rule_beq r r').
Qed.

Lemma blockOf_uniform (r : Rule) (analysis : JsVal) :
  Forall (fun l => ruleOf l = Some r) (blockOf r analysis).
Proof.
  destruct r; cbn [blockOf].
  - apply brandAuthorityInsight_pushes.
  - apply difficultyInsight_pushes.
  - apply volumeInsight_pushes.
  - apply comparisonInsight_pushes.
  - apply rankingInsight_pushes.
  - repeat constructor.
Qed.

Lemma linesOf_block (r r' : Rule) (analysis : JsVal) :
  linesOf r (blockOf r' analysis) = if Rule_beq r r' then blockOf r' analysis else [].
Proof. apply linesOf_uniform, blockOf_uniform. Qed.

Lemma linesOf_silent (r : Rule) (analysis : JsVal) :
  blockOf r analysis = [] -> linesOf r (generateCompetitorInsights analysis) = [].
Proof.
  intros Hsilent.
  pose proof (silent_rule r analysis) as Hnone.
  unfold linesOf.
  induction (generateCompetitorInsights analysis) as [| l lines IH]; [reflexivity |].
  cbn [List.filter].
  destruct (ruleOf l) as [r' |] eqn:Hl.
  - destruct (Rule_beq r r') eqn:Hr.
    + apply internal_Rule_dec_bl in Hr. subst r'.
      exfalso. apply (Hnone l Hsilent); [now left | exact Hl].
    + apply IH. intros x Hs Hx. apply Hnone; [exact Hs | now right].
  - apply IH. intros x Hs Hx. apply Hnone; [exact Hs | now right].
Qed.

Lemma linesOf_rankingTail_returned (r : Rule) (analysis : JsVal) (lines : list string) :
  rankingInsight analysis = (lines, Return tt) ->
  linesOf r (rankingTail analysis) = if Rule_beq r RankingRule then lines else [].
Proof.
  intros Hrun. unfold rankingTail. rewrite Hrun.
  apply linesOf_uniform.
  pose proof (rankingInsight_pushes analysis) as Hp. unfold pushes in Hp.
  now rewrite Hrun in Hp.
Qed.

Lemma linesOf_rankingTail_other (r : Rule) (analysis : JsVal) :
  r <> RankingRule -> r <> FallbackRule -> linesOf r (rankingTail analysis) = [].
Proof.
  intros Hr Hf. unfold rankingTail.
  pose proof (rankingInsight_pushes analysis) as Hp. unfold pushes in Hp.
  destruct (rankingInsight analysis) as [lines [u | e]]; cbn [fst] in Hp.
  - rewrite (linesOf_uniform r RankingRule lines Hp).
    destruct (Rule_beq r RankingRule) eqn:Hb; [| reflexivity].
    apply internal_Rule_dec_bl in Hb. contradiction.
  - rewrite linesOf_app, (linesOf_uniform r RankingRule lines Hp).
    rewrite (linesOf_uniform r FallbackRule [fallbackLine]) by (repeat constructor).
    destruct (Rule_beq r RankingRule) eqn:Hb.
    + apply internal_Rule_dec_bl in Hb. contradiction.
    + destruct (Rule_beq r FallbackRule) eqn:Hb'; [| reflexivity].
      apply internal_Rule_dec_bl in Hb'. contradiction.
Qed.

End InsightTheorems.

Lemma plainEntries_readable (items : list JsVal) :
  forallb plainEntry items = true -> Forall (fun kw => readable kw = true) items.
Proof.
  intros H. apply Forall_forall. intros kw Hin.
  rewrite forallb_forall in H. specialize (H kw Hin). unfold plainEntry in H.
  apply andb_true_iff in H as [H _]. now apply andb_true_iff in H as [H _].
Qed.

Section InsightClaims.

Import Insights.

(** C6, as the claim states it, on a report whose ranking-keywords
    list was retrieved and is empty: no entry matches the target, and
    no absence line (no line at all) is produced. *)
Lemma empty_ranking_list_counterexample :
  let analysis :=
    exampleReport "seo" (JNum 50) (JObj [("result", JArr [])]) [] (JObj []) in
  rankingList analysis = JArr [] /\
  List.find (entryMatches "seo") [] = None /\
  generateCompetitorInsights analysis = ["Primary site brand authority: 50 (Good)"] /\
  ~ In ("Primary site does not appear to rank in top 100 for target keyword "
        ++ dq ++ "seo" ++ dq)
       (generateCompetitorInsights analysis) /\
  linesOf RankingRule (generateCompetitorInsights analysis) = [].
Proof.
  cbv zeta. split; [reflexivity |]. split; [reflexivity |]. split; [reflexivity |].
  split; [| reflexivity].
  vm_compute. intros [H | []]. discriminate H.
Qed.

(** C6, amended: on an assembled report, when the primary site's
    ranking-keywords list was retrieved and is not empty, the ranking
    rule leaves the count line and one more line: for the first entry
    whose keyword contains the target keyword as a substring, both in
    lower case, the line with its rank, or with "unknown" when the
    rank is absent (falsy); when no entry matches, the absence line.
    This is stated for a report of plain values: the target keyword
    and the keywords of the entries are ASCII text, every entry is an
    object the rule can read (not null, its keyword a string or
    falsy) with a printable rank, and the scores read by the earlier
    rules are primitive values, so that no rule before this one is
    cut short.  When the ranking-keywords call failed (the slot is an
    error marker) or the list is empty, the rule leaves no line. *)
Theorem ranking_keyword_insight
  (fields : list (string * JsVal)) (target : string) :
  let analysis := JObj fields in
  Js.member analysis "target_keyword" = JStr target ->
  (forall comps items,
      asciiText target = true ->
      quietScores analysis = true ->
      Js.member analysis "competitor_data" = JArr comps ->
      Forall (fun c => Js.nullish c = false) comps ->
      quietCompetitors comps = true ->
      rankingList analysis = JArr items ->
      items <> [] ->
      forallb plainEntry items = true ->
      linesOf RankingRule (generateCompetitorInsights analysis) =
        ["Primary site ranks for " ++ Js.Z_toString (Z.of_nat (List.length items))
         ++ " keywords (showing up to 100)";
         match List.find (entryMatches target) items with
         | Some kw =>
             "Primary site ranks for target keyword " ++ dq ++ target ++ dq
             ++ " at position "
             ++ (if Js.truthy (Js.member kw "rank")
                 then Js.toString (Js.member kw "rank") else "unknown")
         | None =>
             "Primary site does not appear to rank in top 100 for target keyword "
             ++ dq ++ target ++ dq
         end]) /\
  (forall msg,
      Js.chain analysis ["primary_site_data"; "ranking_keywords"]
        = JObj [("error", JStr msg)] ->
      linesOf RankingRule (generateCompetitorInsights analysis) = []) /\
  (rankingList analysis = JArr [] ->
   linesOf RankingRule (generateCompetitorInsights analysis) = []).
Proof.
  intros analysis Ht. split; [| split].
  - intros comps items _ _ Hcd Hcomps _ Hlist Hne Hplain.
    pose proof (plainEntries_readable items Hplain) as Hitems.
    rewrite (generate_decompose analysis comps eq_refl Hcd Hcomps).
    rewrite !linesOf_app, !linesOf_block. cbn [Rule_beq app].
    rewrite (linesOf_rankingTail_returned _ _ _
               (rankingInsight_spec analysis target items eq_refl Ht Hlist Hne Hitems)).
    cbn [Rule_beq]. unfold rankingLines. f_equal. f_equal.
    destruct (List.find (entryMatches target) items) as [kw |]; [| reflexivity].
    unfold rankedLine. now destruct (Js.truthy (Js.member kw "rank")).
  - intros msg Hslot. apply linesOf_silent. cbn [blockOf].
    rewrite (rankingInsight_silent analysis eq_refl); [reflexivity |].
    left. unfold rankingList.
    change (Js.chain analysis ["primary_site_data"; "ranking_keywords"; "result"])
      with (Js.optGet (Js.chain analysis ["primary_site_data"; "ranking_keywords"])
                      "result").
    now rewrite Hslot.
  - intros Hempty. apply linesOf_silent. cbn [blockOf].
    rewrite (rankingInsight_silent analysis eq_refl); [reflexivity | now right].
Qed.

(** The target "seo tools" is found in the entry "Best SEO Tools 2024",
    the second of the list, ranked 7; the target "link building" is
    found in no entry of the same list. *)
Lemma ranking_keyword_insight_witness :
  let entries :=
    [JObj [("keyword", JStr "moz pricing"); ("rank", JNum 2)];
     JObj [("keyword", JStr "Best SEO Tools 2024"); ("rank", JNum 7)]] in
  let report target :=
    exampleReport target (JNum 50) (JObj [("result", JArr entries)])
                  [exampleCompetitor "c1.com" (JNum 60)] (JObj []) in
  linesOf RankingRule (generateCompetitorInsights (report "seo tools"))
  = ["Primary site ranks for 2 keywords (showing up to 100)";
     "Primary site ranks for target keyword " ++ dq ++ "seo tools" ++ dq
     ++ " at position 7"] /\
  linesOf RankingRule (generateCompetitorInsights (report "link building"))
  = ["Primary site ranks for 2 keywords (showing up to 100)";
     "Primary site does not appear to rank in top 100 for target keyword "
     ++ dq ++ "link building" ++ dq].
Proof.
  intros entries report. split.
  - refine (proj1 (ranking_keyword_insight
                     (exampleFields "seo tools" (JNum 50)
                        (JObj [("result", JArr entries)])
                        [exampleCompetitor "c1.com" (JNum 60)] (JObj []))
                     "seo tools" eq_refl)
              [exampleCompetitor "c1.com" (JNum 60)] entries
              eq_refl eq_refl eq_refl _ eq_refl eq_refl _ eq_refl).
    + repeat constructor.
    + discriminate.
  - refine (proj1 (ranking_keyword_insight
                     (exampleFields "link building" (JNum 50)
                        (JObj [("result", JArr entries)])
                        [exampleCompetitor "c1.com" (JNum 60)] (JObj []))
                     "link building" eq_refl)
              [exampleCompetitor "c1.com" (JNum 60)] entries
              eq_refl eq_refl eq_refl _ eq_refl eq_refl _ eq_refl).
    + repeat constructor.
    + discriminate.
Defined.

(** C7, as the claim states it, on a report whose only competitor has
    the brand authority of the primary site, 50: both values are
    known, so a comparison was possible, and no comparison line is
    produced. *)
Lemma equal_authority_counterexample :
  let comps := [exampleCompetitor "c1.com" (JNum 50)] in
  let analysis := exampleReport "seo" (JNum 50) (JObj []) comps (JObj []) in
  primaryBA analysis = JNum 50 /\
  map knownBA comps = [JNum 50] /\
  existsb (comparable (primaryBA analysis)) comps = true /\
  linesOf ComparisonRule (generateCompetitorInsights analysis) = [] /\
  generateCompetitorInsights analysis = ["Primary site brand authority: 50 (Good)"].
Proof. cbv zeta. repeat split. Qed.

(** C7, amended: on an assembled report the comparison rule counts,
    over the competitors whose brand authority is known (truthy)
    while the primary site's is known too, those above and those
    below the primary value, and its line, which reports the two
    counts, is produced if and only if at least one of the two counts
    is positive, that is, some such competitor is strictly above or
    strictly below the primary site.  This is stated for a report
    whose brand authorities, of the primary site and of every
    competitor, are safe integers or absent ([undefined] or [null]),
    and whose target keyword, keyword difficulty and keyword volume
    are primitive values, so that no rule before this one is cut
    short. *)
Theorem comparison_insight (fields : list (string * JsVal)) (comps : list JsVal) :
  let analysis := JObj fields in
  let primary := primaryBA analysis in
  let above :=
    List.length (List.filter (fun c => comparable primary c
                                       && Js.gt (knownBA c) primary) comps) in
  let below :=
    List.length (List.filter (fun c => comparable primary c
                                       && negb (Js.gt (knownBA c) primary)
                                       && Js.lt (knownBA c) primary) comps) in
  Js.member analysis "competitor_data" = JArr comps ->
  Forall (fun c => Js.nullish c = false) comps ->
  scoreOrAbsent primary = true ->
  forallb (fun c => scoreOrAbsent (knownBA c)) comps = true ->
  primitive (Js.member analysis "target_keyword") = true ->
  primitive (keywordDifficulty analysis) = true ->
  primitive (keywordVolume analysis) = true ->
  linesOf ComparisonRule (generateCompetitorInsights analysis) =
    if (0 <? above)%nat || (0 <? below)%nat
    then ["Competitive landscape: " ++ Js.Z_toString (Z.of_nat above)
          ++ " competitors have higher brand authority, "
          ++ Js.Z_toString (Z.of_nat below) ++ " have lower"]
    else [].
Proof.
  intros analysis primary above below Hcd Hcomps _ _ _ _ _.
  rewrite (generate_decompose analysis comps eq_refl Hcd Hcomps).
  rewrite !linesOf_app, !linesOf_block. cbn [Rule_beq app].
  rewrite linesOf_rankingTail_other by discriminate.
  rewrite app_nil_r. cbn [blockOf].
  now rewrite (comparisonInsight_spec analysis comps eq_refl Hcd Hcomps).
Qed.

(** Against a primary site at 50: competitors at 60, 50, 0 (unknown)
    and 20. *)
Lemma comparison_insight_witness :
  let comps :=
    [exampleCompetitor "c1.com" (JNum 60);
     exampleCompetitor "c2.com" (JNum 50);
     exampleCompetitor "c3.com" (JNum 0);
     exampleCompetitor "c4.com" (JNum 20)] in
  linesOf ComparisonRule
    (generateCompetitorInsights (exampleReport "seo" (JNum 50) (JObj []) comps (JObj [])))
  = ["Competitive landscape: 1 competitors have higher brand authority, 1 have lower"].
Proof.
  intros comps.
  refine (comparison_insight
            (exampleFields "seo" (JNum 50) (JObj []) comps (JObj [])) comps eq_refl _
            eq_refl eq_refl eq_refl eq_refl eq_refl).
  repeat constructor.
Defined.

End InsightClaims.

Section ZeroValues.

Import Insights.

(** C9: a zero is read as missing data.  On a report whose primary
    brand authority, keyword difficulty or keyword volume is 0, the
    result has no line of the corresponding rule (no banding of the
    zero, no volume line); and when the first matching ranking entry
    has rank 0, the report says position "unknown".  The last part is
    stated for a report of plain values, on which the ranking rule is
    reached and the match is the one JavaScript finds: the target
    keyword and the keywords of the entries are ASCII text, every
    entry is readable with a printable rank, and the scores read by
    the earlier rules are primitive values. *)
Theorem zero_is_absent (fields : list (string * JsVal)) :
  let analysis := JObj fields in
  (primaryBA analysis = JNum 0 ->
   linesOf BrandAuthorityRule (generateCompetitorInsights analysis) = []) /\
  (keywordDifficulty analysis = JNum 0 ->
   linesOf DifficultyRule (generateCompetitorInsights analysis) = []) /\
  (keywordVolume analysis = JNum 0 ->
   linesOf VolumeRule (generateCompetitorInsights analysis) = []) /\
  (forall target comps items kw,
      Js.member analysis "target_keyword" = JStr target ->
      asciiText target = true ->
      quietScores analysis = true ->
      Js.member analysis "competitor_data" = JArr comps ->
      Forall (fun c => Js.nullish c = false) comps ->
      quietCompetitors comps = true ->
      rankingList analysis = JArr items ->
      forallb plainEntry items = true ->
      List.find (entryMatches target) items = Some kw ->
      Js.member kw "rank" = JNum 0 ->
      In ("Primary site ranks for target keyword " ++ dq ++ target ++ dq
          ++ " at position unknown")
         (generateCompetitorInsights analysis)).
Proof.
  intros analysis. repeat split.
  - intros Hzero. apply linesOf_silent. cbn [blockOf].
    now rewrite (brandAuthorityInsight_spec analysis eq_refl), Hzero.
  - intros Hzero. apply linesOf_silent. cbn [blockOf].
    now rewrite (difficultyInsight_spec analysis eq_refl), Hzero.
  - intros Hzero. apply linesOf_silent. cbn [blockOf].
    now rewrite (volumeInsight_spec analysis eq_refl), Hzero.
  - intros target comps items kw Ht _ _ Hcd Hcomps _ Hlist Hplain Hfind Hrank.
    pose proof (plainEntries_readable items Hplain) as Hitems.
    assert (items <> []) as Hne by (intros ->; discriminate).
    rewrite (generate_decompose analysis comps eq_refl Hcd Hcomps).
    rewrite !in_app_iff. do 4 right. unfold rankingTail.
    rewrite (rankingInsight_spec analysis target items eq_refl Ht Hlist Hne Hitems).
    unfold rankingLines. rewrite Hfind, Hrank. right. now left.
Qed.

(** A report with brand authority, difficulty and volume 0, and a
    matching entry of rank 0. *)
Lemma zero_is_absent_witness :
  let entries := [JObj [("keyword", JStr "Best SEO Tools 2024"); ("rank", JNum 0)]] in
  let zeros :=
    JObj [("keyword", JStr "seo tools");
          ("difficulty", JObj [("result", JObj [("difficulty", JNum 0)])]);
          ("volume", JObj [("result", JObj [("volume", JNum 0)])])] in
  let analysis :=
    exampleReport "seo tools" (JNum 0) (JObj [("result", JArr entries)]) [] zeros in
  linesOf BrandAuthorityRule (generateCompetitorInsights analysis) = [] /\
  linesOf DifficultyRule (generateCompetitorInsights analysis) = [] /\
  linesOf VolumeRule (generateCompetitorInsights analysis) = [] /\
  In ("Primary site ranks for target keyword " ++ dq ++ "seo tools" ++ dq
      ++ " at position unknown")
     (generateCompetitorInsights analysis).
Proof.
  intros entries zeros analysis.
  pose proof (zero_is_absent
                (exampleFields "seo tools" (JNum 0) (JObj [("result", JArr entries)])
                   [] zeros)) as (Hba & Hd & Hv & Hrank).
  split; [exact (Hba eq_refl) |].
  split; [exact (Hd eq_refl) |].
  split; [exact (Hv eq_refl) |].
  refine (Hrank "seo tools" [] entries _ eq_refl eq_refl eq_refl eq_refl _ eq_refl
            eq_refl eq_refl eq_refl eq_refl).
  constructor.
Defined.

End ZeroValues.

(** ** The competitor analysis *)

Lemma catch_error_settled (p : Completion JsVal) : catch_error p = Return (settled p).
Proof. now destruct p. Qed.

Section EngineProperties.

Variable uuidv4 : nat -> string.
Variable post : nat -> list (string * string) -> JsonRpcRequest -> AxiosOutcome.
Variable this : MozApiClient.
Variable now : string.

Lemma sitePromises_all (site locale : string) (n : nat) :
  Promise_all (fst (sitePromises uuidv4 post this site locale n))
    = Return (map snd (siteSlots uuidv4 post this site locale n)) /\
  snd (sitePromises uuidv4 post this site locale n) = 3 + n.
Proof.
  unfold sitePromises, siteSlots, getSiteMetrics, getSiteBrandAuthority,
    getSiteRankingKeywords, call.
  cbn [fst snd Promise_all map]. rewrite !catch_error_settled. now cbn.
Qed.

Lemma keywordPromises_all (targetKeyword locale : string) (n : nat) :
  Promise_all (fst (keywordPromises uuidv4 post this targetKeyword locale n))
    = Return (map snd (keywordFields uuidv4 post this targetKeyword locale n)) /\
  snd (keywordPromises uuidv4 post this targetKeyword locale n) = 4 + n.
Proof.
  unfold keywordPromises, keywordFields, getKeywordMetrics, getKeywordDifficulty,
    getKeywordVolume, getKeywordSearchIntent, call.
  cbn [fst snd Promise_all map]. rewrite !catch_error_settled. now cbn.
Qed.

Lemma pushInto_competitor_data (ps t l ts : string) (pd kd ins : JsVal)
      (acc : list JsVal) (x : JsVal) :
  pushInto (JObj (reportFields ps t l ts pd (JArr acc) kd ins)) "competitor_data" x
  = Return (JObj (reportFields ps t l ts pd (JArr (acc ++ [x])) kd ins)).
Proof. reflexivity. Qed.

Lemma analyzeCompetitor_spec (site locale : string) (ps t l ts : string)
      (pd kd ins : JsVal) (acc : list JsVal) (n : nat) :
  analyzeCompetitor uuidv4 post this site locale
    (JObj (reportFields ps t l ts pd (JArr acc) kd ins)) n
  = (Return (JObj (reportFields ps t l ts pd
                     (JArr (acc ++ [competitorEntry uuidv4 post this site locale n])) kd ins)),
     3 + n).
Proof.
  unfold analyzeCompetitor.
  destruct (sitePromises_all site locale n) as [Hall Hn].
  destruct (sitePromises uuidv4 post this site locale n) as [promises n'].
  cbn [fst snd] in Hall, Hn. subst n'. rewrite Hall. cbn [cbind].
  now rewrite pushInto_competitor_data.
Qed.

Lemma analyzeCompetitors_spec (sites : list string) (locale : string)
      (ps t l ts : string) (pd kd ins : JsVal) :
  forall (acc : list JsVal) (n : nat),
    analyzeCompetitors uuidv4 post this sites locale
      (JObj (reportFields ps t l ts pd (JArr acc) kd ins)) n
    = (Return (JObj (reportFields ps t l ts pd
                       (JArr (acc ++ competitorEntries uuidv4 post this sites locale n)) kd ins)),
       3 * List.length sites + n).
Proof.
  induction sites as [| site rest IH]; intros acc n.
  - cbn. now rewrite app_nil_r.
  - cbn [analyzeCompetitors competitorEntries].
    rewrite analyzeCompetitor_spec, IH, <- app_assoc.
    f_equal. cbn [List.length]. lia.
Qed.

Lemma competitorEntries_length (sites : list string) (locale : string) (n : nat) :
  List.length (competitorEntries uuidv4 post this sites locale n) = List.length sites.
Proof.
  revert n. induction sites as [| site rest IH]; intros n; [reflexivity |].
  cbn. now rewrite IH.
Qed.

Lemma competitorEntries_sites (sites : list string) (locale : string) (n : nat) :
  map (fun entry => Js.member entry "site") (competitorEntries uuidv4 post this sites locale n)
  = map JStr sites.
Proof.
  revert n. induction sites as [| site rest IH]; intros n; [reflexivity |].
  cbn [competitorEntries map]. now rewrite IH.
Qed.

Lemma competitorEntries_nth (sites : list string) (locale : string) :
  forall (n j : nat) (site : string),
    nth_error sites j = Some site ->
    nth_error (competitorEntries uuidv4 post this sites locale n) j
    = Some (competitorEntry uuidv4 post this site locale (3 * j + n)).
Proof.
  induction sites as [| s rest IH]; intros n j site Hj.
  - destruct j; discriminate.
  - destruct j as [| j].
    + inversion Hj. reflexivity.
    + cbn [nth_error competitorEntries] in *. rewrite (IH _ _ _ Hj).
      do 2 f_equal. lia.
Qed.

Lemma set_insights (ps t l ts : string) (pd cd kd ins x : JsVal) :
  Js.set (JObj (reportFields ps t l ts pd cd kd ins)) "insights" x
  = JObj (reportFields ps t l ts pd cd kd x).
Proof. reflexivity. Qed.

Lemma set_keyword_analysis (ps t l ts : string) (pd cd kd ins x : JsVal) :
  Js.set (JObj (reportFields ps t l ts pd cd kd ins)) "keyword_analysis" x
  = JObj (reportFields ps t l ts pd cd x ins).
Proof. reflexivity. Qed.

Lemma set_guidance (ps t l ts : string) (pd cd kd ins x : JsVal) :
  Js.set (JObj (reportFields ps t l ts pd cd kd ins))
    "competitor_identification_guidance" x
  = JObj (reportFields ps t l ts pd cd kd ins
          ++ [("competitor_identification_guidance", x)]).
Proof. reflexivity. Qed.

(** The body of the method never throws, and assembles this report. *)
Lemma assemble_shape (primarySite : string) (sites : list string)
      (targetKeyword locale : string) (includeKeywordAnalysis : bool) (n : nat) :
  assemble uuidv4 post this now primarySite sites targetKeyword locale
    includeKeywordAnalysis n
  = (Return (finalReport uuidv4 post this now primarySite sites targetKeyword locale
               includeKeywordAnalysis n),
     (if includeKeywordAnalysis then 4 else 0) + (3 * List.length sites + (3 + n))).
Proof.
  unfold assemble, finalReport, baseReport.
  destruct (sitePromises_all primarySite locale n) as [Hall Hn].
  destruct (sitePromises uuidv4 post this primarySite locale n) as [promises n1].
  cbn [fst snd] in Hall, Hn. subst n1. rewrite Hall.
  change (Js.set _ "primary_site_data" _)
    with (JObj (reportFields primarySite targetKeyword locale now
                  (JObj (siteSlots uuidv4 post this primarySite locale n)) (JArr [])
                  (JObj []) (JArr []))).
  assert ((if (0 <? List.length sites)%nat
           then analyzeCompetitors uuidv4 post this sites locale
                  (JObj (reportFields primarySite targetKeyword locale now
                           (JObj (siteSlots uuidv4 post this primarySite locale n)) (JArr [])
                           (JObj []) (JArr []))) (3 + n)
           else (Return (JObj (reportFields primarySite targetKeyword locale now
                                 (JObj (siteSlots uuidv4 post this primarySite locale n)) (JArr [])
                                 (JObj []) (JArr []))), 3 + n))
          = (Return (JObj (reportFields primarySite targetKeyword locale now
                             (JObj (siteSlots uuidv4 post this primarySite locale n))
                             (JArr (competitorEntries uuidv4 post this sites locale (3 + n)))
                             (JObj []) (JArr []))),
             3 * List.length sites + (3 + n))) as ->.
  { destruct sites as [| site rest]; [reflexivity |].
    cbn [List.length Nat.ltb Nat.leb]. now rewrite analyzeCompetitors_spec. }
  destruct includeKeywordAnalysis.
  - destruct (keywordPromises_all targetKeyword locale
                (3 * List.length sites + (3 + n))) as [Hk Hkn].
    destruct (keywordPromises uuidv4 post this targetKeyword locale
                (3 * List.length sites + (3 + n))) as [kpromises n3].
    cbn [fst snd] in Hk, Hkn. subst n3. rewrite Hk. cbn [cbind].
    rewrite set_keyword_analysis.
    change (JObj [("keyword", JStr targetKeyword); _; _; _; _])
      with (keywordSlots uuidv4 post this targetKeyword locale (3 * List.length sites + (3 + n))).
    rewrite set_insights.
    destruct (List.length sites =? 0)%nat.
    + now rewrite set_guidance.
    + now rewrite app_nil_r.
  - rewrite set_insights.
    destruct (List.length sites =? 0)%nat.
    + now rewrite set_guidance.
    + now rewrite app_nil_r.
Qed.

End EngineProperties.

(** C1: whatever the transport answers to each request, the analysis
    returns a report and does not throw.  Its [competitor_data] has one
    entry per competitor site, in the order of [competitorSites]; the
    entry of the j-th site holds the site and, in [site_metrics],
    [brand_authority] and [ranking_keywords], what the three calls of
    its batch settled to: the result of the call, or the marker
    [{ error: message }] of the call's failure.  The primary site's
    slots are filled in the same way. *)
Theorem getCompetitorAnalysis_isolates_failures
  (uuidv4 : nat -> string)
  (post : nat -> list (string * string) -> JsonRpcRequest -> AxiosOutcome)
  (this : MozApiClient) (now : string)
  (primarySite : string) (competitorSites : option (list string))
  (targetKeyword : string) (options : option Options) (n : nat) :
  let sites := match competitorSites with Some l => l | None => [] end in
  let locale := strOr (opt options locale) "en-US" in
  let slots site first :=
    [("site_metrics", settled (fst (getSiteMetrics uuidv4 post this site first)));
     ("brand_authority",
       settled (fst (getSiteBrandAuthority uuidv4 post this site (1 + first))));
     ("ranking_keywords",
       settled (fst (getSiteRankingKeywords uuidv4 post this site
                       (Some (localeLimit100 locale)) (2 + first))))] in
  exists report n',
    getCompetitorAnalysis uuidv4 post this now primarySite competitorSites
      targetKeyword options n = (Return report, n') /\
    Js.member report "primary_site_data" = JObj (slots primarySite n) /\
    exists entries,
      Js.member report "competitor_data" = JArr entries /\
      List.length entries = List.length sites /\
      map (fun entry => Js.member entry "site") entries = map JStr sites /\
      forall j site,
        nth_error sites j = Some site ->
        nth_error entries j
        = Some (JObj (("site", JStr site) :: slots site (3 * j + (3 + n)))).
Proof.
  intros sites locale slots. unfold getCompetitorAnalysis.
  fold sites. fold locale. rewrite assemble_shape.
  eexists. eexists. split; [reflexivity |]. split; [reflexivity |].
  exists (competitorEntries uuidv4 post this sites locale (3 + n)).
  split; [reflexivity |].
  split; [apply competitorEntries_length |].
  split; [apply competitorEntries_sites |].
  intros j site Hj. now rewrite (competitorEntries_nth _ _ _ _ _ _ _ _ Hj).
Qed.

(** The scenario of the analysis of two competitors where every call
    for the first one fails and every call for the second one succeeds. *)
Example first_competitor_fails :
  let marker := JObj [("error", JStr "Network Error: timeout of 1000ms exceeded - No response data")] in
  let result k := JObj [("request", JNum k)] in
  exists report n',
    getCompetitorAnalysis (fun _ => "id") (failingBetween 3 6) exampleClient
      "2024-01-01T00:00:00.000Z" "example.com" (Some ["c1.com"; "c2.com"]) "seo" None 0
    = (Return report, n') /\
    Js.member report "competitor_data"
    = JArr [JObj [("site", JStr "c1.com"); ("site_metrics", marker);
                  ("brand_authority", marker); ("ranking_keywords", marker)];
            JObj [("site", JStr "c2.com"); ("site_metrics", result 6%Z);
                  ("brand_authority", result 7%Z); ("ranking_keywords", result 8%Z)]].
Proof. cbv zeta. eexists. eexists. split; vm_compute; reflexivity. Qed.

(** C5, as the claim states it, on an analysis called with
    [include_keyword_analysis: false]: the report that is returned has
    the property [keyword_analysis], holding the empty object. *)
Lemma keyword_analysis_present_counterexample :
  exists report n',
    getCompetitorAnalysis (fun _ => "id") (failingBetween 0 0) exampleClient
      "2024-01-01T00:00:00.000Z" "example.com" (Some []) "seo"
      (Some withoutKeywordAnalysis) 0
    = (Return report, n') /\
    Js.hasOwn report "keyword_analysis" = true /\
    Js.member report "keyword_analysis" = JObj [].
Proof. eexists. eexists. split; [vm_compute; reflexivity |]. split; reflexivity. Qed.

(** C5, amended: the report always has the property
    [keyword_analysis].  When the analysis is called with
    [include_keyword_analysis: false] it holds the empty object;
    otherwise (the default) it holds the keyword and, in [metrics],
    [difficulty], [volume] and [search_intent], what the four guarded
    keyword calls settled to: the result of the call, or the marker
    [{ error: message }] of its failure. *)
Theorem keyword_analysis_slot
  (uuidv4 : nat -> string)
  (post : nat -> list (string * string) -> JsonRpcRequest -> AxiosOutcome)
  (this : MozApiClient) (now : string)
  (primarySite : string) (competitorSites : option (list string))
  (targetKeyword : string) (options : option Options) (n : nat) :
  let sites := match competitorSites with Some l => l | None => [] end in
  let o := Some (localeOnly (strOr (opt options locale) "en-US")) in
  let first := 3 * List.length sites + (3 + n) in
  exists report n',
    getCompetitorAnalysis uuidv4 post this now primarySite competitorSites
      targetKeyword options n = (Return report, n') /\
    Js.hasOwn report "keyword_analysis" = true /\
    Js.member report "keyword_analysis" =
      match opt options include_keyword_analysis with
      | Some false => JObj []
      | _ =>
          JObj [("keyword", JStr targetKeyword);
                ("metrics",
                  settled (fst (getKeywordMetrics uuidv4 post this targetKeyword o first)));
                ("difficulty",
                  settled (fst (getKeywordDifficulty uuidv4 post this targetKeyword o
                                  (1 + first))));
                ("volume",
                  settled (fst (getKeywordVolume uuidv4 post this targetKeyword o
                                  (2 + first))));
                ("search_intent",
                  settled (fst (getKeywordSearchIntent uuidv4 post this targetKeyword o
                                  (3 + first))))]
      end.
Proof.
  intros sites o first. unfold getCompetitorAnalysis. fold sites.
  rewrite assemble_shape.
  eexists. eexists. split; [reflexivity |]. split; [reflexivity |].
  destruct (opt options include_keyword_analysis) as [[|] |]; reflexivity.
Qed.

(** C8: when the analysis is called with no competitor site (the list
    is empty or omitted), the report that is returned has the property
    [competitor_identification_guidance], holding the fixed advisory:
    a message, four numbered suggestions and the note that the
    provider does not identify competitors, which are to be specified
    by the caller; and none of its insights is a line of the
    comparison rule. *)
Theorem no_competitors_guidance
  (uuidv4 : nat -> string)
  (post : nat -> list (string * string) -> JsonRpcRequest -> AxiosOutcome)
  (this : MozApiClient) (now : string)
  (primarySite : string) (competitorSites : option (list string))
  (targetKeyword : string) (options : option Options) (n : nat) :
  match competitorSites with Some l => l | None => [] end = [] ->
  exists report n',
    getCompetitorAnalysis uuidv4 post this now primarySite competitorSites
      targetKeyword options n = (Return report, n') /\
    Js.hasOwn report "competitor_identification_guidance" = true /\
    Js.member report "competitor_identification_guidance"
    = JObj [
        ("message",
          JStr "No competitors were specified. To find potential competitors, you can:");
        ("suggestions", JArr [
          JStr "1. Look at the ranking keywords data above and see which sites rank for similar keywords";
          JStr "2. Search for your target keyword in Google and see which sites appear in top results";
          JStr "3. Use industry knowledge to identify known competitors";
          JStr "4. Once you identify potential competitors, run this analysis again with competitor_sites parameter"]);
        ("note",
          JStr "Moz API does not automatically identify competitors - you need to specify them manually")] /\
    exists insights,
      Js.member report "insights" = JArr (map JStr insights) /\
      linesOf ComparisonRule insights = [] /\
      forall line, In line insights -> ruleOf line <> Some ComparisonRule.
Proof.
  intros Hnone. unfold getCompetitorAnalysis. rewrite Hnone, assemble_shape.
  eexists. eexists. split; [reflexivity |].
  split; [reflexivity |]. split; [reflexivity |].
  eexists. split; [reflexivity |].
  assert (blockOf ComparisonRule
            (baseReport uuidv4 post this now primarySite [] targetKeyword
               (strOr (opt options locale) "en-US")
               match opt options include_keyword_analysis with
               | Some false => false
               | _ => true
               end n) = []) as Hsilent.
  { cbn [blockOf].
    now rewrite (comparisonInsight_spec
                   (baseReport uuidv4 post this now primarySite [] targetKeyword
                      (strOr (opt options locale) "en-US")
                      match opt options include_keyword_analysis with
                      | Some false => false
                      | _ => true
                      end n)
                   [] eq_refl eq_refl (Forall_nil _)). }
  split.
  - now apply linesOf_silent.
  - intros line. now apply silent_rule.
Qed.

(** The analysis called without a competitor list. *)
Lemma no_competitors_guidance_witness :
  exists report n',
    getCompetitorAnalysis (fun _ => "id") (failingBetween 0 0) exampleClient
      "2024-01-01T00:00:00.000Z" "example.com" None "seo" None 0
    = (Return report, n') /\
    Js.hasOwn report "competitor_identification_guidance" = true /\
    Js.member report "competitor_identification_guidance"
    = JObj [
        ("message",
          JStr "No competitors were specified. To find potential competitors, you can:");
        ("suggestions", JArr [
          JStr "1. Look at the ranking keywords data above and see which sites rank for similar keywords";
          JStr "2. Search for your target keyword in Google and see which sites appear in top results";
          JStr "3. Use industry knowledge to identify known competitors";
          JStr "4. Once you identify potential competitors, run this analysis again with competitor_sites parameter"]);
        ("note",
          JStr "Moz API does not automatically identify competitors - you need to specify them manually")] /\
    exists insights,
      Js.member report "insights" = JArr (map JStr insights) /\
      linesOf ComparisonRule insights = [] /\
      forall line, In line insights -> ruleOf line <> Some ComparisonRule.
Proof.
  apply no_competitors_guidance. reflexivity.
Defined.


(** * Further properties *)

(** ** The client *)

Lemma includes_colon_app (a k : string) : Host.includes (a ++ ":" ++ k) ":" = true.
Proof.
  rewrite includes_colon_count.
  induction a as [| c a IH]; [reflexivity |].
  cbn [append countColons]. destruct (Ascii.eqb c ":"); [reflexivity | exact IH].
Qed.

Lemma constructor_one_colon
  (decodeBase64 : string -> Completion string) (token : MozApiToken) (a k : string) :
  decodeBase64 (token_apiToken token) = Return (a ++ ":" ++ k) ->
  Host.includes a ":" = false -> Host.includes k ":" = false ->
  fst (constructor decodeBase64 token)
  = mkClient (token_apiToken token) (Some a) (Some k) "https://api.moz.com/jsonrpc".
Proof.
  intros Hd Ha Hk. unfold constructor.
  rewrite Hd, includes_colon_app, (split_at_first_colon a k Ha),
    (split_without_colon k Hk).
  reflexivity.
Qed.

Lemma getAuthHeaders_raw (c : MozApiClient) :
  getAuthHeaders c = [("x-moz-token", apiToken c)].
Proof. unfold getAuthHeaders. now destruct (falsy (accessId c) || falsy (secretKey c)). Qed.

Lemma constructor_apiToken (decodeBase64 : string -> Completion string) (token : MozApiToken) :
  apiToken (fst (constructor decodeBase64 token)) = token_apiToken token.
Proof.
  unfold constructor. destruct (decodeBase64 _) as [d | e]; [| reflexivity].
  now destruct (Host.includes d ":").
Qed.

(** X1: whatever the credential decodes to, the headers that
    [getAuthHeaders] gives to a request of a client built by the
    constructor are the one pair [x-moz-token] with the credential
    string as it was given, whichever mode the constructor resolved:
    [sendRequest] behaves as if this pair were written in place of
    the call.  (The [Content-Type] of the axios instance is set once
    at construction, apart from these headers.) *)
Theorem requests_carry_raw_token
  (decodeBase64 : string -> Completion string) (token : MozApiToken)
  (post : nat -> list (string * string) -> JsonRpcRequest -> AxiosOutcome)
  (n : nat) (request : JsonRpcRequest) :
  let client := fst (constructor decodeBase64 token) in
  getAuthHeaders client = [("x-moz-token", token_apiToken token)] /\
  sendRequest post client n request
  = sendRequest (fun k _ r => post k [("x-moz-token", token_apiToken token)] r)
      client n request.
Proof.
  intros client.
  assert (getAuthHeaders client = [("x-moz-token", token_apiToken token)]) as H.
  { unfold client. now rewrite getAuthHeaders_raw, constructor_apiToken. }
  split; [exact H |]. unfold sendRequest. now rewrite H.
Qed.

(** X2: [createAuthSignature] on a client built by the constructor.  In
    raw-token mode it throws.  When the credential decodes to
    [a:k] with a single colon it returns the keyed digest of
    [a], a line feed and the timestamp, under the key [k], provided
    both [a] and [k] are non-empty; with an empty half it throws,
    although the constructor resolved the accessId/secretKey mode. *)
Theorem createAuthSignature_after_constructor
  (decodeBase64 : string -> Completion string)
  (hmacSha1Base64 : string -> string -> string)
  (token : MozApiToken) (timestamp : Z) :
  let client := fst (constructor decodeBase64 token) in
  let required :=
    Error "Access ID and Secret Key required for signature authentication" in
  (authMode client = RawToken ->
   createAuthSignature hmacSha1Base64 client timestamp = Throw required) /\
  (forall a k,
      decodeBase64 (token_apiToken token) = Return (a ++ ":" ++ k) ->
      Host.includes a ":" = false -> Host.includes k ":" = false ->
      authMode client = AccessIdSecretKey /\
      createAuthSignature hmacSha1Base64 client timestamp =
        if (a =? "") || (k =? "") then Throw required
        else Return (hmacSha1Base64 k
                       (a ++ String (ascii_of_nat 10) (Js.Z_toString timestamp)))).
Proof.
  intros client required. split.
  - unfold authMode, createAuthSignature.
    destruct (accessId client) as [a |]; [| reflexivity].
    destruct (secretKey client) as [k |]; [discriminate |].
    intros _. cbn [falsy]. now rewrite orb_true_r.
  - intros a k Hd Ha Hk. unfold client.
    rewrite (constructor_one_colon _ _ a k Hd Ha Hk).
    split; [reflexivity |].
    unfold createAuthSignature. cbn [accessId secretKey falsy strOr].
    destruct (a =? "") eqn:Hae; [reflexivity |].
    destruct (k =? "") eqn:Hke; reflexivity.
Qed.

(** A credential without a secret: [Og==] decodes to a lone colon. *)
Lemma createAuthSignature_after_constructor_witness :
  let client := fst (constructor nodeDecode (mkToken "Og==")) in
  authMode client = AccessIdSecretKey /\
  createAuthSignature (fun key text => key ++ text) client 1000000000
  = Throw (Error "Access ID and Secret Key required for signature authentication").
Proof.
  apply (proj2 (createAuthSignature_after_constructor
                  nodeDecode (fun key text => key ++ text) (mkToken "Og==") 1000000000)
           "" ""); reflexivity.
Defined.

(** X3: [sendRequest] returns a value exactly when the transport
    answered with a body that is neither [null] nor [undefined] and
    whose [error] is falsy, and the value is then the body's [result];
    in every other case it throws.  A failure of the transport is
    rethrown with the text of the response body, or with
    "No response data" when there was no body or a falsy one. *)
Theorem sendRequest_returns_iff
  (post : nat -> list (string * string) -> JsonRpcRequest -> AxiosOutcome)
  (this : MozApiClient) (n : nat) (request : JsonRpcRequest) :
  (forall v,
      sendRequest post this n request = Return v <->
      exists data,
        post n (getAuthHeaders this) request = Response data /\
        Js.nullish data = false /\
        Js.truthy (Js.member data "error") = false /\
        v = Js.member data "result") /\
  (forall msg body,
      post n (getAuthHeaders this) request = AxiosError msg body ->
      sendRequest post this n request =
        Throw (Error ("Network Error: " ++ msg ++ " - "
                      ++ match body with
                         | Some d => if Js.truthy d then Host.JSON_stringify d
                                     else "No response data"
                         | None => "No response data"
                         end))).
Proof.
  split.
  - intros v. unfold sendRequest.
    destruct (post n (getAuthHeaders this) request) as [data | msg body | e].
    + unfold Js.get. destruct (Js.nullish data) eqn:Hnull; cbn [cbind].
      * split; [discriminate |].
        intros (d & Hd & Hn & _). inversion Hd. subst d. congruence.
      * destruct (Js.truthy (Js.member data "error")) eqn:Herr.
        -- rewrite (truthy_not_nullish _ Herr). cbn [cbind].
           split; [discriminate |].
           intros (d & Hd & _ & He & _). inversion Hd. subst d. congruence.
        -- split.
           ++ intros Hv. inversion Hv. now exists data.
           ++ intros (d & Hd & _ & _ & ->). inversion Hd. now subst d.
    + split; [discriminate |]. intros (d & Hd & _). discriminate.
    + split; [discriminate |]. intros (d & Hd & _). discriminate.
  - intros msg body Hpost. unfold sendRequest. now rewrite Hpost.
Qed.

(** A body with [error: null] counts as a success; a body [null]
    does not. *)
Lemma sendRequest_returns_iff_witness :
  let body := JObj [("error", JNull); ("result", JNum 3)] in
  sendRequest (answering body) exampleClient 0
    (createRequest (fun _ => "id") 0 "quota.lookup" getQuota_params)
  = Return (JNum 3).
Proof.
  intros body.
  apply (proj1 (sendRequest_returns_iff (answering body) exampleClient 0 _)).
  exists body. repeat split.
Defined.


(** ** Guarded batches *)

Lemma Promise_all_returns (promises : list (Completion JsVal)) (values : list JsVal) :
  Promise_all promises = Return values <-> promises = map Return values.
Proof.
  revert values. induction promises as [| p rest IH]; intros values.
  - cbn. split.
    + intros H. inversion H. reflexivity.
    + destruct values; [reflexivity | discriminate].
  - cbn [Promise_all]. destruct p as [v | e]; cbn [cbind].
    + destruct (Promise_all rest) as [vs | e] eqn:Hrest; cbn [cbind].
      * split.
        -- intros H. inversion H. subst values. cbn [map]. f_equal.
           now apply IH.
        -- destruct values as [| v' vs']; [discriminate |].
           cbn [map]. intros H. inversion H. subst v'.
           assert (Return vs = Return vs') as Heq by (now apply IH).
           now inversion Heq.
      * split; [discriminate |].
        destruct values as [| v' vs']; [discriminate |].
        cbn [map]. intros H. inversion H.
        assert (@Throw (list JsVal) e = Return vs') as Heq by (now apply IH).
        discriminate.
    + split; [discriminate |].
      destruct values; discriminate.
Qed.

(** X5: a batch resolves exactly when every promise of it resolved, to
    the values in the order of the array, and a batch of promises
    guarded by [catch_error] always resolves, whatever their number: to
    the result of each call that succeeded and to the marker
    [{ error: message }] of each call that failed, in order. *)
Theorem guarded_batch_always_resolves (calls : list (Completion JsVal)) :
  Promise_all (map catch_error calls) = Return (map settled calls) /\
  List.length (map settled calls) = List.length calls /\
  (forall values,
      Promise_all calls = Return values <-> calls = map Return values) /\
  (forall e, Promise_all calls = Throw e -> In (Throw e) calls).
Proof.
  split; [| split; [| split]].
  - apply Promise_all_returns. rewrite map_map.
    apply map_ext. intros p. apply catch_error_settled.
  - apply length_map.
  - intros values. apply Promise_all_returns.
  - induction calls as [| p rest IH]; intros e; [discriminate |].
    cbn [Promise_all]. destruct p as [v | e']; cbn [cbind].
    + destruct (Promise_all rest) as [vs | e''] eqn:Hrest; cbn [cbind];
        [discriminate |].
      intros H. inversion H. subst e''. right. now apply IH.
    + intros H. inversion H. now left.
Qed.

(** ** Insight generation on any value *)

Section InsightStructure.

Import Insights.

Lemma atMost_lift {A} (r t : nat) (c : Completion A) : atMost r t (lift c).
Proof. unfold atMost. destruct c; cbn; lia. Qed.

Lemma atMost_gret {A} (r t : nat) (a : A) : atMost r t (gret a).
Proof. unfold atMost. cbn. lia. Qed.

Lemma atMost_push (r t : nat) (line : string) : atMost (S r) t (push line).
Proof. unfold atMost. cbn. lia. Qed.

Lemma atMost_bind_lift {A B} (r t : nat) (c : Completion A) (k : A -> Gen B) :
  (forall a, atMost r t (k a)) -> atMost r t (gbind (lift c) k).
Proof.
  intros Hk. destruct c as [a | e].
  - rewrite gbind_lift_return. apply Hk.
  - unfold atMost. cbn. lia.
Qed.

Lemma atMost_bind_push {B} (r t : nat) (line : string) (k : unit -> Gen B) :
  atMost r t (k tt) -> atMost (S r) (S t) (gbind (push line) k).
Proof.
  unfold atMost. rewrite gbind_push. cbn [fst snd List.length].
  destruct (snd (k tt)); lia.
Qed.

Ltac at_most :=
  repeat (cbv beta;
          match goal with
          | |- atMost _ _ (gbind (lift _) _) => apply atMost_bind_lift; intros ?
          | |- atMost _ _ (gbind (push _) _) => apply atMost_bind_push
          | |- atMost _ _ (lift _) => apply atMost_lift
          | |- atMost _ _ (gret _) => apply atMost_gret
          | |- atMost _ _ (push _) => apply atMost_push
          | |- atMost _ _ (if ?b then _ else _) => destruct b
          | |- atMost _ _ (let (_, _) := ?p in _) => destruct p
          end).

Lemma brandAuthorityInsight_bound analysis :
  (List.length (fst (brandAuthorityInsight analysis)) <= 1)%nat.
Proof.
  assert (atMost 1 1 (brandAuthorityInsight analysis)) as H
      by (unfold brandAuthorityInsight; at_most).
  unfold atMost in H. destruct (snd (brandAuthorityInsight analysis)); exact H.
Qed.

Lemma difficultyInsight_bound analysis :
  (List.length (fst (difficultyInsight analysis)) <= 1)%nat.
Proof.
  assert (atMost 1 1 (difficultyInsight analysis)) as H
      by (unfold difficultyInsight; at_most).
  unfold atMost in H. destruct (snd (difficultyInsight analysis)); exact H.
Qed.

Lemma volumeInsight_bound analysis :
  (List.length (fst (volumeInsight analysis)) <= 1)%nat.
Proof.
  assert (atMost 1 1 (volumeInsight analysis)) as H
      by (unfold volumeInsight; at_most).
  unfold atMost in H. destruct (snd (volumeInsight analysis)); exact H.
Qed.

Lemma comparisonInsight_bound analysis :
  (List.length (fst (comparisonInsight analysis)) <= 1)%nat.
Proof.
  assert (atMost 1 1 (comparisonInsight analysis)) as H
      by (unfold comparisonInsight; at_most).
  unfold atMost in H. destruct (snd (comparisonInsight analysis)); exact H.
Qed.

(** Two lines when the ranking rule completes, one at most when it is
    cut short. *)
Lemma rankingInsight_bound analysis :
  (List.length (fst (rankingInsight analysis))
   <= match snd (rankingInsight analysis) with
      | Return _ => 2
      | Throw _ => 1
      end)%nat.
Proof.
  assert (atMost 2 1 (rankingInsight analysis)) as H
      by (unfold rankingInsight; at_most).
  exact H.
Qed.

(** The result, rule by rule: a rule that was not reached contributes
    nothing. *)
Lemma generate_parts (analysis : JsVal) :
  exists l1 l2 l3 l4 l5 f,
    generateCompetitorInsights analysis = (l1 ++ l2 ++ l3 ++ l4 ++ l5 ++ f)%list /\
    (l1 = [] \/ l1 = blockOf BrandAuthorityRule analysis) /\
    (l2 = [] \/ l2 = blockOf DifficultyRule analysis) /\
    (l3 = [] \/ l3 = blockOf VolumeRule analysis) /\
    (l4 = [] \/ l4 = blockOf ComparisonRule analysis) /\
    (l5 = [] \/ l5 = blockOf RankingRule analysis) /\
    (f = [] \/ f = [fallbackLine]) /\
    (List.length l5 + List.length f <= 2)%nat.
Proof.
  pose proof (rankingInsight_bound analysis) as Hrank.
  unfold generateCompetitorInsights, body, blockOf.
  destruct (brandAuthorityInsight analysis) as [l1 [[] | e1]].
  2: { exists l1, [], [], [], [], [fallbackLine]. cbn. repeat split; auto. }
  destruct (difficultyInsight analysis) as [l2 [[] | e2]].
  2: { exists l1, l2, [], [], [], [fallbackLine]. cbn.
       rewrite <- app_assoc. repeat split; auto. }
  destruct (volumeInsight analysis) as [l3 [[] | e3]].
  2: { exists l1, l2, l3, [], [], [fallbackLine]. cbn.
       rewrite <- !app_assoc. repeat split; auto. }
  destruct (comparisonInsight analysis) as [l4 [[] | e4]].
  2: { exists l1, l2, l3, l4, [], [fallbackLine]. cbn.
       rewrite <- !app_assoc. repeat split; auto. }
  destruct (rankingInsight analysis) as [l5 [[] | e5]]; cbn [fst snd] in Hrank.
  - exists l1, l2, l3, l4, l5, []. cbn. rewrite !app_nil_r.
    repeat split; auto. lia.
  - exists l1, l2, l3, l4, l5, [fallbackLine]. cbn.
    rewrite <- !app_assoc. repeat split; auto. cbn. lia.
Qed.

Lemma linesOf_part (r r' : Rule) (analysis : JsVal) (l : list string) :
  l = [] \/ l = blockOf r' analysis ->
  linesOf r l = if Rule_beq r r' then l else [].
Proof.
  intros [-> | ->].
  - now destruct (Rule_beq r r').
  - apply linesOf_block.
Qed.

Lemma blockOf_bound (r : Rule) (analysis : JsVal) :
  (List.length (blockOf r analysis)
   <= match r with RankingRule => 2 | _ => 1 end)%nat.
Proof.
  destruct r; cbn [blockOf].
  - apply brandAuthorityInsight_bound.
  - apply difficultyInsight_bound.
  - apply volumeInsight_bound.
  - apply comparisonInsight_bound.
  - pose proof (rankingInsight_bound analysis).
    destruct (snd (rankingInsight analysis)); lia.
  - cbn. lia.
Qed.

(** X6: on any value at all, the result of
    [generateCompetitorInsights] lists its lines rule by rule, in the
    order brand authority, difficulty, volume, comparison, ranking,
    fallback: at most one line of each rule, two of the ranking rule,
    and never more than six lines; the fallback line, when present, is
    the last one. *)
Theorem insights_in_rule_order (analysis : JsVal) :
  let out := Insights.generateCompetitorInsights analysis in
  out = (linesOf BrandAuthorityRule out ++ linesOf DifficultyRule out
         ++ linesOf VolumeRule out ++ linesOf ComparisonRule out
         ++ linesOf RankingRule out ++ linesOf FallbackRule out)%list /\
  (forall r, List.length (linesOf r out)
             <= match r with RankingRule => 2 | _ => 1 end)%nat /\
  (List.length out <= 6)%nat /\
  (linesOf FallbackRule out = [] \/ linesOf FallbackRule out = [fallbackLine]).
Proof.
  intros out. unfold out.
  destruct (generate_parts analysis)
    as (l1 & l2 & l3 & l4 & l5 & f & -> & H1 & H2 & H3 & H4 & H5 & Hf & Hlen).
  assert (f = [] \/ f = blockOf FallbackRule analysis) as Hf' by exact Hf.
  assert (forall r,
             linesOf r (l1 ++ l2 ++ l3 ++ l4 ++ l5 ++ f)
             = ((if Rule_beq r BrandAuthorityRule then l1 else [])
                ++ (if Rule_beq r DifficultyRule then l2 else [])
                ++ (if Rule_beq r VolumeRule then l3 else [])
                ++ (if Rule_beq r ComparisonRule then l4 else [])
                ++ (if Rule_beq r RankingRule then l5 else [])
                ++ (if Rule_beq r FallbackRule then f else []))%list) as Hlines.
  { intros r. rewrite !linesOf_app.
    now rewrite (linesOf_part r _ analysis l1 H1), (linesOf_part r _ analysis l2 H2),
      (linesOf_part r _ analysis l3 H3), (linesOf_part r _ analysis l4 H4),
      (linesOf_part r _ analysis l5 H5), (linesOf_part r _ analysis f Hf'). }
  assert (forall (r : Rule) l r', l = [] \/ l = blockOf r' analysis ->
                         (List.length l <= match r' with RankingRule => 2 | _ => 1 end)%nat)
    as Hbound.
  { intros r l r' [-> | ->]; [destruct r'; cbn; lia | apply blockOf_bound]. }
  pose proof (Hbound BrandAuthorityRule l1 _ H1) as B1.
  pose proof (Hbound BrandAuthorityRule l2 _ H2) as B2.
  pose proof (Hbound BrandAuthorityRule l3 _ H3) as B3.
  pose proof (Hbound BrandAuthorityRule l4 _ H4) as B4.
  pose proof (Hbound BrandAuthorityRule l5 _ H5) as B5.
  pose proof (Hbound BrandAuthorityRule f _ Hf') as B6.
  cbv beta iota in B1, B2, B3, B4, B5, B6.
  split; [| split; [| split]].
  - rewrite !Hlines. cbn [Rule_beq app]. now rewrite !app_nil_r.
  - intros r. rewrite Hlines. destruct r; cbn [Rule_beq app];
      rewrite ?app_nil_r; assumption.
  - rewrite !length_app. lia.
  - rewrite Hlines. cbn [Rule_beq app]. exact Hf.
Qed.

End InsightStructure.

(** ** Insight generation on a report *)

Section InsightsOnReports.

Import Insights.

(** On an object the first three rules always complete: their lines
    open the result, and the rest belongs to the later rules. *)
Lemma generate_head (analysis : JsVal) :
  Js.nullish analysis = false ->
  exists rest,
    generateCompetitorInsights analysis
    = (blockOf BrandAuthorityRule analysis ++ blockOf DifficultyRule analysis
       ++ blockOf VolumeRule analysis ++ rest)%list /\
    Forall (fun l => ruleOf l = Some ComparisonRule \/ ruleOf l = Some RankingRule
                     \/ ruleOf l = Some FallbackRule) rest.
Proof.
  intros H.
  pose proof (comparisonInsight_pushes analysis) as Hc.
  pose proof (rankingInsight_pushes analysis) as Hr.
  unfold pushes in Hc, Hr.
  unfold generateCompetitorInsights, body, blockOf.
  rewrite (brandAuthorityInsight_spec analysis H).
  rewrite (difficultyInsight_spec analysis H).
  rewrite (volumeInsight_spec analysis H).
  cbn [gbind fst].
  destruct (comparisonInsight analysis) as [l4 [[] | e4]]; cbn [fst] in Hc.
  - destruct (rankingInsight analysis) as [l5 [[] | e5]]; cbn [fst] in Hr.
    + exists (l4 ++ l5)%list. split; [cbn [gbind fst snd]; now rewrite <- ?app_assoc |].
      apply Forall_app. split.
      * eapply Forall_impl; [| exact Hc]. cbv beta. tauto.
      * eapply Forall_impl; [| exact Hr]. cbv beta. tauto.
    + exists (l4 ++ l5 ++ [fallbackLine])%list. split; [cbn [gbind fst snd]; now rewrite <- ?app_assoc |].
      apply Forall_app. split.
      * eapply Forall_impl; [| exact Hc]. cbv beta. tauto.
      * apply Forall_app. split.
        -- eapply Forall_impl; [| exact Hr]. cbv beta. tauto.
        -- constructor; [right; right; reflexivity | constructor].
  - exists (l4 ++ [fallbackLine])%list. split; [cbn [gbind fst snd]; now rewrite <- ?app_assoc |].
    apply Forall_app. split.
    + eapply Forall_impl; [| exact Hc]. cbv beta. tauto.
    + constructor; [right; right; reflexivity | constructor].
Qed.

Lemma linesOf_none (r : Rule) (lines : list string) :
  Forall (fun l => ruleOf l <> Some r) lines -> linesOf r lines = [].
Proof.
  induction 1 as [| l lines Hl _ IH]; [reflexivity |].
  cbn [linesOf List.filter]. fold (linesOf r lines). rewrite IH.
  destruct (ruleOf l) as [r' |]; [| reflexivity].
  destruct (Rule_beq r r') eqn:Hb; [| reflexivity].
  apply internal_Rule_dec_bl in Hb. subst r'. contradiction.
Qed.

(** The lines of the first three rules in the result are exactly what
    these rules push, whatever the rest of the report holds. *)
Lemma linesOf_early (r : Rule) (analysis : JsVal) :
  Js.nullish analysis = false ->
  r = BrandAuthorityRule \/ r = DifficultyRule \/ r = VolumeRule ->
  linesOf r (generateCompetitorInsights analysis) = blockOf r analysis.
Proof.
  intros H Hr. destruct (generate_head analysis H) as (rest & -> & Hrest).
  rewrite !linesOf_app, !linesOf_block.
  rewrite (linesOf_none r rest).
  2: { eapply Forall_impl; [| exact Hrest]. cbv beta.
       intros l Hl Heq. rewrite Heq in Hl.
       destruct Hr as [-> | [-> | ->]]; destruct Hl as [Hl | [Hl | Hl]];
         discriminate. }
  destruct Hr as [-> | [-> | ->]]; cbn [Rule_beq app]; now rewrite ?app_nil_r.
Qed.

Lemma ge_numbers (a b : Z) : Js.ge (JNum a) (JNum b) = (b <=? a)%Z.
Proof.
  unfold Js.ge, Js.lessThan. cbn.
  rewrite Z.leb_antisym. now destruct (a <? b)%Z.
Qed.

Lemma band_number (score : Z) (top high middle low : string) :
  band (JNum score) top high middle low = bandOf score top high middle low.
Proof. unfold band, bandOf. now rewrite !ge_numbers. Qed.

(** X7: the bands on integers.  On a report whose primary brand
    authority is a safe integer other than 0, the result has exactly
    one brand-authority line, with the score and its band: Excellent
    from 70, Good from 50, Fair from 30, Needs improvement below;
    likewise for a keyword difficulty that is a safe integer other
    than 0, with Very Hard, Hard, Medium and Easy, when the target
    keyword is a printable value and the primary brand authority,
    which is printed before, is a primitive value.  Among the safe
    integers there is no range check: a negative score is banded
    lowest and a score above 100 highest.  The later rules, cut short
    or not, do not change these lines. *)
Theorem integer_scores_are_banded (fields : list (string * JsVal)) (score : Z) :
  let analysis := JObj fields in
  let out := generateCompetitorInsights analysis in
  score <> 0%Z ->
  safeInteger score = true ->
  (primaryBA analysis = JNum score ->
   linesOf BrandAuthorityRule out
   = ["Primary site brand authority: " ++ Js.Z_toString score ++ " ("
      ++ bandOf score "Excellent" "Good" "Fair" "Needs improvement" ++ ")"]) /\
  (keywordDifficulty analysis = JNum score ->
   primitive (primaryBA analysis) = true ->
   printable (Js.member analysis "target_keyword") = true ->
   linesOf DifficultyRule out
   = ["Target keyword " ++ dq ++ Js.toString (Js.member analysis "target_keyword")
      ++ dq ++ " difficulty: " ++ Js.Z_toString score ++ "% ("
      ++ bandOf score "Very Hard" "Hard" "Medium" "Easy" ++ ")"]).
Proof.
  intros analysis out Hscore _.
  assert (Js.truthy (JNum score) = true) as Ht.
  { cbn. apply negb_true_iff. now apply Z.eqb_neq. }
  split; [intros Hread | intros Hread _ _].
  - unfold out. rewrite (linesOf_early _ analysis eq_refl) by auto.
    cbn [blockOf]. rewrite (brandAuthorityInsight_spec analysis eq_refl), Hread, Ht.
    cbn [fst]. unfold brandAuthorityLine. now rewrite band_number.
  - unfold out. rewrite (linesOf_early _ analysis eq_refl) by auto.
    cbn [blockOf]. rewrite (difficultyInsight_spec analysis eq_refl), Hread, Ht.
    cbn [fst]. unfold difficultyLine. now rewrite band_number.
Qed.

(** A brand authority of 150 with a difficulty of -5. *)
Lemma integer_scores_are_banded_witness :
  let unchecked :=
    JObj [("difficulty", JObj [("result", JObj [("difficulty", JNum (-5))])])] in
  let out :=
    generateCompetitorInsights
      (exampleReport "seo" (JNum 150) (JObj []) [] unchecked) in
  linesOf BrandAuthorityRule out = ["Primary site brand authority: 150 (Excellent)"] /\
  linesOf DifficultyRule out
  = ["Target keyword " ++ dq ++ "seo" ++ dq ++ " difficulty: -5% (Easy)"].
Proof.
  intros unchecked out. split.
  - refine (proj1 (integer_scores_are_banded
                     (exampleFields "seo" (JNum 150) (JObj []) [] unchecked) 150 _
                     eq_refl)
              eq_refl).
    discriminate.
  - refine (proj2 (integer_scores_are_banded
                     (exampleFields "seo" (JNum 150) (JObj []) [] unchecked) (-5) _
                     eq_refl)
              eq_refl eq_refl eq_refl).
    discriminate.
Defined.

Lemma compareCompetitor_unknown (primary comp : JsVal) (counts counts' : nat * nat) :
  Js.truthy primary = false ->
  compareCompetitor primary counts comp = Return counts' -> counts' = counts.
Proof.
  intros Hp. unfold compareCompetitor. destruct counts as [s w].
  destruct (Js.get comp "brand_authority") as [b | e]; [| discriminate].
  cbn [cbind]. rewrite Hp. cbn [andb]. intros Hrun. now inversion Hrun.
Qed.

Lemma forEachItem_unknown (primary : JsVal) (items : list JsVal) :
  Js.truthy primary = false ->
  forall counts counts',
    forEachItem (compareCompetitor primary) items counts = Return counts' ->
    counts' = counts.
Proof.
  intros Hp. induction items as [| comp items IH]; intros counts counts' Hrun.
  - now inversion Hrun.
  - cbn [forEachItem] in Hrun.
    destruct (compareCompetitor primary counts comp) as [c |] eqn:Hstep;
      [| discriminate].
    cbn [cbind] in Hrun.
    apply (compareCompetitor_unknown _ _ _ _ Hp) in Hstep. subst c.
    now apply IH.
Qed.

Lemma comparisonInsight_unknown (analysis : JsVal) :
  Js.nullish analysis = false ->
  Js.truthy (primaryBA analysis) = false ->
  fst (comparisonInsight analysis) = [].
Proof.
  intros H Hp. unfold comparisonInsight.
  rewrite (get_member analysis "competitor_data" H), gbind_lift_return.
  destruct (Js.get (Js.member analysis "competitor_data") "length") as [len | e];
    [rewrite gbind_lift_return | reflexivity].
  destruct (Js.gt len (JNum 0)); [| reflexivity].
  rewrite (get_member analysis "primary_site_data" H), gbind_lift_return.
  rewrite <- (chain_step analysis "primary_site_data"
                ["brand_authority"; "result"; "brand_authority"] H).
  fold (primaryBA analysis).
  destruct (forEach (Js.member analysis "competitor_data")
              (compareCompetitor (primaryBA analysis)) (0, 0)%nat)
    as [[s w] | e] eqn:Hrun; [rewrite gbind_lift_return | reflexivity].
  unfold forEach in Hrun.
  destruct (Js.member analysis "competitor_data"); try discriminate.
  apply (forEachItem_unknown _ _ Hp) in Hrun. now inversion Hrun.
Qed.

(** X8: when the primary site's brand authority is unknown (its call
    failed, or the value is missing, or it is 0), the result has no
    brand-authority line and no comparison line, whatever the
    competitors' entries hold. *)
Theorem unknown_primary_authority_silences_comparison
  (fields : list (string * JsVal)) :
  let analysis := JObj fields in
  let out := generateCompetitorInsights analysis in
  Js.truthy (primaryBA analysis) = false ->
  linesOf BrandAuthorityRule out = [] /\ linesOf ComparisonRule out = [].
Proof.
  intros analysis out Hp. split.
  - unfold out. rewrite (linesOf_early _ analysis eq_refl) by auto.
    cbn [blockOf]. now rewrite (brandAuthorityInsight_spec analysis eq_refl), Hp.
  - apply linesOf_silent. cbn [blockOf].
    now apply comparisonInsight_unknown.
Qed.

(** The primary call failed; the competitors are at 60 and 20. *)
Lemma unknown_primary_authority_silences_comparison_witness :
  let failed := JObj [("error", JStr "Network Error: timeout - No response data")] in
  let fields :=
    reportFields "example.com" "seo" "en-US" "2024-01-01T00:00:00.000Z"
      (JObj [("site_metrics", failed); ("brand_authority", failed);
             ("ranking_keywords", failed)])
      (JArr [exampleCompetitor "c1.com" (JNum 60); exampleCompetitor "c2.com" (JNum 20)])
      (JObj []) (JArr []) in
  linesOf BrandAuthorityRule (generateCompetitorInsights (JObj fields)) = [] /\
  linesOf ComparisonRule (generateCompetitorInsights (JObj fields)) = [].
Proof.
  intros failed fields.
  apply (unknown_primary_authority_silences_comparison fields). reflexivity.
Defined.

Lemma readableList_returns (analysis : JsVal) (target : string) :
  Js.nullish analysis = false ->
  Js.member analysis "target_keyword" = JStr target ->
  readableList (rankingList analysis) = true ->
  snd (rankingInsight analysis) = Return tt.
Proof.
  intros H Ht Hlist. unfold readableList in Hlist.
  apply orb_true_iff in Hlist as [Hfalsy | Harr].
  - apply negb_true_iff in Hfalsy.
    now rewrite (rankingInsight_silent analysis H (or_introl Hfalsy)).
  - destruct (rankingList analysis) as [| | | | | items |] eqn:Hrl; try discriminate.
    destruct items as [| kw items].
    + now rewrite (rankingInsight_silent analysis H (or_intror Hrl)).
    + rewrite (rankingInsight_spec analysis target (kw :: items) H Ht Hrl);
        [reflexivity | discriminate |].
      apply Forall_forall. intros x Hx.
      rewrite forallb_forall in Harr. now apply Harr.
Qed.

(** On a report whose competitor entries are not null and whose ranking
    list is readable, no rule is cut short. *)
Lemma no_fallback_on_readable_report
  (analysis : JsVal) (comps : list JsVal) (target : string) :
  Js.nullish analysis = false ->
  Js.member analysis "target_keyword" = JStr target ->
  Js.member analysis "competitor_data" = JArr comps ->
  Forall (fun c => Js.nullish c = false) comps ->
  readableList (rankingList analysis) = true ->
  linesOf FallbackRule (generateCompetitorInsights analysis) = [].
Proof.
  intros H Ht Hcd Hcomps Hlist.
  rewrite (generate_decompose analysis comps H Hcd Hcomps).
  rewrite !linesOf_app, !linesOf_block. cbn [Rule_beq app].
  pose proof (readableList_returns analysis target H Ht Hlist) as Hret.
  destruct (rankingInsight analysis) as [lines c] eqn:Hrun. cbn [snd] in Hret.
  subst c. now rewrite (linesOf_rankingTail_returned _ _ _ Hrun).
Qed.

End InsightsOnReports.

(** ** The competitor analysis, end to end *)

Section InsightFrame.

Import Insights.

(** The insights depend on four properties of the report only. *)
Lemma generate_frame (a1 a2 : JsVal) :
  Js.nullish a1 = false -> Js.nullish a2 = false ->
  Js.member a1 "primary_site_data" = Js.member a2 "primary_site_data" ->
  Js.member a1 "keyword_analysis" = Js.member a2 "keyword_analysis" ->
  Js.member a1 "competitor_data" = Js.member a2 "competitor_data" ->
  Js.member a1 "target_keyword" = Js.member a2 "target_keyword" ->
  generateCompetitorInsights a1 = generateCompetitorInsights a2.
Proof.
  intros H1 H2 Hpsd Hka Hcd Htk.
  unfold generateCompetitorInsights, body, brandAuthorityInsight, difficultyInsight,
    volumeInsight, comparisonInsight, rankingInsight, matchesTarget.
  rewrite !(get_member a1 _ H1), !(get_member a2 _ H2).
  now rewrite Hpsd, Hka, Hcd, Htk.
Qed.

End InsightFrame.

Section EngineEndToEnd.

Variable uuidv4 : nat -> string.
Variable post : nat -> list (string * string) -> JsonRpcRequest -> AxiosOutcome.
Variable this : MozApiClient.
Variable now : string.

Lemma getCompetitorAnalysis_shape (primarySite : string)
      (competitorSites : option (list string)) (targetKeyword : string)
      (options : option Options) (n : nat) :
  let sites := match competitorSites with Some l => l | None => [] end in
  let locale := strOr (opt options locale) "en-US" in
  let requested :=
    match opt options include_keyword_analysis with
    | Some false => false
    | _ => true
    end in
  getCompetitorAnalysis uuidv4 post this now primarySite competitorSites
    targetKeyword options n
  = (Return (finalReport uuidv4 post this now primarySite sites targetKeyword
               locale requested n),
     (if requested then 4 else 0) + (3 * List.length sites + (3 + n))).
Proof.
  cbv zeta. unfold getCompetitorAnalysis. now rewrite assemble_shape.
Qed.

Lemma competitorEntries_objects (sites : list string) (locale : string) (n : nat) :
  Forall (fun c => Js.nullish c = false)
         (competitorEntries uuidv4 post this sites locale n).
Proof.
  revert n. induction sites as [| site rest IH]; intros n; constructor.
  - reflexivity.
  - apply IH.
Qed.

Lemma finalReport_insights (primarySite : string) (sites : list string)
      (targetKeyword locale : string) (requested : bool) (n : nat) :
  Js.member (finalReport uuidv4 post this now primarySite sites targetKeyword
               locale requested n) "insights"
  = JArr (map JStr
            (Insights.generateCompetitorInsights
               (baseReport uuidv4 post this now primarySite sites targetKeyword
                  locale requested n))).
Proof. reflexivity. Qed.

End EngineEndToEnd.

(** X9: the analysis issues exactly three requests for the primary
    site, three for each competitor and, unless the keyword analysis
    was declined, four for the keyword, whatever the outcomes of the
    requests: a failure neither repeats a request nor skips the later
    ones. *)
Theorem getCompetitorAnalysis_request_count
  (uuidv4 : nat -> string)
  (post : nat -> list (string * string) -> JsonRpcRequest -> AxiosOutcome)
  (this : MozApiClient) (now : string)
  (primarySite : string) (competitorSites : option (list string))
  (targetKeyword : string) (options : option Options) (n : nat) :
  let sites := match competitorSites with Some l => l | None => [] end in
  let keywordCalls :=
    match opt options include_keyword_analysis with
    | Some false => 0
    | _ => 4
    end in
  snd (getCompetitorAnalysis uuidv4 post this now primarySite competitorSites
         targetKeyword options n)
  = n + 3 + 3 * List.length sites + keywordCalls.
Proof.
  cbv zeta. rewrite getCompetitorAnalysis_shape. cbn [snd].
  destruct (opt options include_keyword_analysis) as [[|] |]; lia.
Qed.

(** X10: the report is an object whose keys are, in this order,
    primary_site, target_keyword, locale, analysis_timestamp,
    primary_site_data, competitor_data, keyword_analysis and insights,
    followed by competitor_identification_guidance exactly when no
    competitor site was given.  It echoes the primary site, the target
    keyword and the time of the call, and its locale is the one asked
    for, or en-US when none (or an empty one) was. *)
Theorem report_keys
  (uuidv4 : nat -> string)
  (post : nat -> list (string * string) -> JsonRpcRequest -> AxiosOutcome)
  (this : MozApiClient) (now : string)
  (primarySite : string) (competitorSites : option (list string))
  (targetKeyword : string) (options : option Options) (n : nat) :
  let sites := match competitorSites with Some l => l | None => [] end in
  exists report n',
    getCompetitorAnalysis uuidv4 post this now primarySite competitorSites
      targetKeyword options n = (Return report, n') /\
    keysOf report
    = (["primary_site"; "target_keyword"; "locale"; "analysis_timestamp";
        "primary_site_data"; "competitor_data"; "keyword_analysis"; "insights"]
       ++ match sites with
          | [] => ["competitor_identification_guidance"]
          | _ => []
          end)%list /\
    Js.member report "primary_site" = JStr primarySite /\
    Js.member report "target_keyword" = JStr targetKeyword /\
    Js.member report "analysis_timestamp" = JStr now /\
    Js.member report "locale"
    = JStr match opt options locale with
           | Some l => if l =? "" then "en-US" else l
           | None => "en-US"
           end.
Proof.
  cbv zeta. rewrite getCompetitorAnalysis_shape.
  eexists. eexists. split; [reflexivity |].
  split; [| repeat split].
  unfold finalReport, keysOf.
  destruct (match competitorSites with Some l => l | None => [] end); reflexivity.
Qed.

(** X11: the insights of the report are the ones its other fields
    determine: generating the insights again from the report that was
    returned gives the list the report holds. *)
Theorem report_insights_are_reproducible
  (uuidv4 : nat -> string)
  (post : nat -> list (string * string) -> JsonRpcRequest -> AxiosOutcome)
  (this : MozApiClient) (now : string)
  (primarySite : string) (competitorSites : option (list string))
  (targetKeyword : string) (options : option Options) (n : nat) :
  exists report n',
    getCompetitorAnalysis uuidv4 post this now primarySite competitorSites
      targetKeyword options n = (Return report, n') /\
    Js.member report "insights"
    = JArr (map JStr (Insights.generateCompetitorInsights report)).
Proof.
  rewrite getCompetitorAnalysis_shape.
  eexists. eexists. split; [reflexivity |].
  rewrite finalReport_insights.
  apply (f_equal (fun lines => JArr (map JStr lines))).
  apply generate_frame; reflexivity.
Qed.

Section Outage.

Import Insights.

Lemma isErrorMarker_shape (v : JsVal) :
  isErrorMarker v = true -> exists msg, v = errorMarker msg.
Proof.
  destruct v as [| | | | | | fields]; try discriminate.
  destruct fields as [| [k x] [| ? ?]]; try discriminate.
  - destruct x; try discriminate. cbn. intros Hk. apply String.eqb_eq in Hk.
    subst k. now eexists.
  - cbn. destruct x; discriminate.
Qed.

(** A report all of whose guarded calls for the primary site failed,
    with either no keyword analysis or a keyword analysis whose calls
    all failed, yields no insight. *)
Lemma generate_all_failed (ps t l ts : string) (m1 m2 m3 : string)
      (comps : list JsVal) (ka : JsVal) :
  Forall (fun c => Js.nullish c = false) comps ->
  Js.truthy (Js.chain ka ["difficulty"; "result"; "difficulty"]) = false ->
  Js.truthy (Js.chain ka ["volume"; "result"; "volume"]) = false ->
  generateCompetitorInsights
    (JObj (reportFields ps t l ts
             (JObj [("site_metrics", errorMarker m1);
                    ("brand_authority", errorMarker m2);
                    ("ranking_keywords", errorMarker m3)])
             (JArr comps) ka (JArr [])))
  = [].
Proof.
  intros Hcomps Hd Hv.
  set (analysis := JObj _).
  rewrite (generate_decompose analysis comps eq_refl eq_refl Hcomps).
  unfold blockOf, rankingTail.
  rewrite (brandAuthorityInsight_spec analysis eq_refl).
  rewrite (difficultyInsight_spec analysis eq_refl).
  rewrite (volumeInsight_spec analysis eq_refl).
  rewrite (comparisonInsight_unknown analysis eq_refl eq_refl).
  rewrite (rankingInsight_silent analysis eq_refl (or_introl eq_refl)).
  change (keywordDifficulty analysis)
    with (Js.chain ka ["difficulty"; "result"; "difficulty"]).
  change (keywordVolume analysis) with (Js.chain ka ["volume"; "result"; "volume"]).
  now rewrite Hd, Hv.
Qed.

End Outage.

(** X12: when every request fails, the analysis still returns a report:
    the three slots of the primary site and of every competitor hold
    error markers, and the list of insights is empty (no line, and no
    fallback note either). *)
Theorem total_outage_yields_empty_insights
  (uuidv4 : nat -> string)
  (post : nat -> list (string * string) -> JsonRpcRequest -> AxiosOutcome)
  (this : MozApiClient) (now : string)
  (primarySite : string) (competitorSites : option (list string))
  (targetKeyword : string) (options : option Options) (n : nat) :
  (forall k request, exists e, sendRequest post this k request = Throw e) ->
  exists report n',
    getCompetitorAnalysis uuidv4 post this now primarySite competitorSites
      targetKeyword options n = (Return report, n') /\
    Js.member report "insights" = JArr [] /\
    (forall slot,
        In slot ["site_metrics"; "brand_authority"; "ranking_keywords"] ->
        isErrorMarker (Js.chain report ["primary_site_data"; slot]) = true) /\
    exists entries,
      Js.member report "competitor_data" = JArr entries /\
      forall entry slot,
        In entry entries ->
        In slot ["site_metrics"; "brand_authority"; "ranking_keywords"] ->
        isErrorMarker (Js.member entry slot) = true.
Proof.
  intros Hout.
  assert (forall method params k,
             exists msg,
               settled (fst (call uuidv4 post this method params k)) = errorMarker msg)
    as Hcall.
  { intros method params k. unfold call. cbn [fst].
    destruct (Hout k (createRequest uuidv4 k method params)) as [e ->].
    now exists (message e). }
  assert (forall site locale k slot,
             In slot ["site_metrics"; "brand_authority"; "ranking_keywords"] ->
             isErrorMarker
               (Js.member (JObj (("site", JStr site)
                                 :: siteSlots uuidv4 post this site locale k)) slot)
             = true) as Hslots.
  { intros site locale k slot Hslot. unfold siteSlots.
    destruct (Hcall "data.site.metrics.fetch" (site_query site) k) as [m1 H1].
    destruct (Hcall "data.site.metrics.brand.authority.fetch" (site_query site) (1 + k))
      as [m2 H2].
    destruct (Hcall "data.site.ranking.keywords.list"
                (getSiteRankingKeywords_params site (Some (localeLimit100 locale)))
                (2 + k)) as [m3 H3].
    change (settled (fst (getSiteMetrics uuidv4 post this site k)))
      with (settled (fst (call uuidv4 post this "data.site.metrics.fetch"
                            (site_query site) k))).
    change (settled (fst (getSiteBrandAuthority uuidv4 post this site (1 + k))))
      with (settled (fst (call uuidv4 post this
                            "data.site.metrics.brand.authority.fetch"
                            (site_query site) (1 + k)))).
    change (settled (fst (getSiteRankingKeywords uuidv4 post this site
                            (Some (localeLimit100 locale)) (2 + k))))
      with (settled (fst (call uuidv4 post this "data.site.ranking.keywords.list"
                            (getSiteRankingKeywords_params site
                               (Some (localeLimit100 locale))) (2 + k)))).
    rewrite H1, H2, H3.
    destruct Hslot as [<- | [<- | [<- | []]]]; reflexivity. }
  rewrite getCompetitorAnalysis_shape.
  set (sites := match competitorSites with Some l => l | None => [] end).
  set (locale := strOr (opt options locale) "en-US").
  set (requested := match opt options include_keyword_analysis with
                    | Some false => false
                    | _ => true
                    end).
  eexists. eexists. split; [reflexivity |]. split; [| split].
  - rewrite finalReport_insights.
    match goal with
    | |- JArr (map JStr ?lines) = _ => enough (lines = []) as -> by reflexivity
    end.
    unfold baseReport, siteSlots.
    destruct (Hcall "data.site.metrics.fetch" (site_query primarySite) n) as [m1 H1].
    destruct (Hcall "data.site.metrics.brand.authority.fetch"
                (site_query primarySite) (1 + n)) as [m2 H2].
    destruct (Hcall "data.site.ranking.keywords.list"
                (getSiteRankingKeywords_params primarySite
                   (Some (localeLimit100 locale))) (2 + n)) as [m3 H3].
    change (settled (fst (getSiteMetrics uuidv4 post this primarySite n)))
      with (settled (fst (call uuidv4 post this "data.site.metrics.fetch"
                            (site_query primarySite) n))).
    change (settled (fst (getSiteBrandAuthority uuidv4 post this primarySite (1 + n))))
      with (settled (fst (call uuidv4 post this
                            "data.site.metrics.brand.authority.fetch"
                            (site_query primarySite) (1 + n)))).
    change (settled (fst (getSiteRankingKeywords uuidv4 post this primarySite
                            (Some (localeLimit100 locale)) (2 + n))))
      with (settled (fst (call uuidv4 post this "data.site.ranking.keywords.list"
                            (getSiteRankingKeywords_params primarySite
                               (Some (localeLimit100 locale))) (2 + n)))).
    rewrite H1, H2, H3.
    apply generate_all_failed.
    + apply competitorEntries_objects.
    + destruct requested; [| reflexivity].
      unfold keywordSlots, keywordFields.
      destruct (Hcall "data.keyword.metrics.difficulty.fetch"
                  (keyword_params targetKeyword (Some (localeOnly locale)))
                  (1 + (3 * List.length sites + (3 + n)))) as [m Hm].
      change (settled (fst (getKeywordDifficulty uuidv4 post this targetKeyword
                              (Some (localeOnly locale))
                              (1 + (3 * List.length sites + (3 + n))))))
        with (settled (fst (call uuidv4 post this
                              "data.keyword.metrics.difficulty.fetch"
                              (keyword_params targetKeyword (Some (localeOnly locale)))
                              (1 + (3 * List.length sites + (3 + n)))))).
      now rewrite Hm.
    + destruct requested; [| reflexivity].
      unfold keywordSlots, keywordFields.
      destruct (Hcall "data.keyword.metrics.volume.fetch"
                  (keyword_params targetKeyword (Some (localeOnly locale)))
                  (2 + (3 * List.length sites + (3 + n)))) as [m Hm].
      change (settled (fst (getKeywordVolume uuidv4 post this targetKeyword
                              (Some (localeOnly locale))
                              (2 + (3 * List.length sites + (3 + n))))))
        with (settled (fst (call uuidv4 post this
                              "data.keyword.metrics.volume.fetch"
                              (keyword_params targetKeyword (Some (localeOnly locale)))
                              (2 + (3 * List.length sites + (3 + n)))))).
      now rewrite Hm.
  - intros slot Hslot.
    pose proof (Hslots primarySite locale n slot Hslot) as Hm.
    destruct Hslot as [<- | [<- | [<- | []]]]; exact Hm.
  - exists (competitorEntries uuidv4 post this sites locale (3 + n)).
    split; [reflexivity |].
    intros entry slot Hentry Hslot.
    assert (forall k, In entry (competitorEntries uuidv4 post this sites locale k) ->
                      isErrorMarker (Js.member entry slot) = true) as Hany.
    { clear Hentry. induction sites as [| site rest IH]; intros k Hin; [contradiction |].
      destruct Hin as [<- | Hin]; [now apply Hslots | now apply (IH (3 + k))]. }
    now apply (Hany (3 + n)).
Qed.

(** The analysis of one competitor while the host is unreachable. *)
Lemma total_outage_yields_empty_insights_witness :
  exists report n',
    getCompetitorAnalysis (fun _ => "id") outage exampleClient
      "2024-01-01T00:00:00.000Z" "example.com" (Some ["c1.com"]) "seo" None 0
    = (Return report, n') /\
    Js.member report "insights" = JArr [] /\
    (forall slot,
        In slot ["site_metrics"; "brand_authority"; "ranking_keywords"] ->
        isErrorMarker (Js.chain report ["primary_site_data"; slot]) = true) /\
    exists entries,
      Js.member report "competitor_data" = JArr entries /\
      forall entry slot,
        In entry entries ->
        In slot ["site_metrics"; "brand_authority"; "ranking_keywords"] ->
        isErrorMarker (Js.member entry slot) = true.
Proof.
  apply total_outage_yields_empty_insights.
  intros k request. now eexists.
Defined.

Lemma quietList_readable (v : JsVal) : quietList v = true -> readableList v = true.
Proof.
  unfold quietList, readableList. intros H.
  apply orb_true_iff in H as [H | H]; apply orb_true_iff; [now left | right].
  destruct v as [| | | | | items |]; try discriminate.
  apply forallb_forall. intros kw Hin.
  rewrite forallb_forall in H. specialize (H kw Hin).
  now apply andb_true_iff in H as [H _].
Qed.

(** X13: the fallback note needs a value that a rule cannot read.  On
    a report whose target keyword is a string, whose primary brand
    authority, keyword difficulty and keyword volume are primitive
    values, whose competitor entries are not null and hold primitive
    brand authorities, and whose ranking list is nothing (a falsy
    value, as when the call failed) or an array of readable entries
    with primitive ranks, every rule runs to its end: the result
    holds no fallback note. *)
Theorem plain_report_has_no_fallback
  (fields : list (string * JsVal)) (comps : list JsVal) (target : string) :
  let analysis := JObj fields in
  Js.member analysis "target_keyword" = JStr target ->
  quietScores analysis = true ->
  Js.member analysis "competitor_data" = JArr comps ->
  Forall (fun c => Js.nullish c = false) comps ->
  quietCompetitors comps = true ->
  quietList (rankingList analysis) = true ->
  linesOf FallbackRule (Insights.generateCompetitorInsights analysis) = [] /\
  ~ In "Note: Some insights could not be generated due to data analysis issues"
       (Insights.generateCompetitorInsights analysis).
Proof.
  intros analysis Ht _ Hcd Hcomps _ Hlist.
  assert (linesOf FallbackRule (Insights.generateCompetitorInsights analysis) = [])
    as Hnone.
  { apply (no_fallback_on_readable_report analysis comps target eq_refl Ht Hcd Hcomps).
    now apply quietList_readable. }
  split; [exact Hnone |].
  intros Hin.
  assert (In "Note: Some insights could not be generated due to data analysis issues"
             (linesOf FallbackRule (Insights.generateCompetitorInsights analysis)))
    as Hin'.
  { unfold linesOf. apply filter_In. split; [exact Hin | reflexivity]. }
  rewrite Hnone in Hin'. contradiction.
Qed.

(** A report with every score, a competitor and a ranking list of two
    entries, one of them without a rank. *)
Lemma plain_report_has_no_fallback_witness :
  let entries :=
    [JObj [("keyword", JStr "moz pricing"); ("rank", JNum 2)];
     JObj [("keyword", JStr "Best SEO Tools 2024")]] in
  let keyword :=
    JObj [("keyword", JStr "seo tools");
          ("difficulty", JObj [("result", JObj [("difficulty", JNum 40)])]);
          ("volume", JObj [("result", JObj [("volume", JNum 1200)])])] in
  let analysis :=
    exampleReport "seo tools" (JNum 55) (JObj [("result", JArr entries)])
                  [exampleCompetitor "c1.com" (JNum 60)] keyword in
  linesOf FallbackRule (Insights.generateCompetitorInsights analysis) = [] /\
  ~ In "Note: Some insights could not be generated due to data analysis issues"
       (Insights.generateCompetitorInsights analysis).
Proof.
  intros entries keyword analysis.
  refine (plain_report_has_no_fallback
            (exampleFields "seo tools" (JNum 55) (JObj [("result", JArr entries)])
               [exampleCompetitor "c1.com" (JNum 60)] keyword)
            [exampleCompetitor "c1.com" (JNum 60)] "seo tools"
            eq_refl eq_refl eq_refl _ eq_refl eq_refl).
  repeat constructor.
Defined.

(** ** The tool dispatcher *)

Section DispatcherProperties.

Variable uuidv4 : nat -> string.
Variable post : nat -> list (string * string) -> JsonRpcRequest -> AxiosOutcome.
Variable mozClient : MozApiClient.
Variable now : string.
Variable McpError_message : ErrorCode -> string -> string.

Lemma snd_callTool (name : string) (args : option ToolArgs) (n : nat) :
  snd (callTool uuidv4 post mozClient now McpError_message name args n)
  = snd (dispatch uuidv4 post mozClient now McpError_message name args n).
Proof.
  unfold callTool.
  now destruct (dispatch uuidv4 post mozClient now McpError_message name args n)
    as [[r | e] n'].
Qed.

Lemma callTool_rejected (name : string) (args : option ToolArgs) (n : nat)
      (c : ErrorCode) (reason : string) :
  dispatch uuidv4 post mozClient now McpError_message name args n
  = (throwMcp McpError_message c reason, n) ->
  callTool uuidv4 post mozClient now McpError_message name args n
  = (inl (mkMcpError InternalError
            ("Error executing " ++ name ++ ": " ++ McpError_message c reason)), n).
Proof. unfold callTool. now intros ->. Qed.

Lemma withRequired_spec (args : option ToolArgs) (k : ToolArgs -> option string)
      (label : string) (run : string -> ToolArgs -> Remote (Completion JsVal))
      (n : nat) :
  withRequired McpError_message args k label run n
  = match args with
    | Some a =>
        if falsy (k a)
        then (throwMcp McpError_message InvalidParams
                ("Missing required parameter: " ++ label), n)
        else run (strOr (k a) "") a n
    | None =>
        (throwMcp McpError_message InvalidParams
           ("Missing required parameter: " ++ label), n)
    end.
Proof. reflexivity. Qed.

Lemma snd_getCompetitorAnalysis (primarySite : string)
      (competitorSites : option (list string)) (targetKeyword : string)
      (options : option Options) (n : nat) :
  n < snd (getCompetitorAnalysis uuidv4 post mozClient now primarySite
             competitorSites targetKeyword options n).
Proof. rewrite getCompetitorAnalysis_shape. cbn [snd]. lia. Qed.

End DispatcherProperties.

(** X14: the checks of the handler follow the schemas of the tools.
    For every registered tool, a call is rejected exactly when a
    property that the tool's schema requires is absent or falsy (an
    empty string counts as absent; an empty array does not).  A
    rejected call sends no request and fails as an internal error whose
    text names the tool and carries the message of the invalid-params
    error, which lists the required properties; a call that is not
    rejected sends at least one request. *)
Theorem validation_follows_schema
  (uuidv4 : nat -> string)
  (post : nat -> list (string * string) -> JsonRpcRequest -> AxiosOutcome)
  (mozClient : MozApiClient) (now : string)
  (McpError_message : ErrorCode -> string -> string)
  (tool : Tool) (args : option ToolArgs) (n : nat) :
  In tool listTools ->
  let run :=
    callTool uuidv4 post mozClient now McpError_message (tool_name tool) args n in
  if forallb (truthyArg args) (tool_required tool)
  then n < snd run
  else run = (inl (mkMcpError InternalError
                     ("Error executing " ++ tool_name tool ++ ": "
                      ++ McpError_message InvalidParams
                           (missingText (tool_required tool)))), n).
Proof.
  unfold listTools, tools, keywordTool.
  intros Hin. cbv zeta.
  repeat (destruct Hin as [<- | Hin]); try contradiction;
    cbn [tool_name tool_required forallb];
    (destruct args as [a |];
     [| try (apply callTool_rejected; reflexivity)]);
    cbn [truthyArg String.eqb Ascii.eqb Bool.eqb andb].
  all: try match goal with
           | |- context [falsy (?field ?x)] =>
               destruct (falsy (field x)) eqn:Hf; cbn [negb andb];
               [apply callTool_rejected; unfold dispatch;
                cbn [String.eqb Ascii.eqb Bool.eqb];
                rewrite ?withRequired_spec; cbn [missing orb]; rewrite Hf;
                reflexivity |]
           end.
  all: try match goal with
           | |- context [falsy (?field ?x)] =>
               destruct (falsy (field x)) eqn:Hg; cbn [negb andb];
               [apply callTool_rejected; unfold dispatch;
                cbn [String.eqb Ascii.eqb Bool.eqb];
                cbn [missing orb]; rewrite Hf, Hg; reflexivity |]
           end.
  all: try match goal with
           | |- context [arg_sites ?x] =>
               destruct (arg_sites x) eqn:Hs;
               [| apply callTool_rejected; unfold dispatch;
                  cbn [String.eqb Ascii.eqb Bool.eqb]; rewrite Hs; reflexivity]
           end.
  all: rewrite snd_callTool; unfold dispatch; cbn [String.eqb Ascii.eqb Bool.eqb];
    rewrite ?withRequired_spec; cbn [missing orb];
    rewrite ?Hf, ?Hg, ?Hs; cbn [orb];
    first [apply snd_getCompetitorAnalysis | cbn; lia].
Qed.

(** A keyword tool called with an empty keyword. *)
Lemma validation_follows_schema_witness :
  callTool (fun _ => "id") (answering JNull) exampleClient "2024-01-01T00:00:00.000Z"
    exampleMcpMessage "moz_keyword_search_intent" (Some (keywordArgs "")) 0
  = (inl (mkMcpError InternalError
            ("Error executing moz_keyword_search_intent: "
             ++ "MCP error -32602: Missing required parameter: keyword")), 0).
Proof.
  exact (validation_follows_schema (fun _ => "id") (answering JNull) exampleClient
           "2024-01-01T00:00:00.000Z" exampleMcpMessage
           (keywordTool "moz_keyword_search_intent") (Some (keywordArgs "")) 0
           (or_intror (or_introl eq_refl))).
Defined.

(** X15: a name that is not the name of a registered tool reaches no
    method of the client: the call sends no request and fails as an
    internal error whose text names the tool and carries the message of
    the method-not-found error.  Neither the invalid-params nor the
    method-not-found code ever leaves the handler: every failure of a
    call has the internal-error code. *)
Theorem unregistered_tool_is_rejected
  (uuidv4 : nat -> string)
  (post : nat -> list (string * string) -> JsonRpcRequest -> AxiosOutcome)
  (mozClient : MozApiClient) (now : string)
  (McpError_message : ErrorCode -> string -> string)
  (name : string) (args : option ToolArgs) (n : nat) :
  (~ In name (map tool_name listTools) ->
   callTool uuidv4 post mozClient now McpError_message name args n
   = (inl (mkMcpError InternalError
             ("Error executing " ++ name ++ ": "
              ++ McpError_message MethodNotFound ("Unknown tool: " ++ name))), n)) /\
  (forall failure n',
      callTool uuidv4 post mozClient now McpError_message name args n
      = (inl failure, n') ->
      code failure = InternalError /\
      exists reason, text failure = "Error executing " ++ name ++ ": " ++ reason).
Proof.
  split.
  - intros Hnot. apply callTool_rejected. unfold dispatch.
    repeat match goal with
           | |- context [name =? ?lit] =>
               let H := fresh "Hne" in
               assert ((name =? lit) = false) as H
                   by (apply String.eqb_neq; intros ->; apply Hnot; cbn; tauto);
               rewrite H; clear H
           end.
    reflexivity.
  - intros failure n'. unfold callTool.
    destruct (dispatch uuidv4 post mozClient now McpError_message name args n)
      as [[r | e] k]; [discriminate |].
    intros H. inversion H. cbn. split; [reflexivity | now eexists].
Qed.

(** A tool of the README that is not registered. *)
Lemma unregistered_tool_is_rejected_witness :
  callTool (fun _ => "id") (answering JNull) exampleClient "2024-01-01T00:00:00.000Z"
    exampleMcpMessage "moz_links" None 0
  = (inl (mkMcpError InternalError
            "Error executing moz_links: MCP error -32601: Unknown tool: moz_links"), 0).
Proof.
  apply (proj1 (unregistered_tool_is_rejected (fun _ => "id") (answering JNull)
                  exampleClient "2024-01-01T00:00:00.000Z" exampleMcpMessage
                  "moz_links" None 0)).
  cbn. intuition discriminate.
Defined.

(** X16: the defaults that the schemas of the tools declare are the
    ones in force.  For every registered tool and every property for
    which its schema declares a default, a call that omits the property
    and the same call with the property set to the declared default
    send the same requests and have the same outcome. *)
Theorem omitted_option_is_declared_default
  (uuidv4 : nat -> string)
  (post : nat -> list (string * string) -> JsonRpcRequest -> AxiosOutcome)
  (mozClient : MozApiClient) (now : string)
  (McpError_message : ErrorCode -> string -> string)
  (tool : Tool) (prop : string) (default : JsVal) (a : ToolArgs) (n : nat) :
  In tool listTools ->
  In (prop, Some default) (tool_properties tool) ->
  callTool uuidv4 post mozClient now McpError_message (tool_name tool)
    (Some (clearArg prop a)) n
  = callTool uuidv4 post mozClient now McpError_message (tool_name tool)
      (Some (setArg prop default a)) n.
Proof.
  unfold listTools, tools, keywordTool.
  intros Htool Hprop.
  repeat (destruct Htool as [<- | Htool]); try contradiction;
    cbn [tool_properties tool_name] in *;
    repeat (destruct Hprop as [Hprop | Hprop]); try contradiction;
    try discriminate;
    inversion Hprop; subst prop default;
    destruct a as [kw st sts ps cs tk lc en lm ika];
    unfold callTool, dispatch, withRequired, missing, given;
    cbn [String.eqb Ascii.eqb Bool.eqb clearArg setArg arg_keyword arg_site
         arg_sites arg_primary_site arg_competitor_sites arg_target_keyword
         arg_locale arg_engine arg_limit arg_include_keyword_analysis stringsOf];
    try reflexivity.
  all: try (destruct (falsy kw); reflexivity).
  all: try (destruct (falsy st); reflexivity).
  all: destruct (falsy ps); cbn [orb]; try reflexivity;
    destruct (falsy tk); reflexivity.
Qed.

(** The ranking keywords of a site, without a limit and with the limit
    100 of the schema. *)
Lemma omitted_option_is_declared_default_witness :
  let site := mkToolArgs None (Some "example.com") None None None None None None None None in
  let tool :=
    mkTool "moz_site_ranking_keywords"
      [("site", None); ("engine", Some (JStr "google"));
       ("locale", Some (JStr "en-US")); ("limit", Some (JNum 100))]
      ["site"] in
  callTool (fun _ => "id") (failingBetween 0 0) exampleClient "2024-01-01T00:00:00.000Z"
    exampleMcpMessage "moz_site_ranking_keywords" (Some (clearArg "limit" site)) 0
  = callTool (fun _ => "id") (failingBetween 0 0) exampleClient
      "2024-01-01T00:00:00.000Z" exampleMcpMessage "moz_site_ranking_keywords"
      (Some (setArg "limit" (JNum 100) site)) 0.
Proof.
  intros site tool.
  apply (omitted_option_is_declared_default (fun _ => "id") (failingBetween 0 0)
           exampleClient "2024-01-01T00:00:00.000Z" exampleMcpMessage
           tool "limit" (JNum 100) site 0).
  - unfold listTools, tools. cbn. tauto.
  - cbn. tauto.
Defined.
